(** * Assessment service (src/index.py): request handlers over a document store

    The handlers of class [Assessments] are embedded as functions in a
    state-and-exception monad.  Every call on a collaborator (document
    store, query builder, renderer, course helper, object storage) is
    answered by a host environment and recorded in a trace, so that
    statements such as "no query is issued" can be read off a run.

    Modelling decisions:
    - documents are Python values: [None], booleans, integers, strings,
      [ObjectId]s, lists and insertion-ordered dicts with string keys;
      floating-point numbers are outside the model;
    - the logger and [print] return nothing that the handlers use; their
      calls are not recorded, and the logger is taken never to raise;
    - exceptions are those that [except Exception] catches; what derives
      from BaseException alone (a cancelled task, an interrupt) is
      outside the model;
    - the authorization dependency has already run when a handler starts;
    - grade_assessment, which has no route, is embedded over its own
      trace, since it alone calls the bulk writer; generate_assessment
      only echoes the caller and is left out. *)

From Stdlib Require Import ZArith String Ascii List Bool Lia Permutation.
From Stdlib Require Import DecimalString DecimalZ DecimalPos.
Import ListNotations.
Local Open Scope string_scope.
Local Open Scope list_scope.
#[local] Set Warnings "-register-all".

(** ** Outcomes of fallible computations *)

Inductive outcome (E A : Type) : Type :=
| Ok (a : A)
| Err (e : E).
Arguments Ok {E A} a.
Arguments Err {E A} e.

Definition obind {E A B} (c : outcome E A) (k : A -> outcome E B) : outcome E B :=
  match c with
  | Ok a => k a
  | Err e => Err e
  end.

Notation "x <~ c ;; k" := (obind c (fun x => k))
  (at level 61, c at next level, right associativity).

Fixpoint omapM {E A B} (f : A -> outcome E B) (l : list A) : outcome E (list B) :=
  match l with
  | [] => Ok []
  | x :: rest => y <~ f x ;; ys <~ omapM f rest ;; Ok (y :: ys)
  end.

(** ** Python values *)

Inductive value : Type :=
| VNone
| VBool (b : bool)
| VInt (n : Z)
| VStr (s : string)
| VOid (o : string)          (* bson.ObjectId, held as its lowercase hex digits *)
| VList (l : list value)
| VDict (d : list (string * value)).

(** Exceptions raised by the Python runtime and by [bson]. *)
Inductive pyexn : Type := KeyError | TypeError | AttributeError | InvalidId.

(** Exceptions seen by a handler: [fastapi.HTTPException], a runtime
    exception, or any other exception class raised by a collaborator. *)
Inductive exn : Type :=
| HTTPException (status_code : Z) (detail : string)
| Builtin (e : pyexn)
| External (message : string).

Definition HTTP_400_BAD_REQUEST : Z := 400.
Definition HTTP_404_NOT_FOUND : Z := 404.
Definition HTTP_500_INTERNAL_SERVER_ERROR : Z := 500.

(** [bool(v)]. *)
Definition truthy (v : value) : bool :=
  match v with
  | VNone => false
  | VBool b => b
  | VInt n => negb (n =? 0)%Z
  | VStr s => negb (s =? "")%string
  | VOid _ => true
  | VList l => match l with [] => false | _ => true end
  | VDict d => match d with [] => false | _ => true end
  end.

(** [v == 0]. *)
Definition py_eq_zero (v : value) : bool :=
  match v with
  | VInt n => (n =? 0)%Z
  | VBool b => negb b
  | _ => false
  end.

(** ** Insertion-ordered dictionaries *)

Section OrderedDict.
Context {K V : Type} (eqb : K -> K -> bool).

Definition od_keys (d : list (K * V)) : list K := map fst d.
Definition od_values (d : list (K * V)) : list V := map snd d.

Fixpoint od_get (k : K) (d : list (K * V)) : option V :=
  match d with
  | [] => None
  | (k', v) :: rest => if eqb k k' then Some v else od_get k rest
  end.

(** [d[k] = v]: an existing key keeps its position. *)
Fixpoint od_set (k : K) (v : V) (d : list (K * V)) : list (K * V) :=
  match d with
  | [] => [(k, v)]
  | (k', v') :: rest =>
      if eqb k k' then (k', v) :: rest else (k', v') :: od_set k v rest
  end.

(** [del d[k]] when [k in d]; no change otherwise. *)
Fixpoint od_del (k : K) (d : list (K * V)) : list (K * V) :=
  match d with
  | [] => []
  | (k', v') :: rest =>
      if eqb k k' then rest else (k', v') :: od_del k rest
  end.

(** [d.update(other)], also the meaning of [**other] in a dict display. *)
Definition od_update (d other : list (K * V)) : list (K * V) :=
  fold_left (fun acc kv => od_set (fst kv) (snd kv) acc) other d.
End OrderedDict.

Definition dict := list (string * value).

Definition dget : string -> dict -> option value := od_get String.eqb.
Definition dset : string -> value -> dict -> dict := od_set String.eqb.
Definition ddel : string -> dict -> dict := od_del String.eqb.
Definition dupdate : dict -> dict -> dict := od_update String.eqb.

(** A Python dict has each key once. *)
Definition unique_keys (d : dict) : Prop := NoDup (od_keys d).

(** [v[k]] for a string [k]. *)
Definition subscript (v : value) (k : string) : outcome pyexn value :=
  match v with
  | VDict d => match dget k d with Some x => Ok x | None => Err KeyError end
  | _ => Err TypeError
  end.

(** [v.pop(k)] for a string [k]: the removed value and what is left. *)
Definition pop (v : value) (k : string) : outcome pyexn (value * value) :=
  match v with
  | VDict d =>
      match dget k d with
      | Some x => Ok (x, VDict (ddel k d))
      | None => Err KeyError
      end
  | VList _ => Err TypeError
  | _ => Err AttributeError
  end.

(** [v[k] = x] for a string [k]. *)
Definition store_item (v : value) (k : string) (x : value) : outcome pyexn value :=
  match v with
  | VDict d => Ok (VDict (dset k x d))
  | _ => Err TypeError
  end.

Fixpoint chars_of (s : string) : list value :=
  match s with
  | EmptyString => []
  | String c rest => VStr (String c EmptyString) :: chars_of rest
  end.

(** [for x in v]: the elements visited. *)
Definition py_iter (v : value) : outcome pyexn (list value) :=
  match v with
  | VList l => Ok l
  | VDict d => Ok (map VStr (od_keys d))
  | VStr s => Ok (chars_of s)
  | _ => Err TypeError
  end.

(** Hashable values as dictionary keys; [True == 1] and [False == 0]. *)
Inductive hkey : Type :=
| KNone
| KInt (n : Z)
| KStr (s : string)
| KOid (o : string).

Definition to_key (v : value) : outcome pyexn hkey :=
  match v with
  | VNone => Ok KNone
  | VBool b => Ok (KInt (if b then 1 else 0))
  | VInt n => Ok (KInt n)
  | VStr s => Ok (KStr s)
  | VOid o => Ok (KOid o)
  | VList _ | VDict _ => Err TypeError
  end.

Definition hkey_eqb (a b : hkey) : bool :=
  match a, b with
  | KNone, KNone => true
  | KInt n, KInt m => (n =? m)%Z
  | KStr s, KStr t => (s =? t)%string
  | KOid s, KOid t => (s =? t)%string
  | _, _ => false
  end.

(** ** bson.ObjectId *)

Definition between (lo hi : nat) (c : ascii) : bool :=
  Nat.leb lo (nat_of_ascii c) && Nat.leb (nat_of_ascii c) hi.

(* Py_ISSPACE: blank, \t, \n, \v, \f, \r *)
Definition is_space (c : ascii) : bool :=
  between 32 32 c || between 9 13 c.

Definition is_hex (c : ascii) : bool :=
  between 48 57 c || between 65 70 c || between 97 102 c.

Definition lower (c : ascii) : ascii :=
  if between 65 70 c then ascii_of_nat (nat_of_ascii c + 32) else c.

(** [bytes.fromhex] followed by hexlify: pairs of hex digits, blanks
    allowed between pairs. *)
Fixpoint fromhex (cs : list ascii) : option (list ascii) :=
  match cs with
  | [] => Some []
  | c :: rest =>
      if is_space c then fromhex rest
      else match rest with
           | d :: rest' =>
               if is_hex c && is_hex d
               then option_map (fun r => lower c :: lower d :: r) (fromhex rest')
               else None
           | [] => None
           end
  end.

(** [ObjectId(s)] for a string [s]. *)
Definition ObjectId (s : string) : outcome pyexn string :=
  if (String.length s =? 24)%nat then
    match fromhex (list_ascii_of_string s) with
    | Some h => Ok (string_of_list_ascii h)
    | None => Err InvalidId
    end
  else Err InvalidId.

(** ** Request models (pydantic, app.models.models) *)

Record Question : Type := {
  q_question_id : value;
  q_question_latex : value;
  q_marks : value
}.

Record AssessmentSection : Type := {
  s_section_name : value;
  s_description : value;
  s_questions : list Question
}.

Record Assessment : Type := {
  a_name : value;
  a_course : value;
  a_start_date : value;
  a_end_date : value;
  a_total_time : value;
  a_total_marks : value;
  a_lessons : value;
  a_questions : option (list AssessmentSection)   (* [None] is Python's None *)
}.

Record EditAssessment : Type := {
  e_assessment_id : string;
  e_assessment : Assessment
}.

Record ListAssessments : Type := {
  l_filters : option dict      (* [None]: attribute absent or None *)
}.

Record AssessmentId : Type := {
  i_assessment_id : string
}.

Record AssessmentCourse : Type := {
  c_assessment_id : string;
  c_course : value
}.

(** ** Calls on collaborators *)

Inductive call : Type :=
(* self.latex_renderer *)
| generate_assessment_document
    (assessment_type assessment_id : string) (assessment : Assessment + EditAssessment)
(* self.mongo_driver *)
| insert_one (collection document : value)
| find_one (collection query : value)
| find (collection query : value)
| update_one (collection query update_data : value)
| delete_one (collection query : value)
| delete_many (collection query : value)
| run_assessments_list_aggregation (collection pipeline : value)
(* self.query_generator *)
| generate_assessment_list_query (query_params : ListAssessments)
(* app.utils.course.Course *)
| Course (course_id : value)
| get_question_library_collection (course_id : value)
| get_course_students (course_id : value)
(* app.connectors.storage.CloudStorage *)
| CloudStorage
| create_signed_url (object_url : value).

(** The host: how collaborators answer in a world [W], the clock, the
    ObjectId generator, and Python's rendering of lists and dicts as text
    (which no handler inspects). *)
Record Host (W : Type) : Type := {
  respond : call -> W -> outcome exn value * W;
  utcnow : W -> value * W;
  new_object_id : W -> string * W;
  repr : value -> string
}.
Arguments respond {W}.
Arguments utcnow {W}.
Arguments new_object_id {W}.
Arguments repr {W}.

(** ** The handler monad: a world, a trace of calls, and exceptions *)

Section Service.
Context {W : Type} (host : Host W).

Definition state : Type := (W * list call)%type.
Definition M (A : Type) : Type := state -> outcome exn A * state.

Definition ret {A} (a : A) : M A := fun s => (Ok a, s).
Definition raise {A} (e : exn) : M A := fun s => (Err e, s).

Definition bind {A B} (c : M A) (k : A -> M B) : M B :=
  fun s => match c s with
           | (Ok a, s') => k a s'
           | (Err e, s') => (Err e, s')
           end.

(** [try: c  except Exception as e: h e]. *)
Definition try_except {A} (c : M A) (h : exn -> M A) : M A :=
  fun s => match c s with
           | (Ok a, s') => (Ok a, s')
           | (Err e, s') => h e s'
           end.

Definition lift {A} (c : outcome pyexn A) : M A :=
  fun s => (match c with Ok a => Ok a | Err e => Err (Builtin e) end, s).

(** A call on a collaborator: the host answers, the trace grows. *)
Definition invoke (c : call) : M value :=
  fun s => let (r, w') := respond host c (fst s) in (r, (w', snd s ++ [c])).

(** [datetime.utcnow()]. *)
Definition now : M value :=
  fun s => let (v, w') := utcnow host (fst s) in (Ok v, (w', snd s)).

(** [ObjectId()]. *)
Definition fresh : M string :=
  fun s => let (o, w') := new_object_id host (fst s) in (Ok o, (w', snd s)).
End Service.

Notation "x <- c ;; k" := (bind c (fun x => k))
  (at level 61, c at next level, right associativity).

Section Handlers.
Context {W : Type} (host : Host W).
#[local] Abbreviation M := (@M W).

Fixpoint mapM {A B} (f : A -> M B) (l : list A) : M (list B) :=
  match l with
  | [] => ret []
  | x :: rest => y <- f x ;; ys <- mapM f rest ;; ret (y :: ys)
  end.

(** [str(v)], also what an f-string field [{v}] produces. *)
Definition py_str (v : value) : string :=
  match v with
  | VNone => "None"
  | VBool true => "True"
  | VBool false => "False"
  | VInt n => NilZero.string_of_int (Z.to_int n)
  | VStr s => s
  | VOid o => o
  | VList _ | VDict _ => repr host v
  end.

(** [ObjectId(v)]: [None] asks for a new identifier. *)
Definition to_ObjectId (v : value) : M string :=
  match v with
  | VNone => fresh host
  | VStr s => lift (ObjectId s)
  | VOid o => ret o
  | _ => raise (Builtin TypeError)
  end.

(** The outer [except] clauses shared by the handlers: an HTTPException
    passes through, anything else becomes a 500 with a fixed detail. *)
Definition boundary {A} (detail : string) (body : M A) : M A :=
  try_except body
    (fun e => match e with
              | HTTPException _ _ => raise e
              | _ => raise (HTTPException HTTP_500_INTERNAL_SERVER_ERROR detail)
              end).

Definition success (key : string) (v : value) : value :=
  VDict [("status", VStr "success"); (key, v)].

Definition type_db (assesment_type : string) : value :=
  VStr (assesment_type ++ "_db")%string.

Definition course_type_db (collection_name : value) (assesment_type : string) : value :=
  VStr (py_str collection_name ++ "_" ++ assesment_type ++ "_db")%string.

(** *** create_assessment, edit_assessment: the stored document *)

Definition question_stub (question : Question) : value :=
  VDict [("question_id", q_question_id question);
         ("question_latex", q_question_latex question);
         ("marks", q_marks question)].

Definition section_doc (section : AssessmentSection) : value :=
  VDict [("section_name", s_section_name section);
         ("description", s_description section);
         ("questions", VList (map question_stub (s_questions section)))].

Definition assessment_doc (assessment : Assessment)
    (sections : list AssessmentSection) (last_updated : value) : dict :=
  [("name", a_name assessment);
   ("course", a_course assessment);
   ("start_date", a_start_date assessment);
   ("end_date", a_end_date assessment);
   ("total_time", a_total_time assessment);
   ("total_marks", a_total_marks assessment);
   ("lessons", a_lessons assessment);
   ("questions", VList (map section_doc sections));
   ("last_updated", last_updated)].

Definition create_assessment (assessment : Assessment) (assesment_type : string) : M value :=
  boundary "Internal server error"
    match a_questions assessment with
    | None | Some [] =>
        raise (HTTPException HTTP_400_BAD_REQUEST
                 "Assessment must contain at least one question")
    | Some sections =>
        last_updated <- now host ;;
        let assessment_data := assessment_doc assessment sections last_updated in
        assessment_id <- fresh host ;;
        let assessment_data := dset "_id" (VOid assessment_id) assessment_data in
        question_paper <-
          invoke host (generate_assessment_document assesment_type assessment_id (inl assessment)) ;;
        let assessment_data := dset "question_paper" question_paper assessment_data in
        assessment_id <-
          invoke host (insert_one (type_db assesment_type) (VDict assessment_data)) ;;
        ret (success "assessment_id" assessment_id)
    end.

Definition edit_assessment (assessment : EditAssessment) (assesment_type : string) : M value :=
  boundary "Internal server error"
    (let assessment_id := e_assessment_id assessment in
     match a_questions (e_assessment assessment) with
     | None => raise (Builtin TypeError)
     | Some sections =>
         last_updated <- now host ;;
         let assessment_data := assessment_doc (e_assessment assessment) sections last_updated in
         question_paper <-
           invoke host (generate_assessment_document assesment_type assessment_id (inr assessment)) ;;
         let assessment_data := dset "question_paper" question_paper assessment_data in
         obj_id <- lift (ObjectId assessment_id) ;;
         let query := VDict [("_id", VOid obj_id)] in
         stat <- invoke host (update_one (type_db assesment_type) query (VDict assessment_data)) ;;
         ret (success "assessment_id" (VStr assessment_id))
     end).

(** *** list_assessments *)

Definition valid_filters : list string := ["course_id"; "year"; "month"].

Definition invalid_filters (filters : dict) : list string :=
  filter (fun f => negb (existsb (String.eqb f) valid_filters)) (od_keys filters).

Definition check_filters (assessment_filter : ListAssessments) : M unit :=
  match l_filters assessment_filter with
  | Some ((_ :: _) as filters) =>
      match invalid_filters filters with
      | [] => ret tt
      | names =>
          raise (HTTPException HTTP_400_BAD_REQUEST
                   ("Invalid filter name(s): " ++ String.concat ", " names)%string)
      end
  | _ => ret tt
  end.

Definition list_assessments (assessment_filter : ListAssessments) (assesment_type : string) : M value :=
  boundary "Internal server error"
    (_ <- check_filters assessment_filter ;;
     aggregation_pipeline <- invoke host (generate_assessment_list_query assessment_filter) ;;
     assessments_list <-
       invoke host (run_assessments_list_aggregation (type_db assesment_type) aggregation_pipeline) ;;
     if truthy assessments_list
     then ret (success "data" assessments_list)
     else ret (success "data" (VList []))).

(** *** get_assessment_details *)

(** [[ObjectId(q['question_id']) for section in assessment_data['questions']
     for q in section['questions']]]. *)
Definition question_ids_of (assessment_data : value) : M (list value) :=
  sections <- lift (questions <~ subscript assessment_data "questions" ;; py_iter questions) ;;
  per_section <-
    mapM (fun section =>
            qs <- lift (questions <~ subscript section "questions" ;; py_iter questions) ;;
            mapM (fun q =>
                    question_id <- lift (subscript q "question_id") ;;
                    oid <- to_ObjectId question_id ;;
                    ret (VOid oid)) qs)
         sections ;;
  ret (concat per_section).

(** One turn of the loop over [questions_data]: [_id] becomes a string
    [id], and the document is filed under it. *)
Definition file_question (questions_data_map : dict) (question : value) : outcome pyexn dict :=
  popped <~ pop question "_id" ;;
  let id := py_str (fst popped) in
  question <~ store_item (snd popped) "id" (VStr id) ;;
  Ok (dset id question questions_data_map).

Fixpoint file_questions (questions_data_map : dict) (questions : list value) : outcome pyexn dict :=
  match questions with
  | [] => Ok questions_data_map
  | question :: rest =>
      questions_data_map <~ file_question questions_data_map question ;;
      file_questions questions_data_map rest
  end.

Definition build_questions_data_map (questions_data : value) : outcome pyexn dict :=
  questions <~ py_iter questions_data ;;
  file_questions [] questions.

(** [questions_data_map[key]]: the map has string keys only. *)
Definition lookup_question (questions_data_map : dict) (key : value) : outcome pyexn value :=
  k <~ to_key key ;;
  match k with
  | KStr s =>
      match dget s questions_data_map with
      | Some question_data => Ok question_data
      | None => Err KeyError
      end
  | _ => Err KeyError
  end.

(** The body of the inner loop, for the stub at one index. *)
Definition merge_question (questions_data_map : dict) (question : value) : outcome pyexn value :=
  question_id <~ subscript question "question_id" ;;
  question_data <~ lookup_question questions_data_map question_id ;;
  question_marks <~ subscript question "marks" ;;
  match question, question_data with
  | VDict stub, VDict full => Ok (VDict (dset "marks" question_marks (dupdate stub full)))
  | VDict _, _ => Err TypeError
  | _, _ => Err AttributeError
  end.

(** The stubs are updated in place: a list keeps its place in the
    section, any other iterable is left as it was. *)
Definition merge_section (questions_data_map : dict) (section : value) : outcome pyexn value :=
  questions <~ subscript section "questions" ;;
  stubs <~ py_iter questions ;;
  merged <~ omapM (merge_question questions_data_map) stubs ;;
  match questions with
  | VList _ => store_item section "questions" (VList merged)
  | _ => Ok section
  end.

Definition merge_sections (questions_data_map : dict) (assessment_data : value) : outcome pyexn value :=
  questions <~ subscript assessment_data "questions" ;;
  sections <~ py_iter questions ;;
  merged <~ omapM (merge_section questions_data_map) sections ;;
  match questions with
  | VList _ => store_item assessment_data "questions" (VList merged)
  | _ => Ok assessment_data
  end.

(** The statements after the question-library query has answered. *)
Definition resolve_questions (questions_data assessment_data : value) : outcome pyexn value :=
  questions_data_map <~ build_questions_data_map questions_data ;;
  merge_sections questions_data_map assessment_data.

(** The statements up to the answer of the question-library query: the
    assessment as prepared for output, and the documents found. *)
Definition fetch_details (assessment : AssessmentId) (assesment_type : string)
    : M (value * value) :=
  let assessment_id := i_assessment_id assessment in
  oid <- lift (ObjectId assessment_id) ;;
  let assessment_query := VDict [("_id", VOid oid)] in
  assessment_data <- invoke host (find_one (type_db assesment_type) assessment_query) ;;
  if negb (truthy assessment_data)
  then raise (HTTPException HTTP_404_NOT_FOUND "No Data found for given assessment")
  else
    popped <- lift (pop assessment_data "_id") ;;
    assessment_data <- lift (store_item (snd popped) "id" (VStr (py_str (fst popped)))) ;;
    question_ids <- question_ids_of assessment_data ;;
    _ <- invoke host CloudStorage ;;
    object_url <- lift (subscript assessment_data "question_paper") ;;
    signed_url <- invoke host (create_signed_url object_url) ;;
    assessment_data <- lift (store_item assessment_data "question_paper" signed_url) ;;
    let questions_data_query := VDict [("_id", VDict [("$in", VList question_ids)])] in
    course <- lift (subscript assessment_data "course") ;;
    _ <- invoke host (Course course) ;;
    collection_name <- invoke host (get_question_library_collection course) ;;
    questions_data <- invoke host (find collection_name questions_data_query) ;;
    ret (assessment_data, questions_data).

(** The [try] block of the handler. *)
Definition details_body (assessment : AssessmentId) (assesment_type : string) : M value :=
  fetched <- fetch_details assessment assesment_type ;;
  assessment_data <- lift (resolve_questions (snd fetched) (fst fetched)) ;;
  ret (success "data" assessment_data).

Definition get_assessment_details (assessment : AssessmentId) (assesment_type : string) : M value :=
  boundary "Internal server error" (details_body assessment assesment_type).

(** *** get_assessment_student_grades *)

(** [{student['student_id']: student for student in students_data}]. *)
Fixpoint students_mapping_of (students : list value) (acc : list (hkey * value))
    : outcome pyexn (list (hkey * value)) :=
  match students with
  | [] => Ok acc
  | student :: rest =>
      student_id <~ subscript student "student_id" ;;
      k <~ to_key student_id ;;
      students_mapping_of rest (od_set hkey_eqb k student acc)
  end.

(** The record synthesised for a student without grades. *)
Definition placeholder (assessment_id course student : value) : outcome pyexn value :=
  match student with
  | VDict fields =>
      Ok (VDict (dset "status" VNone
                (dset "marks" VNone
                (dupdate [("assessment_id", assessment_id); ("course_id", course)] fields))))
  | _ => Err TypeError
  end.

(** The loop over the stored grades: [_id] is dropped and the student
    leaves the mapping. *)
Fixpoint strike_graded (student_grades : list value) (students_mapping : list (hkey * value))
    : outcome pyexn (list value * list (hkey * value)) :=
  match student_grades with
  | [] => Ok ([], students_mapping)
  | student_grade :: rest =>
      popped <~ pop student_grade "_id" ;;
      let student_grade := snd popped in
      student_id <~ subscript student_grade "student_id" ;;
      k <~ to_key student_id ;;
      done <~ strike_graded rest (od_del hkey_eqb k students_mapping) ;;
      Ok (student_grade :: fst done, snd done)
  end.

(** Both branches after the grade query has answered.  A value that is
    true and not a list has a first element without [pop], so only a
    list reaches [append]. *)
Definition reconcile (assessment_id course students_data student_grades : value)
    (students_mapping : list (hkey * value)) : outcome pyexn value :=
  if negb (truthy student_grades) then
    students <~ py_iter students_data ;;
    data <~ omapM (placeholder assessment_id course) students ;;
    Ok (VList data)
  else
    grades <~ py_iter student_grades ;;
    done <~ strike_graded grades students_mapping ;;
    missing <~ omapM (placeholder assessment_id course) (od_values (snd done)) ;;
    Ok (VList (fst done ++ missing)).

Definition get_assessment_student_grades
    (assessment_course : AssessmentCourse) (assesment_type : string) : M value :=
  boundary "Failed to fetch student grades"
    (let assessment_id := VStr (c_assessment_id assessment_course) in
     let course := c_course assessment_course in
     _ <- invoke host (Course course) ;;
     collection_name <- invoke host (get_question_library_collection course) ;;
     students_data <- invoke host (get_course_students course) ;;
     students_mapping <-
       lift (students <~ py_iter students_data ;; students_mapping_of students []) ;;
     let query := VDict [("assessment_id", assessment_id); ("course_id", course)] in
     student_grades <-
       invoke host (find (course_type_db collection_name assesment_type) query) ;;
     data <- lift (reconcile assessment_id course students_data student_grades students_mapping) ;;
     ret (success "data" data)).

(** *** delete_assessment *)

Definition deleted_message (deleted_count : value) : string :=
  ("Assessment and associated " ++ py_str deleted_count
     ++ " student grade documents deleted successfully")%string.

(** The inner [try] only rebinds [result] when [delete_many] returns;
    whatever is raised inside it is swallowed. *)
Definition delete_assessment
    (course_assessment : AssessmentCourse) (assesment_type : string) : M value :=
  boundary "Failed to delete assessment"
    (let assessment_id := c_assessment_id course_assessment in
     let course := c_course course_assessment in
     oid <- lift (ObjectId assessment_id) ;;
     let query := VDict [("_id", VOid oid)] in
     result <- invoke host (delete_one (type_db assesment_type) query) ;;
     deleted_count <- lift (subscript result "deleted_count") ;;
     if py_eq_zero deleted_count
     then raise (HTTPException HTTP_404_NOT_FOUND "Assessment not found")
     else
       _ <- invoke host (Course course) ;;
       collection_name <- invoke host (get_question_library_collection course) ;;
       result <-
         try_except
           (let query := VDict [("assessment_id", VStr assessment_id); ("course_id", course)] in
            invoke host (delete_many (course_type_db collection_name assesment_type) query))
           (fun _ => ret result) ;;
       deleted_count <- lift (subscript result "deleted_count") ;;
       ret (success "message" (VStr (deleted_message deleted_count)))).
End Handlers.

(** Running a handler from a world, with an empty trace. *)
Definition run {W A} (m : M (W:=W) A) (w : W) : outcome exn A * W * list call :=
  match m (w, []) with
  | (r, (w', trace)) => (r, w', trace)
  end.

(** ** Vocabulary of the statements *)

(** Deciding that a record is a Python dict: each field once. *)
Fixpoint distinct (l : list string) : bool :=
  match l with
  | [] => true
  | x :: rest => negb (existsb (String.eqb x) rest) && distinct rest
  end.

(** The student a roster entry or a grade record is about. *)
Definition student_key (record : value) : option hkey :=
  match subscript record "student_id" with
  | Ok student_id =>
      match to_key student_id with
      | Ok k => Some k
      | Err _ => None
      end
  | Err _ => None
  end.

(** A roster entry: a record, each field once, with a hashable student_id. *)
Definition roster_entry (student : value) : bool :=
  match student with
  | VDict fields =>
      distinct (od_keys fields)
      && match student_key student with Some _ => true | None => false end
  | _ => false
  end.

(** A stored grade record: a record with [_id] and a hashable student_id. *)
Definition grade_record (student_grade : value) : bool :=
  match student_grade with
  | VDict fields =>
      match dget "_id" fields with Some _ => true | None => false end
      && match student_key student_grade with Some _ => true | None => false end
  | _ => false
  end.

(** What a placeholder holds: null marks and status, the student it is
    about, the request's identifiers where the roster entry has no field
    of that name, and every field of the roster entry other than marks
    and status. *)
Definition placeholder_for (assessment_id course student entry : value) : Prop :=
  subscript entry "marks" = Ok VNone
  /\ subscript entry "status" = Ok VNone
  /\ student_key entry = student_key student
  /\ (subscript student "assessment_id" = Err KeyError ->
      subscript entry "assessment_id" = Ok assessment_id)
  /\ (subscript student "course_id" = Err KeyError ->
      subscript entry "course_id" = Ok course)
  /\ (forall k v, k <> "marks" -> k <> "status" ->
                  subscript student k = Ok v -> subscript entry k = Ok v).

(** Equality of students. *)
Definition okey_eqb (a b : option hkey) : bool :=
  match a, b with
  | Some x, Some y => hkey_eqb x y
  | None, None => true
  | _, _ => false
  end.

(** Whether some stored grade is about this roster student. *)
Definition graded_in (student_grades : list value) (student : value) : bool :=
  existsb (fun gk => okey_eqb gk (student_key student)) (map student_key student_grades).

(** A grade record once [_id] is popped. *)
Definition without_id (student_grade : value) : value :=
  match student_grade with
  | VDict fields => VDict (ddel "_id" fields)
  | other => other
  end.

(** Entries of the mapping that no grade in [gks] strikes off. *)
Definition struck (gks : list hkey) (kv : hkey * value) : bool :=
  negb (existsb (fun gk => hkey_eqb gk (fst kv)) gks).

(** The list under ["questions"]: the sections of an assessment, the
    stubs of a section. *)
Definition listed (v : value) : list value :=
  match subscript v "questions" with
  | Ok (VList l) => l
  | _ => []
  end.

(** What the merge leaves in place of a stub: every field of the library
    document other than marks has the library's value, and marks is the
    stub's. *)
Definition merged_stub (questions_data_map : dict) (stub merged : value) : Prop :=
  exists (question_id : string) (full : dict),
    subscript stub "question_id" = Ok (VStr question_id)
    /\ dget question_id questions_data_map = Some (VDict full)
    /\ (forall k, k <> "marks" -> In k (od_keys full) ->
        subscript merged k = subscript (VDict full) k)
    /\ subscript merged "marks" = subscript stub "marks".

(** Documents answered by a query are records, each field once. *)
Definition proper_records (documents : value) : bool :=
  match documents with
  | VList l => forallb (fun d => match d with
                                 | VDict fields => distinct (od_keys fields)
                                 | _ => true
                                 end) l
  | _ => true
  end.

(** Every document filed in the map is a record, each field once. *)
Definition filed_records (questions_data_map : dict) : Prop :=
  forall k v, dget k questions_data_map = Some v ->
              exists full, v = VDict full /\ unique_keys full.

(** The calls edit_assessment may make. *)
Definition renders_or_updates (c : call) : bool :=
  match c with
  | generate_assessment_document _ _ _ | update_one _ _ _ => true
  | _ => false
  end.

(** ** An in-memory document store *)

(** Modelled from the spec: the document-store connector
    (app.connectors.mongo.MongoDBConnector) is not among the sources.  Its
    state is a set of collections, each "keyed by collection name" and
    holding documents. *)
Definition store : Type := string -> list value.

(** Equality of field values in a query; only scalars are compared. *)
Definition scalar_eqb (a b : value) : bool :=
  match a, b with
  | VNone, VNone => true
  | VBool x, VBool y => Bool.eqb x y
  | VInt x, VInt y => (x =? y)%Z
  | VStr x, VStr y => (x =? y)%string
  | VOid x, VOid y => (x =? y)%string
  | _, _ => false
  end.

(** Modelled from the spec: the missing connector's reading of a query such
    as "{assessment identifier, course}": a document matches when it
    carries each field of the query with the query's value. *)
Definition matches (query : dict) (document : value) : bool :=
  forallb (fun kv => match subscript document (fst kv) with
                     | Ok x => scalar_eqb x (snd kv)
                     | Err _ => false
                     end) query.

Fixpoint remove_first (p : value -> bool) (documents : list value) : list value :=
  match documents with
  | [] => []
  | d :: rest => if p d then rest else d :: remove_first p rest
  end.

Definition put (st : store) (collection : string) (documents : list value) : store :=
  fun c => if (c =? collection)%string then documents else st c.

(** The answer of a deletion: the number of records removed. *)
Definition deleted (n : nat) : value := VDict [("deleted_count", VInt (Z.of_nat n))].

(** Modelled from the spec: delete_one of the missing connector.  It
    "deletes the assessment record by identifier"; "zero documents
    deleted" means that there was none. *)
Definition store_delete_one (collection : string) (query : dict) (st : store) : value * store :=
  if existsb (matches query) (st collection)
  then (deleted 1, put st collection (remove_first (matches query) (st collection)))
  else (deleted 0, st).

(** Modelled from the spec: delete_many of the missing connector.  It
    "deletes all grade records matching" the query and reports how many
    were removed. *)
Definition store_delete_many (collection : string) (query : dict) (st : store) : value * store :=
  (deleted (length (filter (matches query) (st collection))),
   put st collection (filter (fun d => negb (matches query d)) (st collection))).

(** Modelled from the spec: a host over the store in place of the missing
    connector.  Deletions act on the store unless marked as failing;
    every other call is answered from a table. *)
Definition in_memory (failing : call -> bool) (others : call -> outcome exn value) : Host store :=
  {| respond := fun c st =>
       match c with
       | delete_one (VStr collection) (VDict query) =>
           if failing c then (Err (External "document store unavailable"), st)
           else let (r, st') := store_delete_one collection query st in (Ok r, st')
       | delete_many (VStr collection) (VDict query) =>
           if failing c then (Err (External "document store unavailable"), st)
           else let (r, st') := store_delete_many collection query st in (Ok r, st')
       | _ => (others c, st)
       end;
     utcnow := fun st => (VStr "2024-05-01 09:30:00", st);
     new_object_id := fun st => ("65f0a1b2c3d4e5f60718293a", st);
     repr := fun _ => "" |}.

(** ** Hosts and requests used as concrete inputs *)

(** A host without state: every call is answered from a table. *)
Definition scripted (answers : call -> outcome exn value) : Host unit :=
  {| respond := fun c w => (answers c, w);
     utcnow := fun w => (VStr "2024-05-01 09:30:00", w);
     new_object_id := fun w => ("65f0a1b2c3d4e5f60718293a", w);
     repr := fun _ => "" |}.

Definition assessment_only (c : call) : outcome exn value :=
  match c with
  | delete_one _ _ => Ok (VDict [("deleted_count", VInt 1)])
  | Course _ => Ok VNone
  | get_question_library_collection _ => Ok (VStr "math101")
  | _ => Err (External "connection lost")
  end.

Definition no_assessment (c : call) : outcome exn value :=
  match c with
  | delete_one _ _ => Ok (VDict [("deleted_count", VInt 0)])
  | _ => Err (External "connection lost")
  end.

Definition quiz_of_math101 : AssessmentCourse :=
  {| c_assessment_id := "65f0a1b2c3d4e5f60718293a"; c_course := VStr "MATH101" |}.

Definition grade_of (assessment_id student : string) (marks : Z) : value :=
  VDict [("_id", VOid "65f0a1b2c3d4e5f607182940");
         ("assessment_id", VStr assessment_id);
         ("course_id", VStr "MATH101");
         ("student_id", VStr student);
         ("marks", VInt marks);
         ("status", VStr "graded")].

Definition campus : store :=
  fun c =>
    if (c =? "quiz_db")%string then
      [VDict [("_id", VOid "65f0a1b2c3d4e5f60718293a"); ("name", VStr "Quiz 1")]]
    else if (c =? "math101_quiz_db")%string then
      [grade_of "65f0a1b2c3d4e5f60718293a" "s1" 7;
       grade_of "65f0a1b2c3d4e5f60718293b" "s1" 4;
       grade_of "65f0a1b2c3d4e5f60718293a" "s2" 9]
    else [].

Definition course_helper (c : call) : outcome exn value :=
  match c with
  | Course _ => Ok VNone
  | get_question_library_collection _ => Ok (VStr "math101")
  | _ => Err (External "connection lost")
  end.

Definition empty_paper : Assessment :=
  {| a_name := VStr "Quiz 1";
     a_course := VStr "MATH101";
     a_start_date := VStr "2024-05-02";
     a_end_date := VStr "2024-05-03";
     a_total_time := VInt 45;
     a_total_marks := VInt 20;
     a_lessons := VList [VStr "fractions"];
     a_questions := Some [] |}.

Definition accepting (c : call) : outcome exn value :=
  match c with
  | generate_assessment_document _ _ _ => Ok (VStr "gs://papers/quiz1.pdf")
  | insert_one _ _ => Ok (VStr "65f0a1b2c3d4e5f60718293a")
  | update_one _ _ _ => Ok (VDict [("matched_count", VInt 0); ("modified_count", VInt 0)])
  | _ => Ok VNone
  end.

Definition section_a : AssessmentSection :=
  {| s_section_name := VStr "A";
     s_description := VStr "Short answers";
     s_questions :=
       [{| q_question_id := VStr "65f0a1b2c3d4e5f607182a01";
           q_question_latex := VStr "$1/2 + 1/3$";
           q_marks := VInt 5 |}] |}.

Definition revised_paper : EditAssessment :=
  {| e_assessment_id := "65f0a1b2c3d4e5f60718293a";
     e_assessment :=
       {| a_name := VStr "Quiz 1";
          a_course := VStr "MATH101";
          a_start_date := VStr "2024-05-02";
          a_end_date := VStr "2024-05-03";
          a_total_time := VInt 45;
          a_total_marks := VInt 5;
          a_lessons := VList [VStr "fractions"];
          a_questions := Some [section_a] |} |}.

Definition ada : value :=
  VDict [("student_id", VStr "s1"); ("name", VStr "Ada")].

Definition grace : value :=
  VDict [("student_id", VStr "s2"); ("name", VStr "Grace")].

Definition roster_without_grades (c : call) : outcome exn value :=
  match c with
  | Course _ => Ok VNone
  | get_question_library_collection _ => Ok (VStr "math101")
  | get_course_students _ => Ok (VList [ada; grace])
  | find _ _ => Ok (VList [])
  | _ => Err (External "connection lost")
  end.

(** A roster entry that has a course_id of its own keeps it. *)
Definition visiting_student : value :=
  VDict [("student_id", VStr "s3"); ("course_id", VStr "PHYS201")].

Definition roster_with_visitor (c : call) : outcome exn value :=
  match c with
  | Course _ => Ok VNone
  | get_question_library_collection _ => Ok (VStr "math101")
  | get_course_students _ => Ok (VList [visiting_student])
  | find _ _ => Ok (VList [])
  | _ => Err (External "connection lost")
  end.

Definition visitor_entry : value :=
  VDict [("assessment_id", VStr "65f0a1b2c3d4e5f60718293a");
         ("course_id", VStr "PHYS201");
         ("student_id", VStr "s3");
         ("marks", VNone);
         ("status", VNone)].

Definition roster_with_one_grade (c : call) : outcome exn value :=
  match c with
  | Course _ => Ok VNone
  | get_question_library_collection _ => Ok (VStr "math101")
  | get_course_students _ => Ok (VList [ada; grace])
  | find _ _ => Ok (VList [grade_of "65f0a1b2c3d4e5f60718293a" "s2" 9])
  | _ => Err (External "connection lost")
  end.

(** A grade stored for a student who has left the roster. *)
Definition roster_after_withdrawal (c : call) : outcome exn value :=
  match c with
  | Course _ => Ok VNone
  | get_question_library_collection _ => Ok (VStr "math101")
  | get_course_students _ => Ok (VList [ada])
  | find _ _ => Ok (VList [grade_of "65f0a1b2c3d4e5f60718293a" "s2" 9])
  | _ => Err (External "connection lost")
  end.

Definition data_after_withdrawal : list value :=
  [VDict [("assessment_id", VStr "65f0a1b2c3d4e5f60718293a");
          ("course_id", VStr "MATH101");
          ("student_id", VStr "s2");
          ("marks", VInt 9);
          ("status", VStr "graded")];
   VDict [("assessment_id", VStr "65f0a1b2c3d4e5f60718293a");
          ("course_id", VStr "MATH101");
          ("student_id", VStr "s1");
          ("name", VStr "Ada");
          ("marks", VNone);
          ("status", VNone)]].

Definition stub_1 : value :=
  VDict [("question_id", VStr "65f0a1b2c3d4e5f607182a01");
         ("question_latex", VStr "$1/2 + 1/3$");
         ("marks", VInt 5)].

Definition stub_2 : value :=
  VDict [("question_id", VStr "65f0a1b2c3d4e5f607182a02");
         ("question_latex", VStr "$2/3 - 1/6$");
         ("marks", VInt 3)].

Definition quiz_1 : value :=
  VDict [("_id", VOid "65f0a1b2c3d4e5f60718293a");
         ("name", VStr "Quiz 1");
         ("course", VStr "MATH101");
         ("questions",
          VList [VDict [("section_name", VStr "A");
                        ("description", VStr "Short answers");
                        ("questions", VList [stub_1; stub_2])]]);
         ("question_paper", VStr "gs://papers/quiz1.pdf")].

Definition library_1 : value :=
  VDict [("_id", VOid "65f0a1b2c3d4e5f607182a01");
         ("question_latex", VStr "$\frac{1}{2} + \frac{1}{3}$");
         ("marks", VInt 1);
         ("topic", VStr "fractions")].

Definition library_2 : value :=
  VDict [("_id", VOid "65f0a1b2c3d4e5f607182a02");
         ("question_latex", VStr "$\frac{2}{3} - \frac{1}{6}$");
         ("marks", VInt 1);
         ("topic", VStr "fractions")].

Definition library (documents : list value) (c : call) : outcome exn value :=
  match c with
  | find_one _ _ => Ok quiz_1
  | CloudStorage => Ok VNone
  | create_signed_url _ => Ok (VStr "https://storage.example/quiz1.pdf?sig=9f2c")
  | Course _ => Ok VNone
  | get_question_library_collection _ => Ok (VStr "math101_questions")
  | find _ _ => Ok (VList documents)
  | _ => Err (External "connection lost")
  end.

Definition quiz_request : AssessmentId :=
  {| i_assessment_id := "65f0a1b2c3d4e5f60718293a" |}.

Definition quiz_1_details : value :=
  VDict
    [("status", VStr "success");
     ("data",
      VDict
        [("name", VStr "Quiz 1");
         ("course", VStr "MATH101");
         ("questions",
          VList
            [VDict
               [("section_name", VStr "A");
                ("description", VStr "Short answers");
                ("questions",
                 VList
                   [VDict [("question_id", VStr "65f0a1b2c3d4e5f607182a01");
                           ("question_latex", VStr "$\frac{1}{2} + \frac{1}{3}$");
                           ("marks", VInt 5);
                           ("topic", VStr "fractions");
                           ("id", VStr "65f0a1b2c3d4e5f607182a01")];
                    VDict [("question_id", VStr "65f0a1b2c3d4e5f607182a02");
                           ("question_latex", VStr "$\frac{2}{3} - \frac{1}{6}$");
                           ("marks", VInt 3);
                           ("topic", VStr "fractions");
                           ("id", VStr "65f0a1b2c3d4e5f607182a02")]])]]);
         ("question_paper", VStr "https://storage.example/quiz1.pdf?sig=9f2c");
         ("id", VStr "65f0a1b2c3d4e5f60718293a")])].

Definition quiz_1_calls : list call :=
  [find_one (VStr "quiz_db") (VDict [("_id", VOid "65f0a1b2c3d4e5f60718293a")]);
   CloudStorage;
   create_signed_url (VStr "gs://papers/quiz1.pdf");
   Course (VStr "MATH101");
   get_question_library_collection (VStr "MATH101");
   find (VStr "math101_questions")
     (VDict [("_id", VDict [("$in", VList [VOid "65f0a1b2c3d4e5f607182a01";
                                           VOid "65f0a1b2c3d4e5f607182a02"])])])].

(** ** grade_assessment *)

(** The request model of grade_assessment; each entry of [marks] is held
    as its [model_dump()]. *)
Record AssessmentMarks : Type := {
  m_assessment_id : string;
  m_course : value;
  m_marks : list dict
}.

(** The calls that only grade_assessment makes. *)
Inductive grading_call : Type :=
(* self.query_generator *)
| generate_assessment_grading_query (grades : value)
(* self.mongo_driver *)
| bulk_write (collection operations : value).

(** The calls of grade_assessment in order: those it shares with the
    other handlers, and its own. *)
Inductive grading_event : Type :=
| shared (c : call)
| grading (c : grading_call).

Section Grading.
Context {W : Type} (host : Host W).
Context (grader : grading_call -> W -> outcome exn value * W).

Definition GM (A : Type) : Type :=
  W * list grading_event -> outcome exn A * (W * list grading_event).

Definition gret {A} (a : A) : GM A := fun s => (Ok a, s).

Definition gbind {A B} (c : GM A) (k : A -> GM B) : GM B :=
  fun s => match c s with
           | (Ok a, s') => k a s'
           | (Err e, s') => (Err e, s')
           end.

Definition call_shared (c : call) : GM value :=
  fun s => let (r, w') := respond host c (fst s) in (r, (w', snd s ++ [shared c])).

Definition call_grading (c : grading_call) : GM value :=
  fun s => let (r, w') := grader c (fst s) in (r, (w', snd s ++ [grading c])).

(** The [except] clauses of grade_assessment. *)
Definition grading_boundary {A} (detail : string) (body : GM A) : GM A :=
  fun s => match body s with
           | (Ok a, s') => (Ok a, s')
           | (Err (HTTPException status_code d), s') => (Err (HTTPException status_code d), s')
           | (Err _, s') => (Err (HTTPException HTTP_500_INTERNAL_SERVER_ERROR detail), s')
           end.

(** [{"assessment_id": assessment_id, "course_id": course, **grade.model_dump()}]. *)
Definition grade_document (assessment_id course : value) (grade : dict) : value :=
  VDict (dupdate [("assessment_id", assessment_id); ("course_id", course)] grade).

Definition grade_assessment (grades : AssessmentMarks) (assesment_type : string) : GM value :=
  grading_boundary "Failed to update assessment data to database"
    (let assessment_id := VStr (m_assessment_id grades) in
     let course := m_course grades in
     let student_grades := VList (map (grade_document assessment_id course) (m_marks grades)) in
     gbind (call_shared (Course course)) (fun _ =>
     gbind (call_shared (get_question_library_collection course)) (fun collection_name =>
     gbind (call_grading (generate_assessment_grading_query student_grades))
       (fun bulk_upload_query =>
     gbind (call_grading (bulk_write (course_type_db host collection_name assesment_type)
                            bulk_upload_query)) (fun result =>
     gret (success "data" result)))))).
End Grading.

Definition run_grading {W A} (m : GM (W:=W) A) (w : W)
    : outcome exn A * W * list grading_event :=
  match m (w, []) with
  | (r, (w', trace)) => (r, w', trace)
  end.

(** ** Vocabulary of further statements *)

(** Calls that change nothing: queries, and the helpers that resolve
    names and sign links. *)
Definition reads_only (c : call) : bool :=
  match c with
  | find_one _ _ | find _ _ | run_assessments_list_aggregation _ _
  | generate_assessment_list_query _
  | Course _ | get_question_library_collection _ | get_course_students _
  | CloudStorage | create_signed_url _ => true
  | _ => false
  end.

(** A computation that adds only calls satisfying [p] to the trace. *)
Definition calls_within {W A} (p : call -> bool) (c : M (W:=W) A) : Prop :=
  forall s, forallb p (snd s) = true -> forallb p (snd (snd (c s))) = true.

(** What the outer [except] clauses make of an exception. *)
Definition at_boundary (detail : string) (e : exn) : exn :=
  match e with
  | HTTPException _ _ => e
  | _ => HTTPException HTTP_500_INTERNAL_SERVER_ERROR detail
  end.

(** Fields that the merge leaves alone on a stub: every field other than
    marks that the library document filed under the stub's question_id
    does not have. *)
Definition stub_fields_kept (questions_data_map : dict) (stub merged : value) : Prop :=
  exists (question_id : value) (full : dict),
    subscript stub "question_id" = Ok question_id
    /\ lookup_question questions_data_map question_id = Ok (VDict full)
    /\ forall k, k <> "marks" -> dget k full = None ->
                 subscript merged k = subscript stub k.

(** Every field but ["questions"] reads the same in both records. *)
Definition same_but_questions (before after : value) : Prop :=
  forall k, k <> "questions" -> subscript after k = subscript before k.

(** ** Further hosts and requests used as concrete inputs *)

Definition new_paper : Assessment := e_assessment revised_paper.

Definition renderer_down (c : call) : outcome exn value :=
  match c with
  | generate_assessment_document _ _ _ => Err (External "latex failed")
  | _ => Ok VNone
  end.

Definition by_course_and_year : ListAssessments :=
  {| l_filters := Some [("course_id", VStr "MATH101"); ("year", VInt 2024)] |}.

Definition nothing_listed (c : call) : outcome exn value :=
  match c with
  | generate_assessment_list_query _ =>
      Ok (VList [VDict [("$match", VDict [("course", VStr "MATH101")])]])
  | run_assessments_list_aggregation _ _ => Ok VNone
  | _ => Err (External "connection lost")
  end.

Definition nothing_found (c : call) : outcome exn value :=
  match c with
  | find_one _ _ => Ok VNone
  | _ => Err (External "connection lost")
  end.

Definition mistyped_paper : EditAssessment :=
  {| e_assessment_id := "quiz-1"; e_assessment := new_paper |}.

Definition blank_paper : EditAssessment :=
  {| e_assessment_id := "65f0a1b2c3d4e5f60718293a"; e_assessment := empty_paper |}.

Definition helper_down (c : call) : outcome exn value :=
  match c with
  | delete_one _ _ => Ok (VDict [("deleted_count", VInt 1)])
  | Course _ => Ok VNone
  | _ => Err (External "course service unavailable")
  end.

Definition nameless : value := VDict [("name", VStr "Grace")].

Definition roster_with_nameless (c : call) : outcome exn value :=
  match c with
  | Course _ => Ok VNone
  | get_question_library_collection _ => Ok (VStr "math101")
  | get_course_students _ => Ok (VList [ada; nameless])
  | _ => Err (External "connection lost")
  end.

Definition grade_without_id : value :=
  VDict [("student_id", VStr "s1"); ("marks", VInt 3)].

Definition roster_with_broken_grade (c : call) : outcome exn value :=
  match c with
  | Course _ => Ok VNone
  | get_question_library_collection _ => Ok (VStr "math101")
  | get_course_students _ => Ok (VList [ada; grace])
  | find _ _ => Ok (VList [grade_of "65f0a1b2c3d4e5f60718293a" "s2" 9; grade_without_id])
  | _ => Err (External "connection lost")
  end.

Definition ada_again : value :=
  VDict [("student_id", VStr "s1"); ("name", VStr "Ada L.")].

Definition library_map : dict :=
  [("65f0a1b2c3d4e5f607182a01",
    VDict [("question_latex", VStr "$\frac{1}{2} + \frac{1}{3}$");
           ("marks", VInt 1);
           ("topic", VStr "fractions");
           ("id", VStr "65f0a1b2c3d4e5f607182a01")]);
   ("65f0a1b2c3d4e5f607182a02",
    VDict [("question_latex", VStr "$\frac{2}{3} - \frac{1}{6}$");
           ("marks", VInt 1);
           ("topic", VStr "fractions");
           ("id", VStr "65f0a1b2c3d4e5f607182a02")])].

Definition quiz_1_merged : value :=
  VDict [("_id", VOid "65f0a1b2c3d4e5f60718293a");
         ("name", VStr "Quiz 1");
         ("course", VStr "MATH101");
         ("questions",
          VList
            [VDict
               [("section_name", VStr "A");
                ("description", VStr "Short answers");
                ("questions",
                 VList
                   [VDict [("question_id", VStr "65f0a1b2c3d4e5f607182a01");
                           ("question_latex", VStr "$\frac{1}{2} + \frac{1}{3}$");
                           ("marks", VInt 5);
                           ("topic", VStr "fractions");
                           ("id", VStr "65f0a1b2c3d4e5f607182a01")];
                    VDict [("question_id", VStr "65f0a1b2c3d4e5f607182a02");
                           ("question_latex", VStr "$\frac{2}{3} - \frac{1}{6}$");
                           ("marks", VInt 3);
                           ("topic", VStr "fractions");
                           ("id", VStr "65f0a1b2c3d4e5f607182a02")]])]]);
         ("question_paper", VStr "gs://papers/quiz1.pdf")].

Definition two_marks : AssessmentMarks :=
  {| m_assessment_id := "65f0a1b2c3d4e5f60718293a";
     m_course := VStr "MATH101";
     m_marks := [[("student_id", VStr "s1"); ("marks", VInt 7); ("status", VStr "graded")];
                 [("student_id", VStr "s2"); ("marks", VInt 9); ("status", VStr "graded")]] |}.

Definition bulk_grader (c : grading_call) (w : unit) : outcome exn value * unit :=
  match c with
  | generate_assessment_grading_query grades => (Ok (VList [VStr "UpdateOne"; grades]), w)
  | bulk_write _ _ => (Ok (VDict [("upserted_count", VInt 2)]), w)
  end.

(** * Proofs *)

(** ** Steps of a run, forwards and backwards *)

Section Steps.
Context {W : Type} (host : Host W).

Lemma bind_ok {A B} (c : M A) (k : A -> M B) (s s' : W * list call) (a : A) :
  c s = (Ok a, s') -> bind c k s = k a s'.
Proof. intros H. unfold bind. now rewrite H. Qed.

Lemma bind_err {A B} (c : M A) (k : A -> M B) (s s' : W * list call) (e : exn) :
  c s = (Err e, s') -> bind c k s = (Err e, s').
Proof. intros H. unfold bind. now rewrite H. Qed.

Lemma invoke_answer (c : call) (w w' : W) (tr : list call) (r : outcome exn value) :
  respond host c w = (r, w') -> invoke host c (w, tr) = (r, (w', tr ++ [c])).
Proof. intros H. unfold invoke. simpl. now rewrite H. Qed.

Lemma now_answer (w w' : W) (tr : list call) (v : value) :
  utcnow host w = (v, w') -> now host (w, tr) = (Ok v, (w', tr)).
Proof. intros H. unfold now. simpl. now rewrite H. Qed.

Lemma fresh_answer (w w' : W) (tr : list call) (o : string) :
  new_object_id host w = (o, w') -> fresh host (w, tr) = (Ok o, (w', tr)).
Proof. intros H. unfold fresh. simpl. now rewrite H. Qed.

Lemma lift_ok {A} (c : outcome pyexn A) (a : A) (s : W * list call) :
  c = Ok a -> lift c s = (Ok a, s).
Proof. intros ->. reflexivity. Qed.

Lemma lift_err {A} (c : outcome pyexn A) (e : pyexn) (s : W * list call) :
  c = Err e -> lift (W:=W) c s = (Err (Builtin e), s).
Proof. intros ->. reflexivity. Qed.
End Steps.

Ltac step_with H :=
  first
    [ erewrite (bind_ok _ _ _ _ _ (invoke_answer _ _ _ _ _ _ H))
    | erewrite (bind_err _ _ _ _ _ (invoke_answer _ _ _ _ _ _ H))
    | erewrite (bind_ok _ _ _ _ _ (now_answer _ _ _ _ _ H))
    | erewrite (bind_ok _ _ _ _ _ (fresh_answer _ _ _ _ _ H))
    | erewrite (bind_ok _ _ _ _ _ (lift_ok _ _ _ H))
    | erewrite (bind_err _ _ _ _ _ (lift_err _ _ _ H)) ];
  cbv beta.

Section Inversion.
Context {W : Type} (host : Host W).

Lemma bind_ok_inv {A B} (c : M A) (k : A -> M B) (s s' : W * list call) (b : B) :
  bind c k s = (Ok b, s') ->
  exists a s1, c s = (Ok a, s1) /\ k a s1 = (Ok b, s').
Proof.
  unfold bind. destruct (c s) as [[a|e] s1]; intros H; [|discriminate].
  now exists a, s1.
Qed.

Lemma boundary_ok_inv {A} (detail : string) (body : M A) (s s' : W * list call) (a : A) :
  boundary detail body s = (Ok a, s') -> body s = (Ok a, s').
Proof.
  unfold boundary, try_except. destruct (body s) as [[x|e] s1]; intros H.
  - exact H.
  - destruct e; discriminate H.
Qed.

Lemma boundary_builtin {A} (detail : string) (body : M A) (s s' : W * list call) (e : pyexn) :
  body s = (Err (Builtin e), s') ->
  boundary detail body s = (Err (HTTPException HTTP_500_INTERNAL_SERVER_ERROR detail), s').
Proof. intros H. unfold boundary, try_except. now rewrite H. Qed.

Lemma invoke_ok_inv (c : call) (s s' : W * list call) (v : value) :
  invoke host c s = (Ok v, s') ->
  respond host c (fst s) = (Ok v, fst s') /\ snd s' = snd s ++ [c].
Proof.
  unfold invoke. destruct (respond host c (fst s)) as [r w1].
  intros H. injection H as -> <-. now split.
Qed.

Lemma lift_ok_inv {A} (c : outcome pyexn A) (s s' : W * list call) (a : A) :
  lift c s = (Ok a, s') -> c = Ok a /\ s' = s.
Proof.
  unfold lift. destruct c; intros H; [|discriminate].
  injection H as -> <-. now split.
Qed.
End Inversion.

Ltac invert_bind H a s Hc :=
  apply bind_ok_inv in H; destruct H as [a [s [Hc H]]].

(** ** Strings and numbers *)

(** Decimal rendering of integers is injective, so the number shown in a
    message determines the count. *)
Lemma to_int_not_nil (n : Z) :
  Z.to_int n <> Decimal.Pos Decimal.Nil /\ Z.to_int n <> Decimal.Neg Decimal.Nil.
Proof.
  destruct n as [|p|p]; simpl; split; try discriminate;
    intros H; injection H as H; now apply DecimalPos.Unsigned.to_uint_nonnil in H.
Qed.

Lemma string_of_Z_inj (n m : Z) :
  NilZero.string_of_int (Z.to_int n) = NilZero.string_of_int (Z.to_int m) -> n = m.
Proof.
  intros H. apply DecimalZ.to_int_inj.
  destruct (to_int_not_nil n) as [Hn1 Hn2], (to_int_not_nil m) as [Hm1 Hm2].
  pose proof (NilZero.isi _ Hn1 Hn2) as Hn.
  pose proof (NilZero.isi _ Hm1 Hm2) as Hm.
  rewrite H in Hn. rewrite Hn in Hm. now injection Hm.
Qed.

Lemma append_cancel_l (a x y : string) : (a ++ x = a ++ y)%string -> x = y.
Proof.
  induction a as [|c a IH]; simpl; intros H; [exact H|].
  injection H as H. now apply IH.
Qed.

Lemma length_append (a b : string) :
  String.length (a ++ b)%string = String.length a + String.length b.
Proof. induction a as [|c a IH]; simpl; [reflexivity | now rewrite IH]. Qed.

Lemma append_cancel_r (b x y : string) : (x ++ b = y ++ b)%string -> x = y.
Proof.
  revert y. induction x as [|c x IH]; intros [|d y] H; simpl in H.
  - reflexivity.
  - apply (f_equal String.length) in H. simpl in H.
    rewrite length_append in H. lia.
  - apply (f_equal String.length) in H. simpl in H.
    rewrite length_append in H. lia.
  - injection H as -> H. f_equal. now apply IH.
Qed.

Lemma deleted_message_inj {W} (host : Host W) (a b : value) :
  deleted_message host a = deleted_message host b -> py_str host a = py_str host b.
Proof.
  unfold deleted_message. intros H.
  apply append_cancel_l in H. now apply append_cancel_r in H.
Qed.

Lemma grade_collection_differs (prefix assesment_type : string) :
  ((prefix ++ "_" ++ assesment_type ++ "_db") =? (assesment_type ++ "_db"))%string = false.
Proof.
  apply String.eqb_neq. intros H.
  apply (f_equal String.length) in H.
  rewrite !length_append in H. simpl in H. lia.
Qed.

(** ** Lists *)

Lemma length_kept_removed {A} (p : A -> bool) (l : list A) :
  length (filter (fun x => negb (p x)) l) + length (filter p l) = length l.
Proof.
  induction l as [|x l IH]; simpl; [reflexivity|].
  destruct (p x); simpl; lia.
Qed.

Lemma filter_twice {A} (p q : A -> bool) (l : list A) :
  filter p (filter q l) = filter (fun x => q x && p x) l.
Proof.
  induction l as [|x l IH]; simpl; [reflexivity|].
  destruct (q x); simpl; [destruct (p x)|]; now rewrite IH.
Qed.

Lemma map_filter_key {A B} (f : A -> B) (p : B -> bool) (l : list A) :
  map f (filter (fun x => p (f x)) l) = filter p (map f l).
Proof.
  induction l as [|x l IH]; simpl; [reflexivity|].
  destruct (p (f x)); simpl; now rewrite IH.
Qed.

Lemma forallb_filter {A} (p q : A -> bool) (l : list A) :
  forallb p l = true -> forallb p (filter q l) = true.
Proof.
  rewrite !forallb_forall. intros H x Hx. apply filter_In in Hx. now apply H.
Qed.

Lemma Forall2_left_In {A B} (P : A -> B -> Prop) (l : list A) (l' : list B) (x : A) :
  Forall2 P l l' -> In x l -> exists y, P x y.
Proof.
  intros H. induction H as [|a b l l' Hab _ IH]; intros Hin; [contradiction|].
  destruct Hin as [<- | Hin]; [now exists b | now apply IH].
Qed.

Lemma map_Some_inj {A} (l l' : list A) : map Some l = map Some l' -> l = l'.
Proof.
  revert l'. induction l as [|x l IH]; intros [|y l'] H; simpl in H;
    try discriminate; [reflexivity|].
  injection H as -> H. f_equal. now apply IH.
Qed.

Lemma NoDup_map_Some {A} (l : list A) : NoDup (map Some l) -> NoDup l.
Proof.
  induction l as [|x l IH]; simpl; intros H; [constructor|].
  inversion H as [|y m Hnotin Hrest]; subst.
  constructor; [|now apply IH].
  intros Hin. apply Hnotin. now apply in_map.
Qed.

Lemma omapM_Forall2 {E A B} (f : A -> outcome E B) (l : list A) :
  (forall x, In x l -> exists y, f x = Ok y) ->
  exists ys, omapM f l = Ok ys /\ Forall2 (fun x y => f x = Ok y) l ys.
Proof.
  induction l as [|x l IH]; intros Hall.
  - exists []. split; [reflexivity | constructor].
  - destruct (Hall x (or_introl eq_refl)) as [y Hy].
    destruct IH as [ys [Hys Hrel]]; [intros z Hz; apply Hall; now right|].
    exists (y :: ys). split.
    + simpl. rewrite Hy. simpl. now rewrite Hys.
    + now constructor.
Qed.

Lemma omapM_ok_Forall2 {E A B} (f : A -> outcome E B) (l : list A) (ys : list B) :
  omapM f l = Ok ys -> Forall2 (fun x y => f x = Ok y) l ys.
Proof.
  revert ys. induction l as [|x l IH]; simpl; intros ys H.
  - injection H as <-. constructor.
  - destruct (f x) as [y|] eqn:Ey; [|discriminate]. simpl in H.
    destruct (omapM f l) as [ys'|]; [|discriminate]. simpl in H.
    injection H as <-. constructor; [exact Ey | now apply IH].
Qed.

Lemma distinct_NoDup (l : list string) : distinct l = true -> NoDup l.
Proof.
  induction l as [|x l IH]; simpl; intros H; [constructor|].
  apply andb_true_iff in H. destruct H as [Hx Hl].
  constructor; [|now apply IH].
  intros Hin. apply negb_true_iff in Hx.
  assert (existsb (String.eqb x) l = true) as Hex.
  { apply existsb_exists. exists x. split; [exact Hin | apply String.eqb_refl]. }
  congruence.
Qed.

(** ** Insertion-ordered dictionaries *)

Section OrderedDictFacts.
Context {K V : Type} (eqb : K -> K -> bool).
Hypothesis eqb_eq : forall a b, eqb a b = true <-> a = b.

#[local] Abbreviation get := (od_get (V:=V) eqb).
#[local] Abbreviation set := (od_set (V:=V) eqb).
#[local] Abbreviation del := (od_del (V:=V) eqb).
#[local] Abbreviation update := (od_update (V:=V) eqb).

Lemma eqb_same (a : K) : eqb a a = true.
Proof. now apply eqb_eq. Qed.

Lemma eqb_differ (a b : K) : a <> b -> eqb a b = false.
Proof.
  intros H. destruct (eqb a b) eqn:E; [|reflexivity].
  apply eqb_eq in E. contradiction.
Qed.

Lemma od_get_set_same (k : K) (v : V) (d : list (K * V)) :
  get k (set k v d) = Some v.
Proof.
  induction d as [|[k' v'] d IH]; simpl.
  - now rewrite eqb_same.
  - destruct (eqb k k') eqn:E; simpl; rewrite E; [reflexivity | exact IH].
Qed.

Lemma od_get_set_other (k k' : K) (v : V) (d : list (K * V)) :
  k <> k' -> get k (set k' v d) = get k d.
Proof.
  intros Hne. induction d as [|[k2 v2] d IH]; simpl.
  - now rewrite eqb_differ.
  - destruct (eqb k' k2) eqn:E; simpl.
    + apply eqb_eq in E. subst k2. now rewrite eqb_differ.
    + now rewrite IH.
Qed.

Lemma od_get_del_other (k k' : K) (d : list (K * V)) :
  k <> k' -> get k (del k' d) = get k d.
Proof.
  intros Hne. induction d as [|[k2 v2] d IH]; simpl; [reflexivity|].
  destruct (eqb k' k2) eqn:E; simpl.
  - apply eqb_eq in E. subst k2. now rewrite eqb_differ.
  - now rewrite IH.
Qed.

Lemma od_get_absent (k : K) (d : list (K * V)) :
  get k d = None <-> ~ In k (od_keys d).
Proof.
  induction d as [|[k' v'] d IH]; simpl; [tauto|].
  destruct (eqb k k') eqn:E.
  - apply eqb_eq in E. subst k'. split; [discriminate | tauto].
  - rewrite IH. split.
    + intros Hn [Heq | Hin]; [|tauto].
      subst k'. now rewrite eqb_same in E.
    + tauto.
Qed.

Lemma od_get_present (k : K) (d : list (K * V)) :
  In k (od_keys d) -> exists v, get k d = Some v.
Proof.
  intros Hin. destruct (get k d) as [v|] eqn:E; [now exists v|].
  apply od_get_absent in E. contradiction.
Qed.

Lemma od_keys_set (k : K) (v : V) (d : list (K * V)) :
  od_keys (set k v d) = match get k d with
                        | Some _ => od_keys d
                        | None => od_keys d ++ [k]
                        end.
Proof.
  induction d as [|[k' v'] d IH]; simpl; [reflexivity|].
  destruct (eqb k k') eqn:E; simpl; [reflexivity|].
  rewrite IH. now destruct (get k d).
Qed.

Lemma od_set_fresh (k : K) (v : V) (d : list (K * V)) :
  ~ In k (od_keys d) -> set k v d = d ++ [(k, v)].
Proof.
  induction d as [|[k' v'] d IH]; simpl; intros Hn; [reflexivity|].
  rewrite eqb_differ by (intros ->; tauto).
  rewrite IH by tauto. reflexivity.
Qed.

Lemma od_keys_set_unique (k : K) (v : V) (d : list (K * V)) :
  NoDup (od_keys d) -> NoDup (od_keys (set k v d)).
Proof.
  intros Hd. rewrite od_keys_set.
  destruct (get k d) eqn:E; [exact Hd|].
  apply od_get_absent in E.
  apply NoDup_app; [exact Hd | repeat constructor; intros [] |].
  intros x Hx [<- | []]. contradiction.
Qed.

Lemma od_del_filter (k : K) (d : list (K * V)) :
  NoDup (od_keys d) ->
  del k d = filter (fun kv => negb (eqb k (fst kv))) d.
Proof.
  induction d as [|[k' v'] d IH]; simpl; intros Hd; [reflexivity|].
  inversion Hd as [|x l Hnotin Hrest]; subst.
  destruct (eqb k k') eqn:E; simpl.
  - apply eqb_eq in E. subst k'.
    symmetry. apply forallb_filter_id. apply forallb_forall.
    intros [k2 v2] Hin. simpl. apply negb_true_iff, eqb_differ.
    intros ->. apply Hnotin. now apply (in_map fst) in Hin.
  - now rewrite IH.
Qed.

Lemma od_keys_del_unique (k : K) (d : list (K * V)) :
  NoDup (od_keys d) -> NoDup (od_keys (del k d)).
Proof.
  induction d as [|[k' v'] d IH]; simpl; intros Hd; [constructor|].
  inversion Hd as [|x l Hnotin Hrest]; subst.
  destruct (eqb k k'); simpl; [exact Hrest|].
  constructor; [|now apply IH].
  intros Hin. apply Hnotin.
  clear -Hin. induction d as [|[k2 v2] d IH]; simpl in *; [exact Hin|].
  destruct (eqb k k2); simpl in *; tauto.
Qed.

(** [update] lets the other dict win on its keys and keeps the rest. *)
Lemma od_get_update (k : K) (d other : list (K * V)) :
  NoDup (od_keys other) ->
  get k (update d other) = match get k other with
                           | Some v => Some v
                           | None => get k d
                           end.
Proof.
  unfold od_update. revert d.
  induction other as [|[k' v'] other IH]; simpl; intros d Hu; [reflexivity|].
  inversion Hu as [|x l Hnotin Hrest]; subst.
  rewrite IH by exact Hrest.
  destruct (eqb k k') eqn:E.
  - apply eqb_eq in E. subst k'.
    apply od_get_absent in Hnotin. rewrite Hnotin.
    apply od_get_set_same.
  - destruct (get k other); [reflexivity|].
    apply od_get_set_other. intros ->. now rewrite eqb_same in E.
Qed.

Lemma od_get_update_absent (k : K) (d other : list (K * V)) :
  get k other = None -> get k (update d other) = get k d.
Proof.
  unfold od_update. revert d.
  induction other as [|[k' v'] other IH]; simpl; intros d Hn; [reflexivity|].
  destruct (eqb k k') eqn:E; [discriminate|].
  rewrite IH by exact Hn.
  apply od_get_set_other. intros ->. now rewrite eqb_same in E.
Qed.
End OrderedDictFacts.

Lemma hkey_eqb_eq (a b : hkey) : hkey_eqb a b = true <-> a = b.
Proof.
  destruct a, b; simpl; split; intros H; try discriminate; try reflexivity;
    try (apply Z.eqb_eq in H; now subst);
    try (apply String.eqb_eq in H; now subst);
    injection H as ->; first [apply Z.eqb_refl | apply String.eqb_refl].
Qed.

Lemma okey_eqb_eq (a b : option hkey) : okey_eqb a b = true <-> a = b.
Proof.
  destruct a as [x|], b as [y|]; simpl; split; intros H;
    try discriminate; try reflexivity.
  - apply hkey_eqb_eq in H. now subst.
  - injection H as ->. now apply hkey_eqb_eq.
Qed.

Lemma dget_dset_same (k : string) (v : value) (d : dict) : dget k (dset k v d) = Some v.
Proof. apply od_get_set_same, String.eqb_eq. Qed.

Lemma dget_dset_other (k k' : string) (v : value) (d : dict) :
  k <> k' -> dget k (dset k' v d) = dget k d.
Proof. apply od_get_set_other, String.eqb_eq. Qed.

Lemma dget_ddel_other (k k' : string) (d : dict) :
  k <> k' -> dget k (ddel k' d) = dget k d.
Proof. apply od_get_del_other, String.eqb_eq. Qed.

Lemma dget_dupdate (k : string) (d other : dict) :
  unique_keys other ->
  dget k (dupdate d other) = match dget k other with
                             | Some v => Some v
                             | None => dget k d
                             end.
Proof. apply od_get_update, String.eqb_eq. Qed.

Lemma dget_dupdate_absent (k : string) (d other : dict) :
  dget k other = None -> dget k (dupdate d other) = dget k d.
Proof. apply od_get_update_absent, String.eqb_eq. Qed.

Lemma dget_dset_cases (k k' : string) (v : value) (d : dict) :
  dget k (dset k' v d) = if (k =? k')%string then Some v else dget k d.
Proof.
  destruct (k =? k')%string eqn:E.
  - apply String.eqb_eq in E. subst. apply dget_dset_same.
  - apply String.eqb_neq in E. now apply dget_dset_other.
Qed.

Lemma dset_unique (k : string) (v : value) (d : dict) :
  unique_keys d -> unique_keys (dset k v d).
Proof. apply od_keys_set_unique, String.eqb_eq. Qed.

Lemma ddel_unique (k : string) (d : dict) :
  unique_keys d -> unique_keys (ddel k d).
Proof. apply od_keys_del_unique. Qed.

Lemma od_keys_combine {K V} (ks : list K) (vs : list V) :
  length ks = length vs -> od_keys (combine ks vs) = ks.
Proof.
  revert vs. induction ks as [|k ks IH]; intros [|v vs] H; simpl in *;
    try discriminate; [reflexivity|].
  f_equal. apply IH. lia.
Qed.

(** ** create_assessment *)

(** C6: a payload whose top-level question list is empty is answered with
    400 before anything else happens: the trace of calls is empty, so
    neither the renderer nor the insert has been invoked, and the world is
    untouched. *)
Theorem create_assessment_empty_questions_is_400 :
  forall (W : Type) (host : Host W) (assessment : Assessment)
         (assesment_type : string) (w : W),
    a_questions assessment = Some [] ->
    run (create_assessment host assessment assesment_type) w
      = (Err (HTTPException HTTP_400_BAD_REQUEST
                "Assessment must contain at least one question"), w, []).
Proof.
  intros W host a atype w Hq.
  unfold run, create_assessment. now rewrite Hq.
Qed.

(** The same answer when the question list is absent. *)
Lemma create_assessment_no_questions_is_400 :
  forall (W : Type) (host : Host W) (assessment : Assessment)
         (assesment_type : string) (w : W),
    a_questions assessment = None ->
    run (create_assessment host assessment assesment_type) w
      = (Err (HTTPException HTTP_400_BAD_REQUEST
                "Assessment must contain at least one question"), w, []).
Proof.
  intros W host a atype w Hq.
  unfold run, create_assessment. now rewrite Hq.
Qed.

Lemma create_assessment_empty_questions_is_400_witness :
  run (create_assessment (scripted accepting) empty_paper "quiz") tt
    = (Err (HTTPException 400 "Assessment must contain at least one question"), tt, []).
Proof.
  apply (create_assessment_empty_questions_is_400 unit (scripted accepting) empty_paper "quiz" tt).
  reflexivity.
Defined.

(** ** list_assessments *)

Lemma invalid_filters_found (filters : dict) (name : string) :
  In name (od_keys filters) -> ~ In name valid_filters ->
  In name (invalid_filters filters).
Proof.
  intros Hin Hbad. unfold invalid_filters. apply filter_In. split; [exact Hin|].
  apply negb_true_iff. apply not_true_is_false. intros Hex.
  apply existsb_exists in Hex. destruct Hex as [v [Hv Heq]].
  apply String.eqb_eq in Heq. now subst v.
Qed.

(** C4: a filter object with a field name outside course_id, year and
    month is answered with 400, naming the offending fields; no call has
    been made by then, so the aggregation query is neither built nor run. *)
Theorem list_assessments_unknown_filter_is_400 :
  forall (W : Type) (host : Host W) (assessment_filter : ListAssessments)
         (assesment_type : string) (w : W) (filters : dict) (name : string),
    l_filters assessment_filter = Some filters ->
    In name (od_keys filters) ->
    ~ In name valid_filters ->
    run (list_assessments host assessment_filter assesment_type) w
      = (Err (HTTPException HTTP_400_BAD_REQUEST
                ("Invalid filter name(s): "
                   ++ String.concat ", " (invalid_filters filters))%string), w, []).
Proof.
  intros W host af atype w filters name Hf Hin Hbad.
  pose proof (invalid_filters_found filters name Hin Hbad) as Hinv.
  unfold run, list_assessments, boundary, try_except, bind, check_filters.
  rewrite Hf.
  destruct filters as [|kv filters]; [contradiction Hin|].
  destruct (invalid_filters (kv :: filters)) as [|bad rest]; [contradiction Hinv|].
  reflexivity.
Qed.

Lemma list_assessments_unknown_filter_is_400_witness :
  run (list_assessments (scripted accepting)
         {| l_filters := Some [("course_id", VStr "MATH101"); ("teacher", VStr "ada");
                               ("year", VInt 2024); ("term", VInt 2)] |} "quiz") tt
    = (Err (HTTPException 400 "Invalid filter name(s): teacher, term"), tt, []).
Proof.
  apply (list_assessments_unknown_filter_is_400 unit (scripted accepting)
           {| l_filters := Some [("course_id", VStr "MATH101"); ("teacher", VStr "ada");
                                 ("year", VInt 2024); ("term", VInt 2)] |}
           "quiz" tt _ "teacher" eq_refl).
  - simpl. tauto.
  - simpl. intros [H | [H | [H | []]]]; discriminate H.
Defined.

(** ** edit_assessment *)

(** C8: the handler renders, then issues one update keyed by the
    submitted identifier and carrying every field of the document; these
    are its only calls, so no lookup precedes the update.  Whatever the
    update answers, a count of zero matched documents included, the
    response is success with the submitted identifier. *)
Theorem edit_assessment_updates_without_lookup :
  forall (W : Type) (host : Host W) (assessment : EditAssessment)
         (assesment_type : string) (w w1 w2 w3 : W)
         (sections : list AssessmentSection)
         (last_updated question_paper stat : value) (oid : string),
    let assessment_id := e_assessment_id assessment in
    let update_data :=
      dset "question_paper" question_paper
        (assessment_doc (e_assessment assessment) sections last_updated) in
    a_questions (e_assessment assessment) = Some sections ->
    utcnow host w = (last_updated, w1) ->
    respond host (generate_assessment_document assesment_type assessment_id (inr assessment)) w1
      = (Ok question_paper, w2) ->
    ObjectId assessment_id = Ok oid ->
    respond host (update_one (type_db assesment_type) (VDict [("_id", VOid oid)])
                    (VDict update_data)) w2
      = (Ok stat, w3) ->
    run (edit_assessment host assessment assesment_type) w
      = (Ok (success "assessment_id" (VStr assessment_id)), w3,
         [generate_assessment_document assesment_type assessment_id (inr assessment);
          update_one (type_db assesment_type) (VDict [("_id", VOid oid)]) (VDict update_data)])
    /\ od_keys update_data
       = ["name"; "course"; "start_date"; "end_date"; "total_time"; "total_marks";
          "lessons"; "questions"; "last_updated"; "question_paper"].
Proof.
  intros W host a atype w w1 w2 w3 sections last qp stat oid aid update_data
         Hq Hnow Hrender Hoid Hupdate.
  split; [|reflexivity].
  unfold run, edit_assessment, boundary, try_except.
  fold aid. rewrite Hq.
  step_with Hnow. step_with Hrender. step_with Hoid.
  fold update_data. step_with Hupdate.
  reflexivity.
Qed.

(** In every run, however the collaborators answer, edit_assessment
    only renders and updates: it never reads the collection. *)
Lemma edit_assessment_only_renders_and_updates :
  forall (W : Type) (host : Host W) (assessment : EditAssessment)
         (assesment_type : string) (w : W),
    forallb renders_or_updates (snd (run (edit_assessment host assessment assesment_type) w))
      = true.
Proof.
  intros W host a atype w.
  unfold run, edit_assessment, boundary, try_except, bind, now, invoke, lift, ret, raise.
  destruct (a_questions (e_assessment a)) as [sections|]; simpl; [|reflexivity].
  destruct (utcnow host w) as [last w1]. simpl.
  destruct (respond host _ w1) as [[question_paper|e] w2]; simpl;
    [|destruct e; reflexivity].
  destruct (ObjectId (e_assessment_id a)) as [oid|e]; simpl; [|reflexivity].
  destruct (respond host _ w2) as [[stat|e] w3]; simpl; [reflexivity|].
  destruct e; reflexivity.
Qed.

Lemma edit_assessment_updates_without_lookup_witness :
  exists update_data,
    run (edit_assessment (scripted accepting) revised_paper "quiz") tt
      = (Ok (success "assessment_id" (VStr "65f0a1b2c3d4e5f60718293a")), tt,
         [generate_assessment_document "quiz" "65f0a1b2c3d4e5f60718293a" (inr revised_paper);
          update_one (VStr "quiz_db") (VDict [("_id", VOid "65f0a1b2c3d4e5f60718293a")])
            (VDict update_data)])
    /\ od_keys update_data
       = ["name"; "course"; "start_date"; "end_date"; "total_time"; "total_marks";
          "lessons"; "questions"; "last_updated"; "question_paper"].
Proof.
  eexists.
  apply (edit_assessment_updates_without_lookup unit (scripted accepting) revised_paper
           "quiz" tt tt tt tt [section_a] (VStr "2024-05-01 09:30:00") (VStr "gs://papers/quiz1.pdf")
           (VDict [("matched_count", VInt 0); ("modified_count", VInt 0)])
           "65f0a1b2c3d4e5f60718293a");
    reflexivity.
Defined.

(** ** delete_assessment *)

(** C7: when delete-one on the assessment collection removes nothing, the
    handler raises 404 "Assessment not found"; the only call it has made
    is that delete-one, so no delete is issued on the grade collection. *)
Theorem delete_assessment_missing_is_404 :
  forall (W : Type) (host : Host W) (course_assessment : AssessmentCourse)
         (assesment_type : string) (w w1 : W) (oid : string) (result deleted_count : value),
    ObjectId (c_assessment_id course_assessment) = Ok oid ->
    respond host (delete_one (type_db assesment_type) (VDict [("_id", VOid oid)])) w
      = (Ok result, w1) ->
    subscript result "deleted_count" = Ok deleted_count ->
    py_eq_zero deleted_count = true ->
    run (delete_assessment host course_assessment assesment_type) w
      = (Err (HTTPException HTTP_404_NOT_FOUND "Assessment not found"), w1,
         [delete_one (type_db assesment_type) (VDict [("_id", VOid oid)])])
    /\ forall collection query,
         ~ In (delete_many collection query)
              (snd (run (delete_assessment host course_assessment assesment_type) w)).
Proof.
  intros W host ca atype w w1 oid result cnt Hoid Hdel Hcnt Hzero.
  assert (Hrun : run (delete_assessment host ca atype) w
      = (Err (HTTPException HTTP_404_NOT_FOUND "Assessment not found"), w1,
         [delete_one (type_db atype) (VDict [("_id", VOid oid)])])).
  { unfold run, delete_assessment, boundary, try_except.
    step_with Hoid. step_with Hdel. step_with Hcnt.
    rewrite Hzero. reflexivity. }
  split; [exact Hrun|].
  intros collection query Hin. rewrite Hrun in Hin. simpl in Hin.
  destruct Hin as [Heq | []]. discriminate Heq.
Qed.

Lemma delete_assessment_missing_is_404_witness :
  run (delete_assessment (scripted no_assessment) quiz_of_math101 "quiz") tt
    = (Err (HTTPException 404 "Assessment not found"), tt,
       [delete_one (VStr "quiz_db") (VDict [("_id", VOid "65f0a1b2c3d4e5f60718293a")])])
  /\ forall collection query,
       ~ In (delete_many collection query)
            (snd (run (delete_assessment (scripted no_assessment) quiz_of_math101 "quiz") tt)).
Proof.
  apply (delete_assessment_missing_is_404 unit (scripted no_assessment) quiz_of_math101
           "quiz" tt tt "65f0a1b2c3d4e5f60718293a"
           (VDict [("deleted_count", VInt 0)]) (VInt 0));
    reflexivity.
Defined.

(** C2: when the assessment was deleted and the deletion of the grade
    records raises, the handler still answers with success, but [result]
    still holds the answer of the first delete: the number in the message
    is the count of deleted assessments, which passed the [== 0] test, so
    the message never shows 0. *)
Theorem delete_assessment_failed_grades_reports_first_count :
  forall (W : Type) (host : Host W) (course_assessment : AssessmentCourse)
         (assesment_type : string) (w w1 w2 w3 w4 : W) (oid : string)
         (result instance collection_name : value) (n : Z) (e : exn),
    let assessment_id := c_assessment_id course_assessment in
    let course := c_course course_assessment in
    let grades_query := VDict [("assessment_id", VStr assessment_id); ("course_id", course)] in
    ObjectId assessment_id = Ok oid ->
    respond host (delete_one (type_db assesment_type) (VDict [("_id", VOid oid)])) w
      = (Ok result, w1) ->
    subscript result "deleted_count" = Ok (VInt n) ->
    n <> 0%Z ->
    respond host (Course course) w1 = (Ok instance, w2) ->
    respond host (get_question_library_collection course) w2 = (Ok collection_name, w3) ->
    respond host (delete_many (course_type_db host collection_name assesment_type) grades_query) w3
      = (Err e, w4) ->
    run (delete_assessment host course_assessment assesment_type) w
      = (Ok (success "message" (VStr (deleted_message host (VInt n)))), w4,
         [delete_one (type_db assesment_type) (VDict [("_id", VOid oid)]);
          Course course;
          get_question_library_collection course;
          delete_many (course_type_db host collection_name assesment_type) grades_query])
    /\ deleted_message host (VInt n) <> deleted_message host (VInt 0).
Proof.
  intros W host ca atype w w1 w2 w3 w4 oid result instance cn n e aid course gq
         Hoid Hdel Hcnt Hn Hcourse Hcoll Hmany.
  split.
  - unfold run, delete_assessment, boundary, try_except.
    fold aid course gq.
    step_with Hoid. step_with Hdel. step_with Hcnt.
    assert (Hz : py_eq_zero (VInt n) = false) by (simpl; now apply Z.eqb_neq).
    rewrite Hz.
    step_with Hcourse. step_with Hcoll.
    unfold bind at 1.
    rewrite (invoke_answer _ _ _ _ _ _ Hmany).
    unfold ret at 1.
    step_with Hcnt. reflexivity.
  - intros H. apply deleted_message_inj in H. simpl in H.
    apply (string_of_Z_inj n 0) in H. contradiction.
Qed.

Lemma delete_assessment_failed_grades_reports_first_count_witness :
  run (delete_assessment (scripted assessment_only) quiz_of_math101 "quiz") tt
    = (Ok (success "message"
             (VStr "Assessment and associated 1 student grade documents deleted successfully")),
       tt,
       [delete_one (VStr "quiz_db") (VDict [("_id", VOid "65f0a1b2c3d4e5f60718293a")]);
        Course (VStr "MATH101");
        get_question_library_collection (VStr "MATH101");
        delete_many (VStr "math101_quiz_db")
          (VDict [("assessment_id", VStr "65f0a1b2c3d4e5f60718293a");
                  ("course_id", VStr "MATH101")])])
  /\ deleted_message (scripted assessment_only) (VInt 1)
       <> deleted_message (scripted assessment_only) (VInt 0).
Proof.
  apply (delete_assessment_failed_grades_reports_first_count unit (scripted assessment_only)
           quiz_of_math101 "quiz" tt tt tt tt tt "65f0a1b2c3d4e5f60718293a"
           (VDict [("deleted_count", VInt 1)]) VNone (VStr "math101") 1
           (External "connection lost"));
    try reflexivity.
  discriminate.
Defined.

(** C9: on the in-memory store, deleting an existing assessment whose
    grade collection holds N records for this assessment and course, with
    both deletions succeeding, answers with success and a message that
    reports N; afterwards the assessment collection has lost the
    assessment document and the grade collection has lost exactly the N
    matching records. *)
Theorem delete_assessment_removes_and_reports_grades :
  forall (failing : call -> bool) (others : call -> outcome exn value)
         (course_assessment : AssessmentCourse) (assesment_type : string)
         (st : store) (oid : string) (instance collection_name : value),
    let host := in_memory failing others in
    let assessment_id := c_assessment_id course_assessment in
    let course := c_course course_assessment in
    let assessments := (assesment_type ++ "_db")%string in
    let grades := (py_str host collection_name ++ "_" ++ assesment_type ++ "_db")%string in
    let by_id := [("_id", VOid oid)] in
    let by_assessment := [("assessment_id", VStr assessment_id); ("course_id", course)] in
    let N := length (filter (matches by_assessment) (st grades)) in
    ObjectId assessment_id = Ok oid ->
    existsb (matches by_id) (st assessments) = true ->
    others (Course course) = Ok instance ->
    others (get_question_library_collection course) = Ok collection_name ->
    failing (delete_one (VStr assessments) (VDict by_id)) = false ->
    failing (delete_many (VStr grades) (VDict by_assessment)) = false ->
    exists st' : store,
      run (delete_assessment host course_assessment assesment_type) st
        = (Ok (success "message" (VStr (deleted_message host (VInt (Z.of_nat N))))), st',
           [delete_one (VStr assessments) (VDict by_id);
            Course course;
            get_question_library_collection course;
            delete_many (VStr grades) (VDict by_assessment)])
      /\ st' assessments = remove_first (matches by_id) (st assessments)
      /\ st' grades = filter (fun d => negb (matches by_assessment d)) (st grades)
      /\ length (st' grades) + N = length (st grades)
      /\ (forall c, c <> assessments -> c <> grades -> st' c = st c).
Proof.
  intros failing others ca atype st oid instance cn host aid course assessments grades
         by_id by_assessment N Hoid Hexists Hcourse Hcoll Hf1 Hf2.
  pose proof (grade_collection_differs (py_str host cn) atype) as Hne.
  fold grades assessments in Hne.
  set (st1 := put st assessments (remove_first (matches by_id) (st assessments))).
  assert (Hst1 : st1 grades = st grades) by (unfold st1, put; now rewrite Hne).
  set (st2 := put st1 grades (filter (fun d => negb (matches by_assessment d)) (st grades))).
  exists st2. split; [|repeat split].
  - assert (Hdel : respond host (delete_one (type_db atype) (VDict by_id)) st
                   = (Ok (deleted 1), st1)).
    { change (type_db atype) with (VStr assessments).
      unfold host, in_memory, respond. rewrite Hf1. unfold store_delete_one.
      now rewrite Hexists. }
    assert (Hmany : respond host (delete_many (course_type_db host cn atype) (VDict by_assessment)) st1
                    = (Ok (deleted N), st2)).
    { change (course_type_db host cn atype) with (VStr grades).
      unfold host, in_memory, respond. rewrite Hf2.
      unfold store_delete_many. unfold N. now rewrite Hst1. }
    assert (Hc1 : respond host (Course course) st1 = (Ok instance, st1))
      by (unfold host, in_memory, respond; now rewrite Hcourse).
    assert (Hc2 : respond host (get_question_library_collection course) st1 = (Ok cn, st1))
      by (unfold host, in_memory, respond; now rewrite Hcoll).
    unfold run, delete_assessment, boundary, try_except.
    fold aid course.
    assert (Hone : subscript (deleted 1) "deleted_count" = Ok (VInt 1)) by reflexivity.
    assert (Hcnt : subscript (deleted N) "deleted_count" = Ok (VInt (Z.of_nat N)))
      by reflexivity.
    step_with Hoid. step_with Hdel. step_with Hone.
    change (py_eq_zero (VInt 1)) with false. cbv iota.
    step_with Hc1. step_with Hc2.
    unfold bind at 1.
    rewrite (invoke_answer _ _ _ _ _ _ Hmany).
    step_with Hcnt.
    reflexivity.
  - unfold st2, put. rewrite String.eqb_sym, Hne. unfold st1, put.
    now rewrite String.eqb_refl.
  - unfold st2, put. now rewrite String.eqb_refl.
  - unfold st2, put. rewrite String.eqb_refl. apply length_kept_removed.
  - intros c Hc1 Hc2. unfold st2, st1, put.
    apply String.eqb_neq in Hc1, Hc2. now rewrite Hc2, Hc1.
Qed.

Lemma delete_assessment_removes_and_reports_grades_witness :
  exists st' : store,
    run (delete_assessment (in_memory (fun _ => false) course_helper) quiz_of_math101 "quiz") campus
      = (Ok (success "message"
               (VStr "Assessment and associated 2 student grade documents deleted successfully")),
         st',
         [delete_one (VStr "quiz_db") (VDict [("_id", VOid "65f0a1b2c3d4e5f60718293a")]);
          Course (VStr "MATH101");
          get_question_library_collection (VStr "MATH101");
          delete_many (VStr "math101_quiz_db")
            (VDict [("assessment_id", VStr "65f0a1b2c3d4e5f60718293a");
                    ("course_id", VStr "MATH101")])])
    /\ st' "quiz_db" = []
    /\ st' "math101_quiz_db" = [grade_of "65f0a1b2c3d4e5f60718293b" "s1" 4]
    /\ length (st' "math101_quiz_db") + 2 = 3
    /\ (forall c, c <> "quiz_db" -> c <> "math101_quiz_db" -> st' c = campus c).
Proof.
  apply (delete_assessment_removes_and_reports_grades (fun _ => false) course_helper
           quiz_of_math101 "quiz" campus "65f0a1b2c3d4e5f60718293a" VNone (VStr "math101"));
    reflexivity.
Defined.

(** ** get_assessment_student_grades *)

Lemma roster_entry_fields (student : value) :
  roster_entry student = true ->
  exists fields k,
    student = VDict fields /\ unique_keys fields /\ student_key student = Some k.
Proof.
  destruct student as [| | | | | |fields]; simpl; try discriminate.
  intros H. apply andb_true_iff in H. destruct H as [Hu Hk].
  destruct (student_key (VDict fields)) as [k|] eqn:E; [|discriminate].
  exists fields, k. repeat split. now apply distinct_NoDup.
Qed.

Lemma students_mapping_of_total (students : list value) :
  forallb roster_entry students = true ->
  forall acc, exists mapping, students_mapping_of students acc = Ok mapping.
Proof.
  induction students as [|s students IH]; simpl; intros Hwf acc.
  - now exists acc.
  - apply andb_true_iff in Hwf. destruct Hwf as [Hs Hrest].
    destruct (roster_entry_fields s Hs) as [fields [k [-> [_ Hk]]]].
    unfold student_key in Hk.
    destruct (subscript (VDict fields) "student_id") as [sid|] eqn:Esid; [|discriminate].
    destruct (to_key sid) as [k'|] eqn:Ek; [|discriminate].
    cbn [obind]. rewrite Ek. cbn [obind]. now apply IH.
Qed.

Lemma placeholder_entry (assessment_id course student : value) :
  roster_entry student = true ->
  exists entry,
    placeholder assessment_id course student = Ok entry
    /\ placeholder_for assessment_id course student entry.
Proof.
  intros Hwf. destruct (roster_entry_fields student Hwf) as [fields [k [-> [Hu Hk]]]].
  eexists. split; [reflexivity|].
  unfold placeholder_for, student_key, subscript.
  rewrite dget_dset_other by discriminate. rewrite dget_dset_same.
  rewrite dget_dset_same.
  rewrite !(dget_dset_other _ "status"), !(dget_dset_other _ "marks") by discriminate.
  rewrite !dget_dupdate by exact Hu.
  repeat split.
  - unfold student_key, subscript in Hk.
    destruct (dget "student_id" fields); [reflexivity | discriminate].
  - destruct (dget "assessment_id" fields); [discriminate | reflexivity].
  - destruct (dget "course_id" fields); [discriminate | reflexivity].
  - intros f v Hmarks Hstatus Hv.
    rewrite !dget_dset_other by assumption.
    rewrite dget_dupdate by exact Hu.
    destruct (dget f fields); [exact Hv | discriminate].
Qed.

Lemma placeholders_for_roster (assessment_id course : value) (students : list value) :
  forallb roster_entry students = true ->
  exists data,
    omapM (placeholder assessment_id course) students = Ok data
    /\ Forall2 (fun student entry =>
                  placeholder assessment_id course student = Ok entry
                  /\ placeholder_for assessment_id course student entry)
               students data.
Proof.
  intros Hwf.
  destruct (omapM_Forall2 (placeholder assessment_id course) students) as [data [Hdata Hrel]].
  { intros s Hs. rewrite forallb_forall in Hwf.
    destruct (placeholder_entry assessment_id course s (Hwf s Hs)) as [e [He _]].
    now exists e. }
  exists data. split; [exact Hdata|].
  rewrite forallb_forall in Hwf.
  clear Hdata. induction Hrel as [|s e students data Hse Hrel IH]; constructor.
  - split; [exact Hse|].
    destruct (placeholder_entry assessment_id course s (Hwf s (or_introl eq_refl)))
      as [e' [He' Hfor]].
    rewrite Hse in He'. injection He' as <-. exact Hfor.
  - apply IH. intros x Hx. apply Hwf. now right.
Qed.

(** C10, as amended: when the grade query answers with nothing, the
    response is success and its data list pairs off with the roster, one
    placeholder per roster entry in roster order; each placeholder has
    null marks and null status and the roster entry's other fields, its
    student_id among them, and it carries the request's assessment and
    course identifiers wherever the roster entry has no field of that
    name. *)
Theorem student_grades_without_records_are_placeholders :
  forall (W : Type) (host : Host W) (assessment_course : AssessmentCourse)
         (assesment_type : string) (w w1 w2 w3 w4 : W)
         (instance collection_name student_grades : value) (students : list value),
    let assessment_id := VStr (c_assessment_id assessment_course) in
    let course := c_course assessment_course in
    let query := VDict [("assessment_id", assessment_id); ("course_id", course)] in
    respond host (Course course) w = (Ok instance, w1) ->
    respond host (get_question_library_collection course) w1 = (Ok collection_name, w2) ->
    respond host (get_course_students course) w2 = (Ok (VList students), w3) ->
    forallb roster_entry students = true ->
    respond host (find (course_type_db host collection_name assesment_type) query) w3
      = (Ok student_grades, w4) ->
    truthy student_grades = false ->
    exists data,
      run (get_assessment_student_grades host assessment_course assesment_type) w
        = (Ok (success "data" (VList data)), w4,
           [Course course;
            get_question_library_collection course;
            get_course_students course;
            find (course_type_db host collection_name assesment_type) query])
      /\ Forall2 (fun student entry =>
                    placeholder assessment_id course student = Ok entry
                    /\ placeholder_for assessment_id course student entry)
                 students data.
Proof.
  intros W host ac atype w w1 w2 w3 w4 instance cn grades students aid course query
         Hcourse Hcoll Hroster Hwf Hfind Hnone.
  destruct (students_mapping_of_total students Hwf []) as [mapping Hmapping].
  destruct (placeholders_for_roster aid course students Hwf) as [data [Hdata Hrel]].
  exists data. split; [|exact Hrel].
  unfold run, get_assessment_student_grades, boundary, try_except.
  fold aid course query.
  step_with Hcourse. step_with Hcoll. step_with Hroster.
  cbn [py_iter obind]. step_with Hmapping. step_with Hfind.
  unfold reconcile. rewrite Hnone. cbn [negb py_iter obind].
  rewrite Hdata. reflexivity.
Qed.

Lemma student_grades_without_records_are_placeholders_witness :
  exists data,
    run (get_assessment_student_grades (scripted roster_without_grades) quiz_of_math101 "quiz") tt
      = (Ok (success "data" (VList data)), tt,
         [Course (VStr "MATH101");
          get_question_library_collection (VStr "MATH101");
          get_course_students (VStr "MATH101");
          find (VStr "math101_quiz_db")
            (VDict [("assessment_id", VStr "65f0a1b2c3d4e5f60718293a");
                    ("course_id", VStr "MATH101")])])
    /\ Forall2 (fun student entry =>
                  placeholder (VStr "65f0a1b2c3d4e5f60718293a") (VStr "MATH101") student = Ok entry
                  /\ placeholder_for (VStr "65f0a1b2c3d4e5f60718293a") (VStr "MATH101")
                       student entry)
               [ada; grace] data.
Proof.
  apply (student_grades_without_records_are_placeholders unit (scripted roster_without_grades)
           quiz_of_math101 "quiz" tt tt tt tt tt VNone (VStr "math101") (VList []) [ada; grace]);
    reflexivity.
Defined.

(** C10, as stated, fails: for the course MATH101 and a roster entry with
    its own course_id, no grade recorded, the placeholder carries
    PHYS201, not the course identifier of the request. *)
Lemma placeholder_keeps_course_of_roster_entry :
  fst (fst (run (get_assessment_student_grades (scripted roster_with_visitor)
                   quiz_of_math101 "quiz") tt))
    = Ok (success "data" (VList [visitor_entry]))
  /\ subscript visitor_entry "course_id" <> Ok (c_course quiz_of_math101).
Proof.
  split; [reflexivity | discriminate].
Qed.

Lemma keys_of_records (p : value -> bool) (l : list value) :
  (forall x, p x = true -> exists k, student_key x = Some k) ->
  forallb p l = true ->
  exists ks, map student_key l = map Some ks.
Proof.
  intros Hp. induction l as [|x l IH]; simpl; intros Hwf.
  - now exists [].
  - apply andb_true_iff in Hwf. destruct Hwf as [Hx Hl].
    destruct (Hp x Hx) as [k Hk]. destruct (IH Hl) as [ks Hks].
    exists (k :: ks). simpl. now rewrite Hk, Hks.
Qed.

Lemma roster_entry_key (student : value) :
  roster_entry student = true -> exists k, student_key student = Some k.
Proof.
  intros H. destruct (roster_entry_fields student H) as [f [k [_ [_ Hk]]]]. now exists k.
Qed.

Lemma grade_record_fields (student_grade : value) :
  grade_record student_grade = true ->
  exists fields id k,
    student_grade = VDict fields /\ dget "_id" fields = Some id
    /\ student_key student_grade = Some k.
Proof.
  destruct student_grade as [| | | | | |fields]; simpl; try discriminate.
  intros H. apply andb_true_iff in H. destruct H as [Hid Hk].
  destruct (dget "_id" fields) as [id|] eqn:Eid; [|discriminate].
  destruct (student_key (VDict fields)) as [k|] eqn:Ek; [|discriminate].
  now exists fields, id, k.
Qed.

Lemma grade_record_key (student_grade : value) :
  grade_record student_grade = true -> exists k, student_key student_grade = Some k.
Proof.
  intros H. destruct (grade_record_fields _ H) as [f [id [k [_ [_ Hk]]]]]. now exists k.
Qed.

Lemma student_key_without_id (student_grade : value) :
  student_key (without_id student_grade) = student_key student_grade.
Proof.
  destruct student_grade as [| | | | | |fields]; try reflexivity.
  unfold student_key, without_id, subscript.
  now rewrite dget_ddel_other by discriminate.
Qed.

Lemma students_mapping_of_distinct (students : list value) :
  forall (ks : list hkey) (acc : list (hkey * value)),
    map student_key students = map Some ks ->
    NoDup ks ->
    (forall k, In k ks -> ~ In k (od_keys acc)) ->
    students_mapping_of students acc = Ok (acc ++ combine ks students).
Proof.
  induction students as [|s students IH]; intros [|k ks] acc Hks Hnd Hfresh;
    simpl in Hks; try discriminate.
  - simpl. now rewrite app_nil_r.
  - injection Hks as Hk Hks.
    inversion Hnd as [|x l Hnotin Hrest]; subst.
    unfold student_key in Hk. cbn [students_mapping_of].
    destruct (subscript s "student_id") as [sid|]; [|discriminate]. cbn [obind].
    destruct (to_key sid) as [k'|]; [|discriminate]. cbn [obind].
    injection Hk as ->.
    rewrite (od_set_fresh hkey_eqb hkey_eqb_eq) by (apply Hfresh; now left).
    assert (Hfresh' : forall k', In k' ks -> ~ In k' (od_keys (acc ++ [(k, s)]))).
    { intros k' Hk'. unfold od_keys. rewrite map_app, in_app_iff.
      simpl. intros [Hin | [<- | []]].
      - now apply (Hfresh k' (or_intror Hk')).
      - contradiction. }
    rewrite (IH ks (acc ++ [(k, s)]) Hks Hrest Hfresh').
    now rewrite <- app_assoc.
Qed.

Lemma strike_graded_distinct (student_grades : list value) :
  forall (gks : list hkey) (students_mapping : list (hkey * value)),
    forallb grade_record student_grades = true ->
    map student_key student_grades = map Some gks ->
    NoDup (od_keys students_mapping) ->
    strike_graded student_grades students_mapping
      = Ok (map without_id student_grades, filter (struck gks) students_mapping).
Proof.
  induction student_grades as [|g grades IH]; intros [|gk gks] m Hwf Hks Hm;
    simpl in Hks; try discriminate.
  - simpl. f_equal. f_equal. symmetry. apply forallb_filter_id.
    apply forallb_forall. reflexivity.
  - injection Hks as Hk Hks. simpl in Hwf.
    apply andb_true_iff in Hwf. destruct Hwf as [Hg Hwf].
    destruct (grade_record_fields g Hg) as [fields [id [k [-> [Hid Hk']]]]].
    pose proof (student_key_without_id (VDict fields)) as Hsame.
    rewrite Hk in Hsame. unfold student_key in Hsame. simpl without_id in Hsame.
    cbn [strike_graded pop]. rewrite Hid. cbn [obind fst snd].
    destruct (subscript (VDict (ddel "_id" fields)) "student_id") as [sid|];
      [|discriminate].
    cbn [obind].
    destruct (to_key sid) as [k1|]; [|discriminate]. cbn [obind].
    injection Hsame as ->.
    rewrite (IH gks (od_del hkey_eqb gk m) Hwf Hks)
      by (now apply (od_keys_del_unique hkey_eqb)).
    cbn [obind fst snd]. f_equal. f_equal.
    rewrite (od_del_filter hkey_eqb hkey_eqb_eq) by exact Hm.
    rewrite filter_twice. apply filter_ext.
    intros [k2 v2]. unfold struck. simpl. now rewrite negb_orb.
Qed.

Lemma graded_in_keys (grades : list value) (gks : list hkey) (s : value) (k : hkey) :
  map student_key grades = map Some gks ->
  student_key s = Some k ->
  graded_in grades s = existsb (fun gk => hkey_eqb gk k) gks.
Proof.
  intros Hks Hk. unfold graded_in. rewrite Hk, Hks. clear Hks.
  induction gks as [|gk gks IH]; simpl; [reflexivity | now rewrite IH].
Qed.

Lemma remaining_are_ungraded (grades : list value) (gks : list hkey) (students : list value) :
  forall ks : list hkey,
    map student_key grades = map Some gks ->
    map student_key students = map Some ks ->
    od_values (filter (struck gks) (combine ks students))
      = filter (fun s => negb (graded_in grades s)) students.
Proof.
  intros ks Hg. revert ks.
  induction students as [|s students IH]; intros [|k ks] Hks; simpl in Hks;
    try discriminate; [reflexivity|].
  injection Hks as Hk Hks. simpl.
  rewrite (graded_in_keys grades gks s k Hg Hk).
  unfold struck at 1. simpl.
  destruct (existsb (fun gk => hkey_eqb gk k) gks); simpl; now rewrite (IH ks).
Qed.

(** Distinct keys [G] inside distinct keys [S]: [G] followed by the rest
    of [S] is a rearrangement of [S]. *)
Lemma graded_then_rest_permutation (G S : list (option hkey)) :
  NoDup G -> NoDup S -> incl G S ->
  let rest := filter (fun k => negb (existsb (fun g => okey_eqb g k) G)) S in
  NoDup (G ++ rest) /\ Permutation (G ++ rest) S.
Proof.
  intros HG HS Hincl rest.
  assert (Hrest : forall k, In k rest <-> In k S /\ ~ In k G).
  { intros k. unfold rest. rewrite filter_In, negb_true_iff.
    split; intros [Hin Hno]; split; try exact Hin.
    - intros HinG.
      assert (existsb (fun g => okey_eqb g k) G = true) as Hex.
      { apply existsb_exists. exists k. split; [exact HinG | now apply okey_eqb_eq]. }
      congruence.
    - apply not_true_is_false. intros Hex. apply existsb_exists in Hex.
      destruct Hex as [g [Hg Heq]]. apply okey_eqb_eq in Heq. now subst g. }
  assert (Hnd : NoDup (G ++ rest)).
  { apply NoDup_app; [exact HG | now apply NoDup_filter |].
    intros k HkG Hkrest. apply Hrest in Hkrest. tauto. }
  split; [exact Hnd|].
  apply NoDup_Permutation; [exact Hnd | exact HS |].
  intros k. rewrite in_app_iff, Hrest. split.
  - intros [HkG | [HkS _]]; [now apply Hincl | exact HkS].
  - intros HkS. destruct (existsb (fun g => okey_eqb g k) G) eqn:Hex.
    + left. apply existsb_exists in Hex. destruct Hex as [g [Hg Heq]].
      apply okey_eqb_eq in Heq. now subst g.
    + right. split; [exact HkS|]. intros HinG.
      assert (existsb (fun g => okey_eqb g k) G = true) as Hex'.
      { apply existsb_exists. exists k. split; [exact HinG | now apply okey_eqb_eq]. }
      congruence.
Qed.

Lemma stored_without_id (grades : list value) :
  forallb grade_record grades = true ->
  Forall2 (fun g e => exists id, pop g "_id" = Ok (id, e)) grades (map without_id grades).
Proof.
  induction grades as [|g grades IH]; simpl; intros Hwf; constructor.
  - apply andb_true_iff in Hwf. destruct Hwf as [Hg _].
    destruct (grade_record_fields g Hg) as [fields [id [k [-> [Hid _]]]]].
    exists id. simpl. now rewrite Hid.
  - apply IH. apply andb_true_iff in Hwf. tauto.
Qed.

Lemma placeholders_keep_keys (assessment_id course : value) (students data : list value) :
  Forall2 (fun student entry =>
             placeholder assessment_id course student = Ok entry
             /\ placeholder_for assessment_id course student entry)
          students data ->
  map student_key data = map student_key students.
Proof.
  intros Hrel. induction Hrel as [|s e l l' [_ [_ [_ [Hk _]]]] _ IH]; simpl;
    [reflexivity | now rewrite Hk, IH].
Qed.

Lemma od_set_entries {K V} (eqb : K -> K -> bool)
    (eqb_eq : forall a b, eqb a b = true <-> a = b)
    (k : K) (v : V) (d : list (K * V)) (kv : K * V) :
  In kv (od_set eqb k v d) -> In kv d \/ kv = (k, v).
Proof.
  induction d as [|[k' v'] d IH]; simpl.
  - intros [<- | []]. now right.
  - destruct (eqb k k') eqn:E; simpl.
    + apply eqb_eq in E. subst k'. intros [<- | Hin]; [now right | left; now right].
    + intros [<- | Hin]; [left; now left|].
      destruct (IH Hin) as [H | H]; [left; now right | now right].
Qed.

Lemma od_get_some_in {K V} (eqb : K -> K -> bool)
    (eqb_eq : forall a b, eqb a b = true <-> a = b)
    (k : K) (d : list (K * V)) (v : V) :
  od_get eqb k d = Some v -> In k (od_keys d).
Proof.
  induction d as [|[k' v'] d IH]; simpl; [discriminate|].
  destruct (eqb k k') eqn:E.
  - apply eqb_eq in E. subst k'. now left.
  - intros H. right. now apply IH.
Qed.

Lemma students_mapping_of_invariant (students : list value) :
  forall acc students_mapping,
    students_mapping_of students acc = Ok students_mapping ->
    NoDup (od_keys acc) ->
    NoDup (od_keys students_mapping)
    /\ (forall k, In k (od_keys students_mapping)
                  <-> In k (od_keys acc) \/ In (Some k) (map student_key students))
    /\ (forall k v, In (k, v) students_mapping ->
                    In (k, v) acc \/ (In v students /\ student_key v = Some k)).
Proof.
  induction students as [|s students IH]; intros acc m Hm Hacc.
  - simpl in Hm. injection Hm as <-. repeat split; simpl; tauto.
  - cbn [students_mapping_of] in Hm.
    assert (Hkey : exists k, student_key s = Some k
                             /\ students_mapping_of students (od_set hkey_eqb k s acc) = Ok m).
    { unfold student_key.
      destruct (subscript s "student_id") as [sid|]; [|discriminate].
      cbn [obind] in Hm.
      destruct (to_key sid) as [k|]; [|discriminate]. now exists k. }
    destruct Hkey as [k [Hk Hrest]].
    destruct (IH _ _ Hrest (od_keys_set_unique hkey_eqb hkey_eqb_eq k s acc Hacc))
      as [Hnd [Hkeys Hentries]].
    split; [exact Hnd|]. split.
    + intros k'. rewrite Hkeys, (od_keys_set hkey_eqb). simpl. rewrite Hk.
      destruct (od_get hkey_eqb k acc) eqn:Eget.
      * assert (Hin : In k (od_keys acc))
          by (now apply (od_get_some_in hkey_eqb hkey_eqb_eq k acc v)).
        split; [tauto|]. intros [H | [H | H]]; try tauto.
        injection H as <-. tauto.
      * rewrite in_app_iff. simpl. split.
        -- intros [[H | [<- | []]] | H]; tauto.
        -- intros [H | [H | H]]; try tauto. injection H as <-. tauto.
    + intros k' v Hin. destruct (Hentries k' v Hin) as [H | [H1 H2]].
      * destruct (od_set_entries hkey_eqb hkey_eqb_eq k s acc (k', v) H) as [H' | H'].
        -- now left.
        -- injection H' as -> ->. right. split; [now left | exact Hk].
      * right. split; [now right | exact H2].
Qed.

Lemma NoDup_Some_map {A} (l : list A) : NoDup l -> NoDup (map Some l).
Proof.
  induction 1 as [|x l Hnotin _ IH]; simpl; constructor; [|exact IH].
  intros Hin. apply in_map_iff in Hin. destruct Hin as [y [Hy Hin]].
  injection Hy as ->. contradiction.
Qed.

Lemma od_keys_filter_NoDup {K V} (p : K * V -> bool) (d : list (K * V)) :
  NoDup (od_keys d) -> NoDup (od_keys (filter p d)).
Proof.
  induction d as [|[k v] d IH]; simpl; intros H; [constructor|].
  inversion H as [|x l Hnotin Hrest]; subst.
  destruct (p (k, v)); simpl; [|now apply IH].
  constructor; [|now apply IH].
  intros Hin. apply Hnotin. unfold od_keys in *.
  apply in_map_iff in Hin. destruct Hin as [[k' v'] [Hk Hin]]. simpl in Hk. subst k'.
  apply filter_In in Hin. apply in_map_iff. exists (k, v'). now split.
Qed.

Lemma keys_of_entries (d : list (hkey * value)) :
  (forall k v, In (k, v) d -> student_key v = Some k) ->
  map student_key (od_values d) = map Some (od_keys d).
Proof.
  induction d as [|[k v] d IH]; simpl; intros H; [reflexivity|].
  rewrite (H k v) by now left. f_equal. apply IH.
  intros k' v' Hin. apply H. now right.
Qed.

(** Who is left in the roster mapping once the stored grades are struck
    off: roster students no stored grade is about, each of them once. *)
Lemma remaining_students (students grades : list value) (gks : list hkey)
    (students_mapping : list (hkey * value)) :
  forallb roster_entry students = true ->
  students_mapping_of students [] = Ok students_mapping ->
  map student_key grades = map Some gks ->
  let remaining := od_values (filter (struck gks) students_mapping) in
  NoDup (map student_key remaining)
  /\ (forall student, In student remaining ->
                      In student students /\ graded_in grades student = false)
  /\ (forall student, In student students -> graded_in grades student = false ->
                      In (student_key student) (map student_key remaining)).
Proof.
  intros Hwf Hm Hgks remaining.
  destruct (students_mapping_of_invariant students [] students_mapping Hm (NoDup_nil _))
    as [Hnd [Hkeys Hentries]].
  assert (Hentry : forall k v, In (k, v) students_mapping ->
                               In v students /\ student_key v = Some k).
  { intros k v Hin. destruct (Hentries k v Hin) as [[] | H]. exact H. }
  assert (Hleft : forall k v, In (k, v) (filter (struck gks) students_mapping) ->
                              In v students /\ student_key v = Some k
                              /\ existsb (fun gk => hkey_eqb gk k) gks = false).
  { intros k v Hin. apply filter_In in Hin. destruct Hin as [Hin Hstruck].
    destruct (Hentry k v Hin) as [Hv Hk]. repeat split; try assumption.
    unfold struck in Hstruck. simpl in Hstruck. now apply negb_true_iff in Hstruck. }
  split; [|split].
  - unfold remaining. rewrite keys_of_entries.
    + apply NoDup_Some_map. now apply od_keys_filter_NoDup.
    + intros k v Hin. now destruct (Hleft k v Hin) as [_ [Hk _]].
  - intros student Hin. unfold remaining, od_values in Hin.
    apply in_map_iff in Hin. destruct Hin as [[k v] [Hv Hin]]. simpl in Hv. subst v.
    destruct (Hleft k student Hin) as [Hs [Hk Hno]]. split; [exact Hs|].
    now rewrite (graded_in_keys grades gks student k Hgks Hk).
  - intros student Hin Hungraded.
    rewrite forallb_forall in Hwf.
    destruct (roster_entry_key student (Hwf student Hin)) as [k Hk].
    rewrite (graded_in_keys grades gks student k Hgks Hk) in Hungraded.
    assert (Hkin : In k (od_keys students_mapping)).
    { apply Hkeys. right. rewrite <- Hk. now apply in_map. }
    unfold od_keys in Hkin. apply in_map_iff in Hkin.
    destruct Hkin as [[k' v] [Hk' Hkv]]. simpl in Hk'. subst k'.
    destruct (Hentry k v Hkv) as [_ Hvk].
    rewrite Hk, <- Hvk. apply in_map. unfold remaining, od_values.
    apply in_map_iff. exists (k, v). split; [reflexivity|].
    apply filter_In. split; [exact Hkv|].
    unfold struck. simpl. now rewrite Hungraded.
Qed.

(** C1, as amended: when stored grades answer the query, the data list is
    the stored records in stored order, each with [_id] removed, followed
    by one placeholder with null marks and status for each roster student
    no stored grade is about; this needs no more than roster entries and
    stored grades that are records with a student_id.  If moreover the
    roster has each student once, the placeholders are in roster order;
    and if in addition the stored grades are about distinct students and
    each of them is on the roster, then the list has one entry per roster
    student: its length is the roster size and its student ids are those
    of the roster, each once. *)
Theorem student_grades_merge_records_and_roster :
  forall (W : Type) (host : Host W) (assessment_course : AssessmentCourse)
         (assesment_type : string) (w w1 w2 w3 w4 : W)
         (instance collection_name : value) (students student_grades : list value),
    let assessment_id := VStr (c_assessment_id assessment_course) in
    let course := c_course assessment_course in
    let query := VDict [("assessment_id", assessment_id); ("course_id", course)] in
    respond host (Course course) w = (Ok instance, w1) ->
    respond host (get_question_library_collection course) w1 = (Ok collection_name, w2) ->
    respond host (get_course_students course) w2 = (Ok (VList students), w3) ->
    forallb roster_entry students = true ->
    respond host (find (course_type_db host collection_name assesment_type) query) w3
      = (Ok (VList student_grades), w4) ->
    student_grades <> [] ->
    forallb grade_record student_grades = true ->
    exists stored remaining missing,
      run (get_assessment_student_grades host assessment_course assesment_type) w
        = (Ok (success "data" (VList (stored ++ missing))), w4,
           [Course course;
            get_question_library_collection course;
            get_course_students course;
            find (course_type_db host collection_name assesment_type) query])
      /\ Forall2 (fun g e => exists id, pop g "_id" = Ok (id, e)) student_grades stored
      /\ Forall2 (fun student entry =>
                    placeholder assessment_id course student = Ok entry
                    /\ placeholder_for assessment_id course student entry)
                 remaining missing
      /\ NoDup (map student_key remaining)
      /\ (forall student, In student remaining ->
                          In student students /\ graded_in student_grades student = false)
      /\ (forall student, In student students -> graded_in student_grades student = false ->
                          In (student_key student) (map student_key remaining))
      /\ (NoDup (map student_key students) ->
          remaining = filter (fun s => negb (graded_in student_grades s)) students
          /\ (NoDup (map student_key student_grades) ->
              incl (map student_key student_grades) (map student_key students) ->
              length (stored ++ missing) = length students
              /\ NoDup (map student_key (stored ++ missing))
              /\ Permutation (map student_key (stored ++ missing))
                             (map student_key students))).
Proof.
  intros W host ac atype w w1 w2 w3 w4 instance cn students grades aid course query
         Hcourse Hcoll Hroster Hwf Hfind Hsome Hgwf.
  destruct (students_mapping_of_total students Hwf []) as [mapping Hmapping].
  destruct (keys_of_records grade_record grades grade_record_key Hgwf) as [gks Hgks].
  destruct (students_mapping_of_invariant students [] mapping Hmapping (NoDup_nil _))
    as [Hndm _].
  pose proof (strike_graded_distinct grades gks mapping Hgwf Hgks Hndm) as Hstrike.
  destruct (remaining_students students grades gks mapping Hwf Hmapping Hgks)
    as [Hnd [Hsound Hcover]].
  assert (Hwfrem : forallb roster_entry (od_values (filter (struck gks) mapping)) = true).
  { apply forallb_forall. intros s Hs. rewrite forallb_forall in Hwf.
    apply Hwf. now apply Hsound. }
  destruct (placeholders_for_roster aid course _ Hwfrem) as [missing [Hmissing Hrel]].
  exists (map without_id grades), (od_values (filter (struck gks) mapping)), missing.
  split; [|split; [|split; [|split; [|split; [|split]]]]].
  - assert (Htruthy : truthy (VList grades) = true)
      by (destruct grades; [contradiction | reflexivity]).
    unfold run, get_assessment_student_grades, boundary, try_except.
    fold aid course query.
    step_with Hcourse. step_with Hcoll. step_with Hroster.
    cbn [py_iter obind]. step_with Hmapping. step_with Hfind.
    unfold reconcile. rewrite Htruthy. cbn [negb py_iter obind].
    rewrite Hstrike. cbn [obind fst snd].
    rewrite Hmissing. reflexivity.
  - now apply stored_without_id.
  - exact Hrel.
  - exact Hnd.
  - exact Hsound.
  - exact Hcover.
  - intros HndS.
    destruct (keys_of_records roster_entry students roster_entry_key Hwf) as [ks Hks].
    assert (Hndks : NoDup ks) by (apply NoDup_map_Some; now rewrite <- Hks).
    assert (Hcombine : mapping = combine ks students).
    { pose proof (students_mapping_of_distinct students ks [] Hks Hndks
                    (fun k _ (H : In k (od_keys [])) => H)) as H.
      rewrite Hmapping in H. now injection H. }
    assert (Hrest : od_values (filter (struck gks) mapping)
                    = filter (fun s => negb (graded_in grades s)) students).
    { rewrite Hcombine. now apply remaining_are_ungraded. }
    split; [exact Hrest|]. intros HndG Hincl.
    rewrite Hrest in Hrel.
    assert (Hkeys : map student_key (map without_id grades ++ missing)
                    = map student_key grades
                      ++ filter (fun k => negb (existsb (fun g => okey_eqb g k)
                                                  (map student_key grades)))
                           (map student_key students)).
    { rewrite map_app, map_map. f_equal.
      - apply map_ext. intros g. apply student_key_without_id.
      - rewrite <- (map_filter_key student_key
                      (fun k => negb (existsb (fun g => okey_eqb g k)
                                        (map student_key grades)))).
        apply (placeholders_keep_keys aid course _ _ Hrel). }
    destruct (graded_then_rest_permutation _ _ HndG HndS Hincl) as [Hnd' Hperm].
    split; [|split].
    + rewrite <- (length_map student_key), Hkeys.
      rewrite (Permutation_length Hperm). apply length_map.
    + now rewrite Hkeys.
    + now rewrite Hkeys.
Qed.

Lemma student_grades_merge_records_and_roster_witness :
  exists stored missing,
    run (get_assessment_student_grades (scripted roster_with_one_grade) quiz_of_math101 "quiz") tt
      = (Ok (success "data" (VList (stored ++ missing))), tt,
         [Course (VStr "MATH101");
          get_question_library_collection (VStr "MATH101");
          get_course_students (VStr "MATH101");
          find (VStr "math101_quiz_db")
            (VDict [("assessment_id", VStr "65f0a1b2c3d4e5f60718293a");
                    ("course_id", VStr "MATH101")])])
    /\ Forall2 (fun g e => exists id, pop g "_id" = Ok (id, e))
               [grade_of "65f0a1b2c3d4e5f60718293a" "s2" 9] stored
    /\ Forall2 (fun student entry =>
                  placeholder (VStr "65f0a1b2c3d4e5f60718293a") (VStr "MATH101") student = Ok entry
                  /\ placeholder_for (VStr "65f0a1b2c3d4e5f60718293a") (VStr "MATH101")
                       student entry)
               [ada] missing
    /\ length (stored ++ missing) = 2
    /\ NoDup (map student_key (stored ++ missing))
    /\ Permutation (map student_key (stored ++ missing)) [Some (KStr "s1"); Some (KStr "s2")].
Proof.
  destruct (student_grades_merge_records_and_roster unit (scripted roster_with_one_grade)
              quiz_of_math101 "quiz" tt tt tt tt tt VNone (VStr "math101")
              [ada; grace] [grade_of "65f0a1b2c3d4e5f60718293a" "s2" 9]
              eq_refl eq_refl eq_refl eq_refl eq_refl
              (fun H => match H with eq_refl => I end) eq_refl)
    as (stored & remaining & missing & Hrun & Hstored & Hmissing & _ & _ & _ & Hroster).
  assert (HndS : NoDup (map student_key [ada; grace])).
  { simpl. repeat constructor; simpl; intuition discriminate. }
  assert (HndG : NoDup (map student_key [grade_of "65f0a1b2c3d4e5f60718293a" "s2" 9])).
  { simpl. repeat constructor; simpl; intuition discriminate. }
  assert (Hincl : incl (map student_key [grade_of "65f0a1b2c3d4e5f60718293a" "s2" 9])
                       (map student_key [ada; grace])).
  { simpl. intros k [<- | []]. simpl. tauto. }
  destruct (Hroster HndS) as [Hremaining Hfull].
  destruct (Hfull HndG Hincl) as (Hlen & Hnd & Hperm).
  exists stored, missing.
  rewrite Hremaining in Hmissing.
  repeat split; assumption.
Defined.

(** C1, as stated, fails: with one student on the roster and one stored
    grade, about a student who is not on the roster, the handler returns
    two entries, and one of them is about nobody on the roster. *)
Lemma stored_grade_off_roster_is_returned :
  fst (fst (run (get_assessment_student_grades (scripted roster_after_withdrawal)
                   quiz_of_math101 "quiz") tt))
    = Ok (success "data" (VList data_after_withdrawal))
  /\ length data_after_withdrawal <> length [ada]
  /\ ~ incl (map student_key data_after_withdrawal) (map student_key [ada]).
Proof.
  split; [reflexivity|]. split; [discriminate|].
  intros Hincl. destruct (Hincl (Some (KStr "s2"))) as [H | []].
  - simpl. tauto.
  - discriminate H.
Qed.

(** ** get_assessment_details *)

Section LibraryMap.
Context {W : Type} (host : Host W).

Lemma file_question_records (m : dict) (question : value) (m' : dict) :
  (forall fields, question = VDict fields -> unique_keys fields) ->
  filed_records m ->
  file_question host m question = Ok m' ->
  filed_records m'.
Proof.
  intros Hq Hm Hfile. unfold file_question in Hfile.
  destruct question as [| | | | | |fields]; simpl in Hfile; try discriminate.
  destruct (dget "_id" fields) as [id|]; [|discriminate].
  simpl in Hfile. injection Hfile as <-.
  intros k v Hk. rewrite dget_dset_cases in Hk.
  destruct (k =? py_str host id)%string.
  - injection Hk as <-. eexists. split; [reflexivity|].
    apply dset_unique, ddel_unique. now apply Hq.
  - exact (Hm k v Hk).
Qed.

Lemma file_questions_records (questions : list value) :
  forall m m',
    Forall (fun q => forall fields, q = VDict fields -> unique_keys fields) questions ->
    filed_records m ->
    file_questions host m questions = Ok m' ->
    filed_records m'.
Proof.
  induction questions as [|q questions IH]; simpl; intros m m' Hqs Hm Hfile.
  - now injection Hfile as <-.
  - inversion Hqs as [|x l Hq Hrest]; subst.
    destruct (file_question host m q) as [m1|] eqn:E; [|discriminate].
    simpl in Hfile. apply (IH m1 m' Hrest); [|exact Hfile].
    now apply (file_question_records m q).
Qed.

(** What the map holds: under each key, a document of the query answer
    whose [_id] reads as that key, with [_id] replaced by the string [id]. *)
Lemma file_questions_origin (questions : list value) :
  forall (m m' : dict) (k : string) (v : value),
    file_questions host m questions = Ok m' ->
    dget k m' = Some v ->
    dget k m = Some v
    \/ exists q id rest,
         In q questions /\ pop q "_id" = Ok (id, rest) /\ k = py_str host id
         /\ store_item rest "id" (VStr k) = Ok v.
Proof.
  induction questions as [|q questions IH]; simpl; intros m m' k v Hfile Hk.
  - injection Hfile as <-. now left.
  - destruct (file_question host m q) as [m1|] eqn:E; [|discriminate].
    simpl in Hfile.
    destruct (IH m1 m' k v Hfile Hk) as [Hm1 | [q' [id [rest [Hin H]]]]].
    + unfold file_question in E.
      destruct (pop q "_id") as [[id rest]|] eqn:Epop; [|discriminate].
      simpl in E.
      destruct (store_item rest "id" (VStr (py_str host id))) as [filed|] eqn:Estore;
        [|discriminate].
      simpl in E. injection E as <-.
      rewrite dget_dset_cases in Hm1.
      destruct (k =? py_str host id)%string eqn:Ek.
      * apply String.eqb_eq in Ek. injection Hm1 as <-. subst k.
        right. exists q, id, rest.
        split; [now left|]. split; [exact Epop|]. split; [reflexivity | exact Estore].
      * now left.
    + right. exists q', id, rest. split; [now right | exact H].
Qed.

Lemma proper_records_unique (l : list value) :
  proper_records (VList l) = true ->
  Forall (fun q => forall fields, q = VDict fields -> unique_keys fields) l.
Proof.
  simpl. rewrite forallb_forall, Forall_forall.
  intros H q Hq fields ->. apply distinct_NoDup. now apply (H _ Hq).
Qed.

Lemma build_questions_data_map_records (questions_data : value) (m : dict) :
  proper_records questions_data = true ->
  build_questions_data_map host questions_data = Ok m ->
  filed_records m.
Proof.
  intros Hwf Hbuild. unfold build_questions_data_map in Hbuild.
  assert (Hempty : filed_records []) by (intros k v Hk; discriminate Hk).
  destruct questions_data as [| | |s| |l|d]; simpl in Hbuild; try discriminate.
  - (* a string: its characters have no [pop] *)
    destruct s as [|c s]; simpl in Hbuild; [now injection Hbuild as <- | discriminate].
  - apply (file_questions_records l [] m); try assumption.
    now apply proper_records_unique.
  - (* a dict: its keys have no [pop] *)
    destruct d as [|[k v] d]; simpl in Hbuild; [now injection Hbuild as <- | discriminate].
Qed.
End LibraryMap.

Lemma merge_question_merged (m : dict) (stub merged : value) :
  filed_records m ->
  merge_question m stub = Ok merged ->
  merged_stub m stub merged.
Proof.
  intros Hm Hmerge. unfold merge_question in Hmerge.
  destruct (subscript stub "question_id") as [qid|] eqn:Eqid; [|discriminate].
  simpl in Hmerge. unfold lookup_question in Hmerge.
  destruct (to_key qid) as [k|] eqn:Ek; [|discriminate]. simpl in Hmerge.
  destruct k as [| |s|]; try discriminate.
  destruct (dget s m) as [lib|] eqn:Elib; [|discriminate]. simpl in Hmerge.
  destruct (subscript stub "marks") as [marks|] eqn:Emarks; [|discriminate].
  simpl in Hmerge.
  destruct (Hm s lib Elib) as [full [-> Hu]].
  destruct stub as [| | | | | |fields]; try discriminate.
  injection Hmerge as <-.
  assert (qid = VStr s) as ->
    by (destruct qid as [|[]| | | | |]; simpl in Ek; congruence).
  exists s, full. repeat split.
  - exact Eqid.
  - exact Elib.
  - intros k Hk Hin. unfold subscript.
    rewrite dget_dset_other by exact Hk.
    rewrite dget_dupdate by exact Hu.
    destruct (od_get_present String.eqb String.eqb_eq k full Hin) as [v Hv].
    unfold dget. now rewrite Hv.
  - rewrite Emarks. unfold subscript. now rewrite dget_dset_same.
Qed.

Lemma listed_store_questions (v : value) (l : list value) (v' : value) :
  store_item v "questions" (VList l) = Ok v' -> listed v' = l.
Proof.
  destruct v; simpl; try discriminate. intros H. injection H as <-.
  unfold listed, subscript. now rewrite dget_dset_same.
Qed.

(** Only a list of stubs can be merged; any other iterable has to be
    empty and is left as it was. *)
Lemma merge_over_questions (f : value -> outcome pyexn value) (holder : value)
    (P : value -> value -> Prop) (holder' : value) :
  (forall x y, f x = Ok y -> P x y) ->
  (forall s, f (VStr s) = Err TypeError) ->
  (questions <~ subscript holder "questions" ;;
   items <~ py_iter questions ;;
   merged <~ omapM f items ;;
   match questions with
   | VList _ => store_item holder "questions" (VList merged)
   | _ => Ok holder
   end) = Ok holder' ->
  Forall2 P (listed holder) (listed holder').
Proof.
  intros HP Hstr H.
  destruct (subscript holder "questions") as [questions|] eqn:Eq; [|discriminate].
  simpl in H. unfold listed at 1. rewrite Eq.
  destruct questions as [| | |s| |l|d]; simpl in H; try discriminate.
  - destruct s as [|c s]; simpl in H; [|now rewrite Hstr in H].
    injection H as <-. unfold listed. rewrite Eq. constructor.
  - destruct (omapM f l) as [merged|] eqn:Em; [|discriminate]. simpl in H.
    rewrite (listed_store_questions _ _ _ H).
    apply omapM_ok_Forall2 in Em.
    clear H Eq. induction Em; constructor; auto.
  - destruct d as [|[k v] d]; simpl in H; [|now rewrite Hstr in H].
    injection H as <-. unfold listed. rewrite Eq. constructor.
Qed.

(** The preparation of the assessment for output leaves its sections as
    they were found. *)
Lemma listed_prepared (found rest prepared signed : value) (id url : value) (text : string) :
  pop found "_id" = Ok (id, rest) ->
  store_item rest "id" (VStr text) = Ok prepared ->
  store_item prepared "question_paper" url = Ok signed ->
  listed signed = listed found.
Proof.
  destruct found as [| | | | | |fields]; simpl; try discriminate.
  destruct (dget "_id" fields); [|discriminate].
  intros H. injection H as _ <-. simpl. intros H. injection H as <-.
  simpl. intros H. injection H as <-.
  unfold listed, subscript.
  rewrite !dget_dset_other by discriminate.
  now rewrite dget_ddel_other by discriminate.
Qed.

Lemma merge_sections_merged (m : dict) (assessment_data data : value) :
  filed_records m ->
  merge_sections m assessment_data = Ok data ->
  Forall2 (fun section section' =>
             Forall2 (merged_stub m) (listed section) (listed section'))
          (listed assessment_data) (listed data).
Proof.
  intros Hm H.
  apply (merge_over_questions (merge_section m) assessment_data _ data); [| |exact H].
  - intros section section' Hs.
    apply (merge_over_questions (merge_question m) section _ section'); [| |exact Hs].
    + intros stub merged. now apply merge_question_merged.
    + reflexivity.
  - reflexivity.
Qed.

(** C3: whenever get_assessment_details returns, its data is the found
    assessment with, section by section and stub by stub, the stub
    replaced by a record that agrees with the library document filed
    under the stub's question_id on every field of that document other
    than marks, and whose marks is the value the stub had.  (The library
    documents are those answered by the query, with [_id] turned into a
    string [id].) *)
Theorem details_questions_follow_library :
  forall (W : Type) (host : Host W) (assessment : AssessmentId)
         (assesment_type : string) (w w' : W) (response : value) (trace : list call),
    (forall collection query w0 w1 documents,
        respond host (find collection query) w0 = (Ok documents, w1) ->
        proper_records documents = true) ->
    run (get_assessment_details host assessment assesment_type) w = (Ok response, w', trace) ->
    exists (oid : string) (found : value) (w1 : W) (collection query : value) (w5 : W)
           (questions_data : value) (questions_data_map : dict) (data : value),
      ObjectId (i_assessment_id assessment) = Ok oid
      /\ respond host (find_one (type_db assesment_type) (VDict [("_id", VOid oid)])) w
         = (Ok found, w1)
      /\ respond host (find collection query) w5 = (Ok questions_data, w')
      /\ build_questions_data_map host questions_data = Ok questions_data_map
      /\ response = success "data" data
      /\ Forall2 (fun section section' =>
                    Forall2 (merged_stub questions_data_map)
                            (listed section) (listed section'))
                 (listed found) (listed data).
Proof.
  intros W host a atype w w' response trace Hproper Hrun.
  unfold run in Hrun.
  destruct (get_assessment_details host a atype (w, [])) as [r [w2 tr]] eqn:E.
  injection Hrun as -> -> ->.
  apply boundary_ok_inv in E. unfold details_body in E.
  invert_bind E fetched s1 Hfetch.
  invert_bind E data s2 Hresolve.
  injection E as Hresponse Hs2. subst response s2.
  apply lift_ok_inv in Hresolve. destruct Hresolve as [Hresolve Hs1].
  unfold fetch_details in Hfetch.
  invert_bind Hfetch oid s3 Hoid. apply lift_ok_inv in Hoid. destruct Hoid as [Hoid ->].
  invert_bind Hfetch found s4 Hfound. apply invoke_ok_inv in Hfound.
  destruct Hfound as [Hfound _].
  destruct (negb (truthy found)); [discriminate Hfetch|].
  invert_bind Hfetch popped s5 Hpop. apply lift_ok_inv in Hpop. destruct Hpop as [Hpop ->].
  invert_bind Hfetch prepared s6 Hid. apply lift_ok_inv in Hid. destruct Hid as [Hid ->].
  invert_bind Hfetch question_ids s7 Hids.
  invert_bind Hfetch storage s8 Hstorage.
  invert_bind Hfetch object_url s9 Hurl.
  invert_bind Hfetch signed_url s10 Hsigned.
  invert_bind Hfetch signed s11 Hstore. apply lift_ok_inv in Hstore. destruct Hstore as [Hstore ->].
  invert_bind Hfetch course s12 Hcourse.
  invert_bind Hfetch instance s13 Hinstance.
  invert_bind Hfetch collection s14 Hcollection.
  invert_bind Hfetch questions_data s15 Hquestions.
  injection Hfetch as Hfetched Hs15. subst fetched s15.
  apply invoke_ok_inv in Hquestions. destruct Hquestions as [Hquestions _].
  rewrite <- Hs1 in Hquestions. simpl fst in Hquestions.
  simpl in Hresolve. unfold resolve_questions in Hresolve.
  destruct (build_questions_data_map host questions_data) as [m|] eqn:Hmap; [|discriminate].
  simpl in Hresolve.
  exists oid, found, (fst s4), collection.
  eexists. exists (fst s14), questions_data, m, data.
  split; [exact Hoid|]. split; [exact Hfound|]. split; [exact Hquestions|].
  split; [exact Hmap|]. split; [reflexivity|].
  destruct popped as [id rest].
  rewrite <- (listed_prepared found rest prepared signed id signed_url _ Hpop Hid Hstore).
  apply merge_sections_merged; [|exact Hresolve].
  apply (build_questions_data_map_records host questions_data); [|exact Hmap].
  exact (Hproper _ _ _ _ _ Hquestions).
Qed.

Lemma details_questions_follow_library_witness :
  exists (oid : string) (found : value) (w1 : unit) (collection query : value) (w5 : unit)
         (questions_data : value) (questions_data_map : dict) (data : value),
    ObjectId "65f0a1b2c3d4e5f60718293a" = Ok oid
    /\ respond (scripted (library [library_1; library_2]))
         (find_one (VStr "quiz_db") (VDict [("_id", VOid oid)])) tt
       = (Ok found, w1)
    /\ respond (scripted (library [library_1; library_2])) (find collection query) w5
       = (Ok questions_data, tt)
    /\ build_questions_data_map (scripted (library [library_1; library_2])) questions_data
       = Ok questions_data_map
    /\ quiz_1_details = success "data" data
    /\ Forall2 (fun section section' =>
                  Forall2 (merged_stub questions_data_map)
                          (listed section) (listed section'))
               (listed found) (listed data).
Proof.
  apply (details_questions_follow_library unit (scripted (library [library_1; library_2]))
           quiz_request "quiz" tt tt quiz_1_details quiz_1_calls).
  - intros collection query w0 w1 documents H. simpl in H.
    injection H as <-. reflexivity.
  - reflexivity.
Defined.

(** A merge that succeeds has found every stub's question in the map. *)
Lemma merge_sections_all_matched (m : dict) (assessment_data data section stub : value) :
  merge_sections m assessment_data = Ok data ->
  In section (listed assessment_data) ->
  In stub (listed section) ->
  exists (s : string) (full : value),
    subscript stub "question_id" = Ok (VStr s) /\ dget s m = Some full.
Proof.
  intros Hmerge Hsection Hstub.
  assert (Hall : Forall2 (fun sec (_ : value) =>
                            forall q, In q (listed sec) ->
                                      exists s full,
                                        subscript q "question_id" = Ok (VStr s)
                                        /\ dget s m = Some full)
                         (listed assessment_data) (listed data)).
  { apply (merge_over_questions (merge_section m) assessment_data _ data);
      [| reflexivity | exact Hmerge].
    intros sec sec' Hsec q Hq.
    assert (Hstubs : Forall2 (fun x (_ : value) =>
                                exists s full,
                                  subscript x "question_id" = Ok (VStr s)
                                  /\ dget s m = Some full)
                             (listed sec) (listed sec')).
    { apply (merge_over_questions (merge_question m) sec _ sec');
        [| reflexivity | exact Hsec].
      intros x y Hxy. unfold merge_question in Hxy.
      destruct (subscript x "question_id") as [qid|]; [|discriminate].
      simpl in Hxy. unfold lookup_question in Hxy.
      destruct (to_key qid) as [k|] eqn:Ek; [|discriminate]. simpl in Hxy.
      destruct k as [| |s|]; try discriminate.
      destruct (dget s m) as [full|] eqn:Efull; [|discriminate].
      assert (qid = VStr s) as ->
        by (destruct qid as [|[]| | | | |]; simpl in Ek; congruence).
      now exists s, full. }
    destruct (Forall2_left_In _ _ _ q Hstubs Hq) as [_ Hfound]. exact Hfound. }
  destruct (Forall2_left_In _ _ _ section Hall Hsection) as [_ Hfound].
  now apply Hfound.
Qed.

(** C5: when the assessment exists and every fetch has answered, but some
    embedded question identifier has no document filed under it in the
    map built from the question-library answer, the lookup of that
    identifier raises, the [try] block ends in a Python runtime exception
    (not an HTTPException, so not a 404), and the handler answers with
    the generic 500; no data is returned. *)
Theorem details_unmatched_question_is_500 :
  forall (W : Type) (host : Host W) (assessment : AssessmentId)
         (assesment_type : string) (w : W) (s1 : W * list call)
         (assessment_data questions_data : value) (questions_data_map : dict)
         (section stub question_id : value),
    fetch_details host assessment assesment_type (w, [])
      = (Ok (assessment_data, questions_data), s1) ->
    build_questions_data_map host questions_data = Ok questions_data_map ->
    In section (listed assessment_data) ->
    In stub (listed section) ->
    subscript stub "question_id" = Ok question_id ->
    (forall s, question_id = VStr s -> dget s questions_data_map = None) ->
    (exists e, lookup_question questions_data_map question_id = Err e)
    /\ (exists e, details_body host assessment assesment_type (w, []) = (Err (Builtin e), s1))
    /\ run (get_assessment_details host assessment assesment_type) w
       = (Err (HTTPException HTTP_500_INTERNAL_SERVER_ERROR "Internal server error"),
          fst s1, snd s1).
Proof.
  intros W host a atype w s1 ad qd m section stub qid Hfetch Hmap Hsection Hstub Hqid Hnone.
  assert (Hbody : exists e, details_body host a atype (w, []) = (Err (Builtin e), s1)).
  { unfold details_body. rewrite (bind_ok _ _ _ _ _ Hfetch).
    cbn [fst snd]. unfold resolve_questions. rewrite Hmap. cbn [obind].
    destruct (merge_sections m ad) as [data|e] eqn:Emerge.
    - destruct (merge_sections_all_matched m ad data section stub Emerge Hsection Hstub)
        as [s [full [Hs Hfull]]].
      rewrite Hqid in Hs. injection Hs as ->.
      rewrite (Hnone s eq_refl) in Hfull. discriminate.
    - exists e. reflexivity. }
  split; [|split; [exact Hbody|]].
  - unfold lookup_question.
    destruct qid as [|b|n|s|o|l|d]; simpl; eauto.
    rewrite (Hnone s eq_refl). eauto.
  - destruct Hbody as [e Hbody].
    unfold run, get_assessment_details.
    rewrite (boundary_builtin _ _ _ _ _ Hbody). now destruct s1.
Qed.

Lemma details_unmatched_question_is_500_witness :
  (exists e, lookup_question
               [("65f0a1b2c3d4e5f607182a01",
                 VDict [("question_latex", VStr "$\frac{1}{2} + \frac{1}{3}$");
                        ("marks", VInt 1);
                        ("topic", VStr "fractions");
                        ("id", VStr "65f0a1b2c3d4e5f607182a01")])]
               (VStr "65f0a1b2c3d4e5f607182a02") = Err e)
  /\ (exists e, details_body (scripted (library [library_1])) quiz_request "quiz" (tt, [])
                = (Err (Builtin e), (tt, quiz_1_calls)))
  /\ run (get_assessment_details (scripted (library [library_1])) quiz_request "quiz") tt
     = (Err (HTTPException 500 "Internal server error"), tt, quiz_1_calls).
Proof.
  eapply (details_unmatched_question_is_500 unit (scripted (library [library_1]))
            quiz_request "quiz" tt (tt, quiz_1_calls) _ (VList [library_1]) _ _ stub_2
            (VStr "65f0a1b2c3d4e5f607182a02")).
  - vm_compute. reflexivity.
  - vm_compute. reflexivity.
  - vm_compute. left. reflexivity.
  - vm_compute. right. left. reflexivity.
  - reflexivity.
  - intros s Hs. injection Hs as <-. reflexivity.
Defined.

(** * Further properties of the handlers *)

(** ** Which calls a handler can make *)

Section Within.
Context {W : Type} (host : Host W) (p : call -> bool).
#[local] Abbreviation M := (@M W).

Lemma within_ret {A} (a : A) : calls_within p (ret (W:=W) a).
Proof. intros s Hs. exact Hs. Qed.

Lemma within_raise {A} (e : exn) : calls_within p (raise (W:=W) (A:=A) e).
Proof. intros s Hs. exact Hs. Qed.

Lemma within_lift {A} (c : outcome pyexn A) : calls_within p (lift (W:=W) c).
Proof. intros s Hs. exact Hs. Qed.

Lemma within_now : calls_within p (now host).
Proof.
  intros s Hs. unfold now. destruct (utcnow host (fst s)). exact Hs.
Qed.

Lemma within_fresh : calls_within p (fresh host).
Proof.
  intros s Hs. unfold fresh. destruct (new_object_id host (fst s)). exact Hs.
Qed.

Lemma within_invoke (c : call) : p c = true -> calls_within p (invoke host c).
Proof.
  intros Hc s Hs. unfold invoke. destruct (respond host c (fst s)). simpl.
  rewrite forallb_app, Hs. simpl. now rewrite Hc.
Qed.

Lemma within_bind {A B} (c : M A) (k : A -> M B) :
  calls_within p c -> (forall a, calls_within p (k a)) -> calls_within p (bind c k).
Proof.
  intros Hc Hk s Hs. unfold bind. specialize (Hc s Hs).
  destruct (c s) as [[a|e] s1]; [now apply Hk | exact Hc].
Qed.

Lemma within_try_except {A} (c : M A) (h : exn -> M A) :
  calls_within p c -> (forall e, calls_within p (h e)) -> calls_within p (try_except c h).
Proof.
  intros Hc Hh s Hs. unfold try_except. specialize (Hc s Hs).
  destruct (c s) as [[a|e] s1]; [exact Hc | now apply Hh].
Qed.

Lemma within_boundary {A} (detail : string) (body : M A) :
  calls_within p body -> calls_within p (boundary detail body).
Proof.
  intros Hb. apply within_try_except; [exact Hb|].
  intros e. destruct e; apply within_raise.
Qed.

Lemma within_mapM {A B} (f : A -> M B) (l : list A) :
  (forall x, calls_within p (f x)) -> calls_within p (mapM f l).
Proof.
  intros Hf. induction l as [|x l IH]; simpl.
  - apply within_ret.
  - apply within_bind; [apply Hf|]. intros y.
    apply within_bind; [exact IH|]. intros ys. apply within_ret.
Qed.

Lemma within_run {A} (c : M A) (w : W) :
  calls_within p c -> forallb p (snd (run c w)) = true.
Proof.
  intros Hc. unfold run. specialize (Hc (w, []) eq_refl).
  now destruct (c (w, [])) as [r [w1 tr]].
Qed.
End Within.

Ltac within_step :=
  first
    [ progress cbv zeta
    | apply within_boundary
    | apply within_bind; [|intros ?]
    | apply within_try_except; [|intros ?]
    | apply within_mapM; intros ?
    | apply within_ret
    | apply within_raise
    | apply within_lift
    | apply within_now
    | apply within_fresh
    | apply within_invoke; reflexivity ].

(** The three handlers that answer questions never write: whatever the
    collaborators answer, list_assessments, get_assessment_details and
    get_assessment_student_grades call only queries, the course helper
    and the link signer; no insert, update, delete or rendering. *)
Theorem reading_handlers_never_write :
  forall (W : Type) (host : Host W) (assesment_type : string) (w : W),
    (forall assessment_filter,
        forallb reads_only
          (snd (run (list_assessments host assessment_filter assesment_type) w)) = true)
    /\ (forall assessment,
           forallb reads_only
             (snd (run (get_assessment_details host assessment assesment_type) w)) = true)
    /\ (forall assessment_course,
           forallb reads_only
             (snd (run (get_assessment_student_grades host assessment_course assesment_type) w))
           = true).
Proof.
  intros W host atype w. split; [|split].
  - intros af. apply within_run. unfold list_assessments.
    apply within_boundary. apply within_bind.
    + unfold check_filters. destruct (l_filters af) as [[|kv filters]|];
        try apply within_ret.
      destruct (invalid_filters (kv :: filters)); [apply within_ret | apply within_raise].
    + intros _.
      apply within_bind; [apply within_invoke; reflexivity|]. intros pipeline.
      apply within_bind; [apply within_invoke; reflexivity|]. intros found.
      destruct (truthy found); apply within_ret.
  - intros a. apply within_run. unfold get_assessment_details, details_body.
    apply within_boundary. apply within_bind; [|intros fetched; repeat within_step].
    unfold fetch_details. cbv zeta.
    apply within_bind; [apply within_lift|]. intros oid.
    apply within_bind; [apply within_invoke; reflexivity|]. intros found.
    destruct (negb (truthy found)); [apply within_raise|].
    apply within_bind; [apply within_lift|]. intros popped.
    apply within_bind; [apply within_lift|]. intros prepared.
    apply within_bind; [|intros question_ids; repeat within_step].
    unfold question_ids_of.
    apply within_bind; [apply within_lift|]. intros sections.
    apply within_bind; [|intros per_section; apply within_ret].
    apply within_mapM. intros section.
    apply within_bind; [apply within_lift|]. intros qs.
    apply within_mapM. intros q.
    apply within_bind; [apply within_lift|]. intros question_id.
    apply within_bind; [|intros o; apply within_ret].
    unfold to_ObjectId.
    destruct question_id;
      first [apply within_fresh | apply within_lift | apply within_ret | apply within_raise].
  - intros ac. apply within_run. unfold get_assessment_student_grades.
    repeat within_step.
Qed.

(** ** create_assessment, further *)

(** With a non-empty question list, a rendering and an insert that both
    answer, create_assessment renders under a new identifier, inserts one
    document whose [_id] is that identifier and whose question_paper is
    what the renderer answered, and returns as assessment_id what the
    insert answered. *)
Theorem create_assessment_renders_then_inserts :
  forall (W : Type) (host : Host W) (assessment : Assessment)
         (assesment_type : string) (w w1 w2 w3 w4 : W)
         (first : AssessmentSection) (others : list AssessmentSection)
         (last_updated question_paper inserted : value) (assessment_id : string),
    let document :=
      dset "question_paper" question_paper
        (dset "_id" (VOid assessment_id)
           (assessment_doc assessment (first :: others) last_updated)) in
    a_questions assessment = Some (first :: others) ->
    utcnow host w = (last_updated, w1) ->
    new_object_id host w1 = (assessment_id, w2) ->
    respond host (generate_assessment_document assesment_type assessment_id (inl assessment)) w2
      = (Ok question_paper, w3) ->
    respond host (insert_one (type_db assesment_type) (VDict document)) w3
      = (Ok inserted, w4) ->
    run (create_assessment host assessment assesment_type) w
      = (Ok (success "assessment_id" inserted), w4,
         [generate_assessment_document assesment_type assessment_id (inl assessment);
          insert_one (type_db assesment_type) (VDict document)])
    /\ dget "_id" document = Some (VOid assessment_id)
    /\ dget "question_paper" document = Some question_paper
    /\ od_keys document
       = ["name"; "course"; "start_date"; "end_date"; "total_time"; "total_marks";
          "lessons"; "questions"; "last_updated"; "_id"; "question_paper"].
Proof.
  intros W host a atype w w1 w2 w3 w4 first others last qp inserted aid document
         Hq Hnow Hfresh Hrender Hinsert.
  split; [|repeat split].
  unfold run, create_assessment, boundary, try_except.
  rewrite Hq.
  step_with Hnow. step_with Hfresh. step_with Hrender.
  fold document. step_with Hinsert.
  reflexivity.
Qed.

(** When the renderer raises, create_assessment inserts nothing: the
    rendering is its only call, and the exception reaches the caller as
    it is if it is an HTTPException and as the generic 500 otherwise. *)
Theorem create_assessment_render_failure_inserts_nothing :
  forall (W : Type) (host : Host W) (assessment : Assessment)
         (assesment_type : string) (w w1 w2 w3 : W)
         (first : AssessmentSection) (others : list AssessmentSection)
         (last_updated : value) (assessment_id : string) (e : exn),
    a_questions assessment = Some (first :: others) ->
    utcnow host w = (last_updated, w1) ->
    new_object_id host w1 = (assessment_id, w2) ->
    respond host (generate_assessment_document assesment_type assessment_id (inl assessment)) w2
      = (Err e, w3) ->
    run (create_assessment host assessment assesment_type) w
      = (Err (at_boundary "Internal server error" e), w3,
         [generate_assessment_document assesment_type assessment_id (inl assessment)]).
Proof.
  intros W host a atype w w1 w2 w3 first others last aid e Hq Hnow Hfresh Hrender.
  unfold run, create_assessment, boundary, try_except.
  rewrite Hq.
  step_with Hnow. step_with Hfresh. step_with Hrender.
  destruct e; reflexivity.
Qed.

(** ** list_assessments, further *)

Lemma invalid_filters_none (filters : dict) :
  (forall name, In name (od_keys filters) -> In name valid_filters) ->
  invalid_filters filters = [].
Proof.
  unfold invalid_filters. generalize (od_keys filters) as ks.
  induction ks as [|k ks IH]; intros Hall; [reflexivity|].
  assert (Hk : existsb (String.eqb k) valid_filters = true).
  { apply existsb_exists. exists k. split; [|apply String.eqb_refl].
    apply Hall. now left. }
  cbn [filter]. rewrite Hk. cbn [negb]. apply IH.
  intros name Hin. apply Hall. now right.
Qed.

(** When the filter object is absent, empty or names only course_id, year
    and month, list_assessments builds the query and runs it; what the
    aggregation answers is returned as data, and an answer that is empty
    or None is returned as the empty list, with success. *)
Theorem list_assessments_allowed_filters_run_query :
  forall (W : Type) (host : Host W) (assessment_filter : ListAssessments)
         (assesment_type : string) (w w1 w2 : W) (pipeline found : value),
    (forall filters name,
        l_filters assessment_filter = Some filters ->
        In name (od_keys filters) -> In name valid_filters) ->
    respond host (generate_assessment_list_query assessment_filter) w = (Ok pipeline, w1) ->
    respond host (run_assessments_list_aggregation (type_db assesment_type) pipeline) w1
      = (Ok found, w2) ->
    run (list_assessments host assessment_filter assesment_type) w
      = (Ok (success "data" (if truthy found then found else VList [])), w2,
         [generate_assessment_list_query assessment_filter;
          run_assessments_list_aggregation (type_db assesment_type) pipeline]).
Proof.
  intros W host af atype w w1 w2 pipeline found Hall Hgen Hrun.
  assert (Hcheck : check_filters af (w, []) = (Ok tt, (w, []))).
  { unfold check_filters. destruct (l_filters af) as [[|kv filters]|] eqn:Ef;
      try reflexivity.
    rewrite (invalid_filters_none (kv :: filters)); [reflexivity|].
    intros name. now apply Hall. }
  unfold run, list_assessments, boundary, try_except.
  rewrite (bind_ok _ _ _ _ _ Hcheck).
  step_with Hgen. step_with Hrun.
  destruct (truthy found); reflexivity.
Qed.

(** ** get_assessment_details, further *)

(** When the assessment query finds nothing, get_assessment_details
    raises 404 "No Data found for given assessment" and has made no other
    call: nothing is signed and the question library is not queried. *)
Theorem details_of_missing_assessment_is_404 :
  forall (W : Type) (host : Host W) (assessment : AssessmentId)
         (assesment_type : string) (w w1 : W) (oid : string) (found : value),
    ObjectId (i_assessment_id assessment) = Ok oid ->
    respond host (find_one (type_db assesment_type) (VDict [("_id", VOid oid)])) w
      = (Ok found, w1) ->
    truthy found = false ->
    run (get_assessment_details host assessment assesment_type) w
      = (Err (HTTPException HTTP_404_NOT_FOUND "No Data found for given assessment"), w1,
         [find_one (type_db assesment_type) (VDict [("_id", VOid oid)])]).
Proof.
  intros W host a atype w w1 oid found Hoid Hfind Hnone.
  unfold run, get_assessment_details, details_body, fetch_details, boundary, try_except.
  unfold bind at 1.
  step_with Hoid. step_with Hfind.
  rewrite Hnone. reflexivity.
Qed.

(** ** Identifiers that are not ObjectIds *)

(** An identifier that [ObjectId] refuses stops get_assessment_details and
    delete_assessment before their first call: both answer with their
    500, and nothing has been queried or deleted. *)
Theorem malformed_identifier_stops_before_any_call :
  forall (W : Type) (host : Host W) (assessment_id : string) (course : value)
         (assesment_type : string) (w : W) (e : pyexn),
    ObjectId assessment_id = Err e ->
    run (get_assessment_details host {| i_assessment_id := assessment_id |} assesment_type) w
      = (Err (HTTPException HTTP_500_INTERNAL_SERVER_ERROR "Internal server error"), w, [])
    /\ run (delete_assessment host
              {| c_assessment_id := assessment_id; c_course := course |} assesment_type) w
       = (Err (HTTPException HTTP_500_INTERNAL_SERVER_ERROR "Failed to delete assessment"),
          w, []).
Proof.
  intros W host aid course atype w e Hoid. split.
  - unfold run, get_assessment_details, details_body, fetch_details, boundary, try_except.
    unfold bind at 1. simpl i_assessment_id.
    step_with Hoid. reflexivity.
  - unfold run, delete_assessment, boundary, try_except. simpl c_assessment_id.
    step_with Hoid. reflexivity.
Qed.

(** edit_assessment converts the identifier only after rendering: with an
    identifier that [ObjectId] refuses, the document is rendered under
    that identifier, then the handler answers 500 and no update is
    issued. *)
Theorem edit_assessment_malformed_identifier_still_renders :
  forall (W : Type) (host : Host W) (assessment : EditAssessment)
         (assesment_type : string) (w w1 w2 : W)
         (sections : list AssessmentSection)
         (last_updated question_paper : value) (e : pyexn),
    a_questions (e_assessment assessment) = Some sections ->
    utcnow host w = (last_updated, w1) ->
    respond host (generate_assessment_document assesment_type
                    (e_assessment_id assessment) (inr assessment)) w1
      = (Ok question_paper, w2) ->
    ObjectId (e_assessment_id assessment) = Err e ->
    run (edit_assessment host assessment assesment_type) w
      = (Err (HTTPException HTTP_500_INTERNAL_SERVER_ERROR "Internal server error"), w2,
         [generate_assessment_document assesment_type
            (e_assessment_id assessment) (inr assessment)]).
Proof.
  intros W host a atype w w1 w2 sections last qp e Hq Hnow Hrender Hoid.
  unfold run, edit_assessment, boundary, try_except.
  rewrite Hq.
  step_with Hnow. step_with Hrender. step_with Hoid.
  reflexivity.
Qed.

(** ** create_assessment and edit_assessment on the same payload *)

(** Only create_assessment checks that there are questions: a payload
    with an empty question list is refused by create_assessment with 400
    and no call, while edit_assessment renders it and updates the stored
    document to one with no sections. *)
Theorem edit_accepts_the_empty_paper_create_refuses :
  forall (W : Type) (host : Host W) (assessment : EditAssessment)
         (assesment_type : string) (w w1 w2 w3 : W)
         (last_updated question_paper stat : value) (oid : string),
    let update_data :=
      dset "question_paper" question_paper
        (assessment_doc (e_assessment assessment) [] last_updated) in
    a_questions (e_assessment assessment) = Some [] ->
    utcnow host w = (last_updated, w1) ->
    respond host (generate_assessment_document assesment_type
                    (e_assessment_id assessment) (inr assessment)) w1
      = (Ok question_paper, w2) ->
    ObjectId (e_assessment_id assessment) = Ok oid ->
    respond host (update_one (type_db assesment_type) (VDict [("_id", VOid oid)])
                    (VDict update_data)) w2
      = (Ok stat, w3) ->
    run (create_assessment host (e_assessment assessment) assesment_type) w
      = (Err (HTTPException HTTP_400_BAD_REQUEST
                "Assessment must contain at least one question"), w, [])
    /\ run (edit_assessment host assessment assesment_type) w
       = (Ok (success "assessment_id" (VStr (e_assessment_id assessment))), w3,
          [generate_assessment_document assesment_type
             (e_assessment_id assessment) (inr assessment);
           update_one (type_db assesment_type) (VDict [("_id", VOid oid)])
             (VDict update_data)])
    /\ dget "questions" update_data = Some (VList []).
Proof.
  intros W host a atype w w1 w2 w3 last qp stat oid update_data
         Hq Hnow Hrender Hoid Hupdate.
  split; [|split; [|reflexivity]].
  - unfold run, create_assessment. now rewrite Hq.
  - unfold run, edit_assessment, boundary, try_except.
    rewrite Hq.
    step_with Hnow. step_with Hrender. step_with Hoid.
    fold update_data. step_with Hupdate.
    reflexivity.
Qed.

(** ** delete_assessment, further *)

(** The deletion is not undone when what follows fails: if the assessment
    was deleted and the course helper then raises while resolving the
    grade collection, delete_assessment answers with an error (its 500,
    unless the helper raised an HTTPException) although the delete-one
    has been carried out, and no delete is issued for the grade records. *)
Theorem delete_assessment_fails_after_deleting :
  forall (W : Type) (host : Host W) (course_assessment : AssessmentCourse)
         (assesment_type : string) (w w1 w2 w3 : W) (oid : string)
         (result deleted_count instance : value) (e : exn),
    let course := c_course course_assessment in
    ObjectId (c_assessment_id course_assessment) = Ok oid ->
    respond host (delete_one (type_db assesment_type) (VDict [("_id", VOid oid)])) w
      = (Ok result, w1) ->
    subscript result "deleted_count" = Ok deleted_count ->
    py_eq_zero deleted_count = false ->
    respond host (Course course) w1 = (Ok instance, w2) ->
    respond host (get_question_library_collection course) w2 = (Err e, w3) ->
    run (delete_assessment host course_assessment assesment_type) w
      = (Err (at_boundary "Failed to delete assessment" e), w3,
         [delete_one (type_db assesment_type) (VDict [("_id", VOid oid)]);
          Course course;
          get_question_library_collection course]).
Proof.
  intros W host ca atype w w1 w2 w3 oid result cnt instance e course
         Hoid Hdel Hcnt Hnz Hcourse Hcoll.
  unfold run, delete_assessment, boundary, try_except.
  fold course.
  step_with Hoid. step_with Hdel. step_with Hcnt.
  rewrite Hnz.
  step_with Hcourse. step_with Hcoll.
  destruct e; reflexivity.
Qed.

(** ** get_assessment_student_grades, further *)

Lemma students_mapping_of_fails (students : list value) (student : value) :
  In student students -> student_key student = None ->
  forall acc, exists e, students_mapping_of students acc = Err e.
Proof.
  intros Hin Hkey. induction students as [|s students IH]; [contradiction|].
  intros acc. cbn [students_mapping_of].
  destruct (subscript s "student_id") as [sid|e1] eqn:Esid; cbn [obind]; [|now exists e1].
  destruct (to_key sid) as [k|e2] eqn:Ek; cbn [obind]; [|now exists e2].
  destruct Hin as [-> | Hin]; [|now apply IH].
  unfold student_key in Hkey. rewrite Esid, Ek in Hkey. discriminate.
Qed.

(** A roster entry without a usable student_id fails the whole request:
    get_assessment_student_grades answers 500 "Failed to fetch student
    grades" as soon as the roster is read, and the stored grades are never
    queried. *)
Theorem student_grades_roster_entry_without_id_is_500 :
  forall (W : Type) (host : Host W) (assessment_course : AssessmentCourse)
         (assesment_type : string) (w w1 w2 w3 : W)
         (instance collection_name student : value) (students : list value),
    let course := c_course assessment_course in
    respond host (Course course) w = (Ok instance, w1) ->
    respond host (get_question_library_collection course) w1 = (Ok collection_name, w2) ->
    respond host (get_course_students course) w2 = (Ok (VList students), w3) ->
    In student students ->
    student_key student = None ->
    run (get_assessment_student_grades host assessment_course assesment_type) w
      = (Err (HTTPException HTTP_500_INTERNAL_SERVER_ERROR "Failed to fetch student grades"),
         w3,
         [Course course;
          get_question_library_collection course;
          get_course_students course]).
Proof.
  intros W host ac atype w w1 w2 w3 instance cn student students course
         Hcourse Hcoll Hroster Hin Hkey.
  destruct (students_mapping_of_fails students student Hin Hkey []) as [e He].
  unfold run, get_assessment_student_grades, boundary, try_except.
  fold course.
  step_with Hcourse. step_with Hcoll. step_with Hroster.
  cbn [py_iter obind]. step_with He.
  reflexivity.
Qed.

Lemma strike_graded_fails (student_grades : list value) (student_grade : value) :
  In student_grade student_grades -> grade_record student_grade = false ->
  forall students_mapping, exists e, strike_graded student_grades students_mapping = Err e.
Proof.
  intros Hin Hbad. induction student_grades as [|g grades IH]; [contradiction|].
  intros m. cbn [strike_graded].
  destruct (pop g "_id") as [[id rest]|e1] eqn:Epop; cbn [obind fst snd]; [|now exists e1].
  destruct (subscript rest "student_id") as [sid|e2] eqn:Esid; cbn [obind];
    [|now exists e2].
  destruct (to_key sid) as [k|e3] eqn:Ek; cbn [obind]; [|now exists e3].
  destruct Hin as [-> | Hin].
  - exfalso.
    destruct student_grade as [| | | | | |fields]; simpl in Epop; try discriminate.
    destruct (dget "_id" fields) as [x|] eqn:Eid; [|discriminate].
    injection Epop as _ <-.
    pose proof (student_key_without_id (VDict fields)) as Hsame.
    unfold student_key at 1 in Hsame. simpl without_id in Hsame.
    rewrite Esid, Ek in Hsame.
    simpl in Hbad. rewrite Eid, <- Hsame in Hbad. discriminate.
  - destruct (IH Hin (od_del hkey_eqb k m)) as [e He]. rewrite He. now exists e.
Qed.

(** A stored grade without [_id] or without a usable student_id fails the
    whole request: no partial list is returned, the answer is the 500. *)
Theorem student_grades_broken_record_is_500 :
  forall (W : Type) (host : Host W) (assessment_course : AssessmentCourse)
         (assesment_type : string) (w w1 w2 w3 w4 : W)
         (instance collection_name student_grade : value)
         (students student_grades : list value),
    let assessment_id := VStr (c_assessment_id assessment_course) in
    let course := c_course assessment_course in
    let query := VDict [("assessment_id", assessment_id); ("course_id", course)] in
    respond host (Course course) w = (Ok instance, w1) ->
    respond host (get_question_library_collection course) w1 = (Ok collection_name, w2) ->
    respond host (get_course_students course) w2 = (Ok (VList students), w3) ->
    forallb roster_entry students = true ->
    respond host (find (course_type_db host collection_name assesment_type) query) w3
      = (Ok (VList student_grades), w4) ->
    In student_grade student_grades ->
    grade_record student_grade = false ->
    run (get_assessment_student_grades host assessment_course assesment_type) w
      = (Err (HTTPException HTTP_500_INTERNAL_SERVER_ERROR "Failed to fetch student grades"),
         w4,
         [Course course;
          get_question_library_collection course;
          get_course_students course;
          find (course_type_db host collection_name assesment_type) query]).
Proof.
  intros W host ac atype w w1 w2 w3 w4 instance cn g students grades aid course query
         Hcourse Hcoll Hroster Hwf Hfind Hin Hbad.
  destruct (students_mapping_of_total students Hwf []) as [mapping Hmapping].
  destruct (strike_graded_fails grades g Hin Hbad mapping) as [e He].
  assert (Htruthy : truthy (VList grades) = true)
    by (destruct grades; [contradiction | reflexivity]).
  assert (Hreconcile : reconcile aid course (VList students) (VList grades) mapping = Err e).
  { unfold reconcile. rewrite Htruthy. cbn [negb py_iter obind]. now rewrite He. }
  unfold run, get_assessment_student_grades, boundary, try_except.
  fold aid course query.
  step_with Hcourse. step_with Hcoll. step_with Hroster.
  cbn [py_iter obind]. step_with Hmapping. step_with Hfind.
  step_with Hreconcile. reflexivity.
Qed.

Lemma od_values_combine {K V} (ks : list K) (vs : list V) :
  length ks = length vs -> od_values (combine ks vs) = vs.
Proof.
  revert vs. induction ks as [|k ks IH]; intros [|v vs] H; simpl in *;
    try discriminate; [reflexivity|].
  f_equal. apply IH. lia.
Qed.

(** For a roster that lists each student once, the mapping built from it
    gives the roster back: its values, in insertion order, are the roster
    entries in roster order, under their student ids. *)
Theorem roster_mapping_gives_roster_back :
  forall (students : list value),
    forallb roster_entry students = true ->
    NoDup (map student_key students) ->
    exists students_mapping,
      students_mapping_of students [] = Ok students_mapping
      /\ od_values students_mapping = students
      /\ map Some (od_keys students_mapping) = map student_key students.
Proof.
  intros students Hwf Hnd.
  destruct (keys_of_records roster_entry students roster_entry_key Hwf) as [ks Hks].
  assert (Hlen : length ks = length students).
  { apply (f_equal (@length _)) in Hks. rewrite !length_map in Hks. now symmetry. }
  exists (combine ks students). split; [|split].
  - apply (students_mapping_of_distinct students ks []); [exact Hks | | intros k _ []].
    apply NoDup_map_Some. now rewrite <- Hks.
  - now apply od_values_combine.
  - now rewrite od_keys_combine, Hks.
Qed.

(** Whatever the roster, listing a student several times included, the
    mapping built from it has exactly one entry per student id of the
    roster, and every entry is a roster entry filed under its own
    student id. *)
Theorem roster_mapping_has_each_student_once :
  forall (students : list value) (students_mapping : list (hkey * value)),
    students_mapping_of students [] = Ok students_mapping ->
    NoDup (od_keys students_mapping)
    /\ (forall k, In k (od_keys students_mapping) <-> In (Some k) (map student_key students))
    /\ (forall k v, In (k, v) students_mapping -> In v students /\ student_key v = Some k).
Proof.
  intros students m Hm.
  destruct (students_mapping_of_invariant students [] m Hm (NoDup_nil _))
    as [Hnd [Hkeys Hentries]].
  split; [exact Hnd|]. split.
  - intros k. rewrite Hkeys. simpl. tauto.
  - intros k v Hin. destruct (Hentries k v Hin) as [[] | H]. exact H.
Qed.

(** ** The merge of library questions, further *)

Lemma merge_question_keeps_stub_fields (m : dict) (stub merged : value) :
  merge_question m stub = Ok merged -> stub_fields_kept m stub merged.
Proof.
  intros Hmerge. unfold merge_question in Hmerge.
  destruct (subscript stub "question_id") as [qid|] eqn:Eqid; [|discriminate].
  cbn [obind] in Hmerge.
  destruct (lookup_question m qid) as [lib|] eqn:Elib; [|discriminate].
  cbn [obind] in Hmerge.
  destruct (subscript stub "marks") as [marks|]; [|discriminate].
  cbn [obind] in Hmerge.
  destruct stub as [| | | | | |fields]; try discriminate.
  destruct lib as [| | | | | |full]; try discriminate.
  injection Hmerge as <-.
  exists qid, full. split; [exact Eqid|]. split; [exact Elib|].
  intros k Hk Hnone. unfold subscript.
  rewrite dget_dset_other by exact Hk.
  now rewrite dget_dupdate_absent by exact Hnone.
Qed.

Lemma merge_keeps_other_fields (f : value -> outcome pyexn value) (holder holder' : value) :
  (questions <~ subscript holder "questions" ;;
   items <~ py_iter questions ;;
   merged <~ omapM f items ;;
   match questions with
   | VList _ => store_item holder "questions" (VList merged)
   | _ => Ok holder
   end) = Ok holder' ->
  same_but_questions holder holder'.
Proof.
  intros H k Hk.
  destruct (subscript holder "questions") as [questions|]; [|discriminate].
  cbn [obind] in H.
  destruct (py_iter questions) as [items|]; [|discriminate]. cbn [obind] in H.
  destruct (omapM f items) as [merged|]; [|discriminate]. cbn [obind] in H.
  destruct questions; try (injection H as <-; reflexivity).
  destruct holder as [| | | | | |fields]; simpl in H; try discriminate.
  injection H as <-. unfold subscript. now rewrite dget_dset_other by exact Hk.
Qed.

(** The merge touches nothing else.  When it succeeds, the assessment
    keeps every field but its question list, each section keeps every
    field but its question list (so its name and description), and each
    stub keeps every field other than marks that the library document
    does not have. *)
Theorem merge_sections_changes_nothing_else :
  forall (questions_data_map : dict) (assessment_data data : value),
    merge_sections questions_data_map assessment_data = Ok data ->
    same_but_questions assessment_data data
    /\ Forall2 same_but_questions (listed assessment_data) (listed data)
    /\ Forall2 (fun section section' =>
                  Forall2 (stub_fields_kept questions_data_map)
                          (listed section) (listed section'))
               (listed assessment_data) (listed data).
Proof.
  intros m ad data Hmerge. split; [|split].
  - exact (merge_keeps_other_fields (merge_section m) ad data Hmerge).
  - apply (merge_over_questions (merge_section m) ad _ data); [| reflexivity | exact Hmerge].
    intros section section' Hs.
    exact (merge_keeps_other_fields (merge_question m) section section' Hs).
  - apply (merge_over_questions (merge_section m) ad _ data); [| reflexivity | exact Hmerge].
    intros section section' Hs.
    apply (merge_over_questions (merge_question m) section _ section');
      [| reflexivity | exact Hs].
    intros stub merged. apply merge_question_keeps_stub_fields.
Qed.

(** ** The map of library questions *)

Section LibraryMapKeys.
Context {W : Type} (host : Host W).

Lemma file_question_filed (m m1 : dict) (q : value) :
  file_question host m q = Ok m1 ->
  exists id rest filed,
    pop q "_id" = Ok (id, rest)
    /\ store_item rest "id" (VStr (py_str host id)) = Ok filed
    /\ m1 = dset (py_str host id) filed m.
Proof.
  unfold file_question. intros E.
  destruct (pop q "_id") as [[id rest]|]; [|discriminate]. cbn [obind fst snd] in E.
  destruct (store_item rest "id" (VStr (py_str host id))) as [filed|] eqn:Estore;
    [|discriminate].
  cbn [obind] in E. injection E as <-.
  exists id, rest, filed. repeat split. exact Estore.
Qed.

Lemma file_questions_keeps_entry (questions : list value) :
  forall (m m' : dict) (k : string) (v : value),
    file_questions host m questions = Ok m' ->
    dget k m = Some v ->
    (forall q' id' rest', In q' questions -> pop q' "_id" = Ok (id', rest') ->
                          py_str host id' <> k) ->
    dget k m' = Some v.
Proof.
  induction questions as [|q questions IH]; simpl; intros m m' k v Hfile Hk Hlater.
  - now injection Hfile as <-.
  - destruct (file_question host m q) as [m1|] eqn:E; [|discriminate].
    cbn [obind] in Hfile.
    destruct (file_question_filed m m1 q E) as (id & rest & filed & Hpop & _ & ->).
    apply (IH _ m' k v Hfile).
    + rewrite dget_dset_other; [exact Hk|].
      intros ->. exact (Hlater q id rest (or_introl eq_refl) Hpop eq_refl).
    + intros q' id' rest' Hin. apply Hlater. now right.
Qed.

Lemma file_questions_last_wins (before : list value) :
  forall (m m' : dict) (q : value) (after : list value) (id rest : value),
    file_questions host m (before ++ q :: after) = Ok m' ->
    pop q "_id" = Ok (id, rest) ->
    (forall q' id' rest', In q' after -> pop q' "_id" = Ok (id', rest') ->
                          py_str host id' <> py_str host id) ->
    exists filed,
      store_item rest "id" (VStr (py_str host id)) = Ok filed
      /\ dget (py_str host id) m' = Some filed.
Proof.
  induction before as [|q0 before IH]; simpl; intros m m' q after id rest Hfile Hpop Hlater.
  - destruct (file_question host m q) as [m1|] eqn:E; [|discriminate].
    cbn [obind] in Hfile.
    destruct (file_question_filed m m1 q E) as (id1 & rest1 & filed & Hpop1 & Hstore & ->).
    rewrite Hpop in Hpop1. injection Hpop1 as <- <-.
    exists filed. split; [exact Hstore|].
    apply (file_questions_keeps_entry after _ m' _ filed Hfile); [|exact Hlater].
    apply dget_dset_same.
  - destruct (file_question host m q0) as [m1|]; [|discriminate].
    cbn [obind] in Hfile.
    exact (IH m1 m' q after id rest Hfile Hpop Hlater).
Qed.
End LibraryMapKeys.

(** The keys of the question map are exactly the ids of the documents the
    query answered.  Every document is filed, with [_id] replaced by the
    string [id], under the text of its [_id], unless a later document of
    the answer has the same id text (then the later one is filed there);
    and every entry of the map is such a document. *)
Theorem question_map_is_keyed_by_document_ids :
  forall (W : Type) (host : Host W) (documents : list value) (questions_data_map : dict),
    build_questions_data_map host (VList documents) = Ok questions_data_map ->
    (forall before q after id rest,
        documents = before ++ q :: after ->
        pop q "_id" = Ok (id, rest) ->
        (forall q' id' rest', In q' after -> pop q' "_id" = Ok (id', rest') ->
                              py_str host id' <> py_str host id) ->
        exists filed,
          store_item rest "id" (VStr (py_str host id)) = Ok filed
          /\ dget (py_str host id) questions_data_map = Some filed)
    /\ (forall k v, dget k questions_data_map = Some v ->
                    exists q id rest,
                      In q documents /\ pop q "_id" = Ok (id, rest) /\ k = py_str host id
                      /\ store_item rest "id" (VStr k) = Ok v).
Proof.
  intros W host documents m Hbuild. unfold build_questions_data_map in Hbuild.
  cbn [py_iter obind] in Hbuild. split.
  - intros before q after id rest -> Hpop Hlater.
    exact (file_questions_last_wins host before [] m q after id rest Hbuild Hpop Hlater).
  - intros k v Hk.
    destruct (file_questions_origin host documents [] m k v Hbuild Hk) as [H | H];
      [discriminate H | exact H].
Qed.

(** ** What get_assessment_details returns *)

Lemma dget_ddel_same (k : string) (d : dict) :
  unique_keys d -> dget k (ddel k d) = None.
Proof.
  unfold unique_keys, dget, ddel.
  induction d as [|[k' v'] d IH]; simpl; intros Hd; [reflexivity|].
  inversion Hd as [|x l Hnotin Hrest]; subst.
  destruct (k =? k')%string eqn:E; simpl.
  - apply String.eqb_eq in E. subst k'.
    now apply (od_get_absent String.eqb String.eqb_eq).
  - rewrite E. now apply IH.
Qed.

Lemma details_answer_inv {W} (host : Host W) (assessment : AssessmentId)
    (assesment_type : string) (w w' : W) (response : value) (trace : list call) :
  run (get_assessment_details host assessment assesment_type) w = (Ok response, w', trace) ->
  exists (oid : string) (found id rest prepared url signed_url signed : value)
         (questions_data data : value) (w1 wa wb : W),
    ObjectId (i_assessment_id assessment) = Ok oid
    /\ respond host (find_one (type_db assesment_type) (VDict [("_id", VOid oid)])) w
       = (Ok found, w1)
    /\ truthy found = true
    /\ pop found "_id" = Ok (id, rest)
    /\ store_item rest "id" (VStr (py_str host id)) = Ok prepared
    /\ subscript prepared "question_paper" = Ok url
    /\ respond host (create_signed_url url) wa = (Ok signed_url, wb)
    /\ store_item prepared "question_paper" signed_url = Ok signed
    /\ resolve_questions host questions_data signed = Ok data
    /\ response = success "data" data.
Proof.
  intros Hrun. unfold run in Hrun.
  destruct (get_assessment_details host assessment assesment_type (w, []))
    as [r [w2 tr]] eqn:E.
  injection Hrun as -> -> ->.
  apply boundary_ok_inv in E. unfold details_body in E.
  invert_bind E fetched s1 Hfetch.
  invert_bind E data s2 Hresolve.
  injection E as Hresponse Hs2.
  apply lift_ok_inv in Hresolve. destruct Hresolve as [Hresolve _].
  unfold fetch_details in Hfetch.
  invert_bind Hfetch oid s3 Hoid. apply lift_ok_inv in Hoid. destruct Hoid as [Hoid ->].
  invert_bind Hfetch found s4 Hfound. apply invoke_ok_inv in Hfound.
  destruct Hfound as [Hfound _].
  destruct (truthy found) eqn:Htruthy; [|discriminate Hfetch]. cbn [negb] in Hfetch.
  invert_bind Hfetch popped s5 Hpop. apply lift_ok_inv in Hpop. destruct Hpop as [Hpop ->].
  invert_bind Hfetch prepared s6 Hid. apply lift_ok_inv in Hid. destruct Hid as [Hid ->].
  invert_bind Hfetch question_ids s7 Hids.
  invert_bind Hfetch storage s8 Hstorage.
  invert_bind Hfetch object_url s9 Hurl. apply lift_ok_inv in Hurl. destruct Hurl as [Hurl ->].
  invert_bind Hfetch signed_url s10 Hsigned. apply invoke_ok_inv in Hsigned.
  destruct Hsigned as [Hsigned _].
  invert_bind Hfetch signed s11 Hstore. apply lift_ok_inv in Hstore.
  destruct Hstore as [Hstore ->].
  invert_bind Hfetch course s12 Hcourse.
  invert_bind Hfetch instance s13 Hinstance.
  invert_bind Hfetch collection s14 Hcollection.
  invert_bind Hfetch questions_data s15 Hquestions.
  injection Hfetch as Hfetched Hs15. subst fetched.
  destruct popped as [id rest]. cbn [fst snd] in *.
  exists oid, found, id, rest, prepared, object_url, signed_url, signed,
         questions_data, data, (fst s4), (fst s8), (fst s10).
  repeat split; try assumption. now symmetry.
Qed.

(** What a successful get_assessment_details returns is the found
    assessment prepared for output: [id] is the text of the found [_id],
    question_paper is the link the signer answered for the stored
    reference, every field other than [_id], [id], question_paper and
    questions reads as it was found, and [_id] itself is gone. *)
Theorem details_answer_is_the_found_assessment_prepared :
  forall (W : Type) (host : Host W) (assessment : AssessmentId)
         (assesment_type : string) (w w' : W) (response : value) (trace : list call),
    run (get_assessment_details host assessment assesment_type) w = (Ok response, w', trace) ->
    exists (oid : string) (found id rest url signed_url data : value) (w1 wa wb : W),
      respond host (find_one (type_db assesment_type) (VDict [("_id", VOid oid)])) w
        = (Ok found, w1)
      /\ pop found "_id" = Ok (id, rest)
      /\ subscript found "question_paper" = Ok url
      /\ respond host (create_signed_url url) wa = (Ok signed_url, wb)
      /\ response = success "data" data
      /\ subscript data "id" = Ok (VStr (py_str host id))
      /\ subscript data "question_paper" = Ok signed_url
      /\ (forall k, k <> "_id" -> k <> "id" -> k <> "question_paper" -> k <> "questions" ->
                    subscript data k = subscript found k)
      /\ (forall fields, found = VDict fields -> unique_keys fields ->
                         subscript data "_id" = Err KeyError).
Proof.
  intros W host a atype w w' response trace Hrun.
  destruct (details_answer_inv host a atype w w' response trace Hrun)
    as (oid & found & id & rest & prepared & url & signed_url & signed & qd & data
        & w1 & wa & wb & Hoid & Hfound & Htruthy & Hpop & Hid & Hurl & Hsigned & Hstore
        & Hresolve & Hresponse).
  unfold resolve_questions in Hresolve.
  destruct (build_questions_data_map host qd) as [m|]; [|discriminate].
  cbn [obind] in Hresolve.
  pose proof (merge_keeps_other_fields (merge_section m) signed data Hresolve) as Hsame.
  destruct found as [| | | | | |fields]; simpl in Hpop; try discriminate.
  destruct (dget "_id" fields) as [x|] eqn:Efound; [|discriminate].
  injection Hpop as <- <-.
  simpl in Hid. injection Hid as <-.
  simpl in Hstore. injection Hstore as <-.
  exists oid, (VDict fields), x, (VDict (ddel "_id" fields)), url, signed_url, data, w1, wa, wb.
  split; [exact Hfound|]. split; [simpl; now rewrite Efound|]. split.
  { unfold subscript in *. rewrite dget_dset_other in Hurl by discriminate.
    now rewrite dget_ddel_other in Hurl by discriminate. }
  split; [exact Hsigned|]. split; [exact Hresponse|]. split.
  { rewrite Hsame by discriminate. unfold subscript.
    rewrite dget_dset_other by discriminate. now rewrite dget_dset_same. }
  split.
  { rewrite Hsame by discriminate. unfold subscript. now rewrite dget_dset_same. }
  split.
  - intros k H1 H2 H3 H4. rewrite Hsame by exact H4. unfold subscript.
    rewrite !dget_dset_other by assumption.
    now rewrite dget_ddel_other by assumption.
  - intros fields' Heq Hu. injection Heq as <-.
    rewrite Hsame by discriminate. unfold subscript.
    rewrite !dget_dset_other by discriminate.
    now rewrite dget_ddel_same.
Qed.

(** ** grade_assessment *)

(** What goes into a stored grade: every field of the submitted grade,
    and the request's assessment and course identifiers wherever the
    grade has no field of that name. *)
Lemma grade_document_fields (assessment_id course : value) (grade : dict) :
  unique_keys grade ->
  (forall k v, dget k grade = Some v ->
               subscript (grade_document assessment_id course grade) k = Ok v)
  /\ (dget "assessment_id" grade = None ->
      subscript (grade_document assessment_id course grade) "assessment_id" = Ok assessment_id)
  /\ (dget "course_id" grade = None ->
      subscript (grade_document assessment_id course grade) "course_id" = Ok course).
Proof.
  intros Hu. unfold grade_document, subscript. repeat split.
  - intros k v Hk. rewrite dget_dupdate by exact Hu. now rewrite Hk.
  - intros Hn. rewrite dget_dupdate by exact Hu. now rewrite Hn.
  - intros Hn. rewrite dget_dupdate by exact Hu. now rewrite Hn.
Qed.

(** When the course helper, the query builder and the bulk writer answer,
    grade_assessment hands the builder one document per submitted grade,
    in order, each made of the grade's fields and the request's
    identifiers, writes the operations it gets back to the collection
    named <collection>_<type>_db, and returns the writer's answer as
    data.  It makes no other call: the assessment is not looked up. *)
Theorem grade_assessment_writes_the_submitted_grades :
  forall (W : Type) (host : Host W)
         (grader : grading_call -> W -> outcome exn value * W)
         (grades : AssessmentMarks) (assesment_type : string) (w w1 w2 w3 w4 : W)
         (instance collection_name operations result : value),
    let assessment_id := VStr (m_assessment_id grades) in
    let course := m_course grades in
    let student_grades := map (grade_document assessment_id course) (m_marks grades) in
    Forall unique_keys (m_marks grades) ->
    respond host (Course course) w = (Ok instance, w1) ->
    respond host (get_question_library_collection course) w1 = (Ok collection_name, w2) ->
    grader (generate_assessment_grading_query (VList student_grades)) w2
      = (Ok operations, w3) ->
    grader (bulk_write (course_type_db host collection_name assesment_type) operations) w3
      = (Ok result, w4) ->
    run_grading (grade_assessment host grader grades assesment_type) w
      = (Ok (success "data" result), w4,
         [shared (Course course);
          shared (get_question_library_collection course);
          grading (generate_assessment_grading_query (VList student_grades));
          grading (bulk_write (course_type_db host collection_name assesment_type)
                     operations)])
    /\ Forall2 (fun grade document =>
                  (forall k v, dget k grade = Some v -> subscript document k = Ok v)
                  /\ (dget "assessment_id" grade = None ->
                      subscript document "assessment_id" = Ok assessment_id)
                  /\ (dget "course_id" grade = None ->
                      subscript document "course_id" = Ok course))
               (m_marks grades) student_grades.
Proof.
  intros W host grader grades atype w w1 w2 w3 w4 instance cn ops result aid course sg
         Hu Hcourse Hcoll Hgen Hwrite.
  split.
  - unfold run_grading, grade_assessment, grading_boundary, gbind, call_shared,
      call_grading, gret.
    fold aid course sg. cbn [fst snd].
    rewrite Hcourse. cbn [fst snd]. rewrite Hcoll. cbn [fst snd].
    rewrite Hgen. cbn [fst snd]. rewrite Hwrite. reflexivity.
  - unfold sg. clear Hgen Hwrite sg.
    induction Hu as [|grade marks Hgrade _ IH]; simpl; constructor.
    + exact (grade_document_fields aid course grade Hgrade).
    + exact IH.
Qed.

(** ** The further properties on concrete inputs *)

Lemma create_assessment_renders_then_inserts_witness :
  exists document,
    run (create_assessment (scripted accepting) new_paper "quiz") tt
      = (Ok (success "assessment_id" (VStr "65f0a1b2c3d4e5f60718293a")), tt,
         [generate_assessment_document "quiz" "65f0a1b2c3d4e5f60718293a" (inl new_paper);
          insert_one (VStr "quiz_db") (VDict document)])
    /\ dget "_id" document = Some (VOid "65f0a1b2c3d4e5f60718293a")
    /\ dget "question_paper" document = Some (VStr "gs://papers/quiz1.pdf")
    /\ od_keys document
       = ["name"; "course"; "start_date"; "end_date"; "total_time"; "total_marks";
          "lessons"; "questions"; "last_updated"; "_id"; "question_paper"].
Proof.
  eexists.
  apply (create_assessment_renders_then_inserts unit (scripted accepting) new_paper "quiz"
           tt tt tt tt tt section_a [] (VStr "2024-05-01 09:30:00")
           (VStr "gs://papers/quiz1.pdf") (VStr "65f0a1b2c3d4e5f60718293a")
           "65f0a1b2c3d4e5f60718293a");
    reflexivity.
Defined.

Lemma create_assessment_render_failure_inserts_nothing_witness :
  run (create_assessment (scripted renderer_down) new_paper "quiz") tt
    = (Err (HTTPException 500 "Internal server error"), tt,
       [generate_assessment_document "quiz" "65f0a1b2c3d4e5f60718293a" (inl new_paper)]).
Proof.
  apply (create_assessment_render_failure_inserts_nothing unit (scripted renderer_down)
           new_paper "quiz" tt tt tt tt section_a [] (VStr "2024-05-01 09:30:00")
           "65f0a1b2c3d4e5f60718293a" (External "latex failed"));
    reflexivity.
Defined.

Lemma list_assessments_allowed_filters_run_query_witness :
  run (list_assessments (scripted nothing_listed) by_course_and_year "quiz") tt
    = (Ok (success "data" (VList [])), tt,
       [generate_assessment_list_query by_course_and_year;
        run_assessments_list_aggregation (VStr "quiz_db")
          (VList [VDict [("$match", VDict [("course", VStr "MATH101")])]])]).
Proof.
  apply (list_assessments_allowed_filters_run_query unit (scripted nothing_listed)
           by_course_and_year "quiz" tt tt tt
           (VList [VDict [("$match", VDict [("course", VStr "MATH101")])]]) VNone).
  - intros filters name Hf Hin. injection Hf as <-.
    simpl in Hin. destruct Hin as [<- | [<- | []]]; simpl; tauto.
  - reflexivity.
  - reflexivity.
Defined.

Lemma details_of_missing_assessment_is_404_witness :
  run (get_assessment_details (scripted nothing_found) quiz_request "quiz") tt
    = (Err (HTTPException 404 "No Data found for given assessment"), tt,
       [find_one (VStr "quiz_db") (VDict [("_id", VOid "65f0a1b2c3d4e5f60718293a")])]).
Proof.
  apply (details_of_missing_assessment_is_404 unit (scripted nothing_found) quiz_request
           "quiz" tt tt "65f0a1b2c3d4e5f60718293a" VNone);
    reflexivity.
Defined.

Lemma malformed_identifier_stops_before_any_call_witness :
  run (get_assessment_details (scripted (library [library_1; library_2]))
         {| i_assessment_id := "quiz-1" |} "quiz") tt
    = (Err (HTTPException 500 "Internal server error"), tt, [])
  /\ run (delete_assessment (scripted assessment_only)
            {| c_assessment_id := "quiz-1"; c_course := VStr "MATH101" |} "quiz") tt
     = (Err (HTTPException 500 "Failed to delete assessment"), tt, []).
Proof.
  split.
  - apply (malformed_identifier_stops_before_any_call unit
             (scripted (library [library_1; library_2])) "quiz-1" (VStr "MATH101")
             "quiz" tt InvalidId eq_refl).
  - apply (malformed_identifier_stops_before_any_call unit
             (scripted assessment_only) "quiz-1" (VStr "MATH101")
             "quiz" tt InvalidId eq_refl).
Defined.

Lemma edit_assessment_malformed_identifier_still_renders_witness :
  run (edit_assessment (scripted accepting) mistyped_paper "quiz") tt
    = (Err (HTTPException 500 "Internal server error"), tt,
       [generate_assessment_document "quiz" "quiz-1" (inr mistyped_paper)]).
Proof.
  apply (edit_assessment_malformed_identifier_still_renders unit (scripted accepting)
           mistyped_paper "quiz" tt tt tt [section_a] (VStr "2024-05-01 09:30:00")
           (VStr "gs://papers/quiz1.pdf") InvalidId);
    reflexivity.
Defined.

Lemma edit_accepts_the_empty_paper_create_refuses_witness :
  exists update_data,
    run (create_assessment (scripted accepting) empty_paper "quiz") tt
      = (Err (HTTPException 400 "Assessment must contain at least one question"), tt, [])
    /\ run (edit_assessment (scripted accepting) blank_paper "quiz") tt
       = (Ok (success "assessment_id" (VStr "65f0a1b2c3d4e5f60718293a")), tt,
          [generate_assessment_document "quiz" "65f0a1b2c3d4e5f60718293a" (inr blank_paper);
           update_one (VStr "quiz_db") (VDict [("_id", VOid "65f0a1b2c3d4e5f60718293a")])
             (VDict update_data)])
    /\ dget "questions" update_data = Some (VList []).
Proof.
  eexists.
  apply (edit_accepts_the_empty_paper_create_refuses unit (scripted accepting) blank_paper
           "quiz" tt tt tt tt (VStr "2024-05-01 09:30:00") (VStr "gs://papers/quiz1.pdf")
           (VDict [("matched_count", VInt 0); ("modified_count", VInt 0)])
           "65f0a1b2c3d4e5f60718293a");
    reflexivity.
Defined.

Lemma delete_assessment_fails_after_deleting_witness :
  run (delete_assessment (scripted helper_down) quiz_of_math101 "quiz") tt
    = (Err (HTTPException 500 "Failed to delete assessment"), tt,
       [delete_one (VStr "quiz_db") (VDict [("_id", VOid "65f0a1b2c3d4e5f60718293a")]);
        Course (VStr "MATH101");
        get_question_library_collection (VStr "MATH101")]).
Proof.
  apply (delete_assessment_fails_after_deleting unit (scripted helper_down) quiz_of_math101
           "quiz" tt tt tt tt "65f0a1b2c3d4e5f60718293a"
           (VDict [("deleted_count", VInt 1)]) (VInt 1) VNone
           (External "course service unavailable"));
    reflexivity.
Defined.

Lemma student_grades_roster_entry_without_id_is_500_witness :
  run (get_assessment_student_grades (scripted roster_with_nameless) quiz_of_math101 "quiz") tt
    = (Err (HTTPException 500 "Failed to fetch student grades"), tt,
       [Course (VStr "MATH101");
        get_question_library_collection (VStr "MATH101");
        get_course_students (VStr "MATH101")]).
Proof.
  apply (student_grades_roster_entry_without_id_is_500 unit (scripted roster_with_nameless)
           quiz_of_math101 "quiz" tt tt tt tt VNone (VStr "math101") nameless
           [ada; nameless]);
    try reflexivity.
  right. left. reflexivity.
Defined.

Lemma student_grades_broken_record_is_500_witness :
  run (get_assessment_student_grades (scripted roster_with_broken_grade)
         quiz_of_math101 "quiz") tt
    = (Err (HTTPException 500 "Failed to fetch student grades"), tt,
       [Course (VStr "MATH101");
        get_question_library_collection (VStr "MATH101");
        get_course_students (VStr "MATH101");
        find (VStr "math101_quiz_db")
          (VDict [("assessment_id", VStr "65f0a1b2c3d4e5f60718293a");
                  ("course_id", VStr "MATH101")])]).
Proof.
  apply (student_grades_broken_record_is_500 unit (scripted roster_with_broken_grade)
           quiz_of_math101 "quiz" tt tt tt tt tt VNone (VStr "math101") grade_without_id
           [ada; grace] [grade_of "65f0a1b2c3d4e5f60718293a" "s2" 9; grade_without_id]);
    try reflexivity.
  right. left. reflexivity.
Defined.

Lemma roster_mapping_gives_roster_back_witness :
  exists students_mapping,
    students_mapping_of [ada; grace] [] = Ok students_mapping
    /\ od_values students_mapping = [ada; grace]
    /\ map Some (od_keys students_mapping) = map student_key [ada; grace].
Proof.
  apply (roster_mapping_gives_roster_back [ada; grace]).
  - reflexivity.
  - simpl. repeat constructor; simpl; intuition discriminate.
Defined.

Lemma roster_mapping_has_each_student_once_witness :
  NoDup (od_keys [(KStr "s1", ada_again); (KStr "s2", grace)])
  /\ (forall k, In k (od_keys [(KStr "s1", ada_again); (KStr "s2", grace)])
                <-> In (Some k) (map student_key [ada; grace; ada_again]))
  /\ (forall k v, In (k, v) [(KStr "s1", ada_again); (KStr "s2", grace)] ->
                  In v [ada; grace; ada_again] /\ student_key v = Some k).
Proof.
  apply (roster_mapping_has_each_student_once [ada; grace; ada_again]
           [(KStr "s1", ada_again); (KStr "s2", grace)]).
  reflexivity.
Defined.

Lemma merge_sections_changes_nothing_else_witness :
  same_but_questions quiz_1 quiz_1_merged
  /\ Forall2 same_but_questions (listed quiz_1) (listed quiz_1_merged)
  /\ Forall2 (fun section section' =>
                Forall2 (stub_fields_kept library_map) (listed section) (listed section'))
             (listed quiz_1) (listed quiz_1_merged).
Proof.
  apply (merge_sections_changes_nothing_else library_map quiz_1 quiz_1_merged).
  reflexivity.
Defined.

Lemma question_map_is_keyed_by_document_ids_witness :
  (forall before q after id rest,
      [library_1; library_2] = before ++ q :: after ->
      pop q "_id" = Ok (id, rest) ->
      (forall q' id' rest', In q' after -> pop q' "_id" = Ok (id', rest') ->
                            py_str (scripted accepting) id' <> py_str (scripted accepting) id) ->
      exists filed,
        store_item rest "id" (VStr (py_str (scripted accepting) id)) = Ok filed
        /\ dget (py_str (scripted accepting) id) library_map = Some filed)
  /\ (forall k v, dget k library_map = Some v ->
                  exists q id rest,
                    In q [library_1; library_2] /\ pop q "_id" = Ok (id, rest)
                    /\ k = py_str (scripted accepting) id
                    /\ store_item rest "id" (VStr k) = Ok v).
Proof.
  apply (question_map_is_keyed_by_document_ids unit (scripted accepting)
           [library_1; library_2] library_map).
  reflexivity.
Defined.

Lemma details_answer_is_the_found_assessment_prepared_witness :
  exists (oid : string) (found id rest url signed_url data : value) (w1 wa wb : unit),
    respond (scripted (library [library_1; library_2]))
      (find_one (VStr "quiz_db") (VDict [("_id", VOid oid)])) tt
      = (Ok found, w1)
    /\ pop found "_id" = Ok (id, rest)
    /\ subscript found "question_paper" = Ok url
    /\ respond (scripted (library [library_1; library_2])) (create_signed_url url) wa
       = (Ok signed_url, wb)
    /\ quiz_1_details = success "data" data
    /\ subscript data "id"
       = Ok (VStr (py_str (scripted (library [library_1; library_2])) id))
    /\ subscript data "question_paper" = Ok signed_url
    /\ (forall k, k <> "_id" -> k <> "id" -> k <> "question_paper" -> k <> "questions" ->
                  subscript data k = subscript found k)
    /\ (forall fields, found = VDict fields -> unique_keys fields ->
                       subscript data "_id" = Err KeyError).
Proof.
  apply (details_answer_is_the_found_assessment_prepared unit
           (scripted (library [library_1; library_2])) quiz_request "quiz" tt tt
           quiz_1_details quiz_1_calls).
  reflexivity.
Defined.

Lemma grade_assessment_writes_the_submitted_grades_witness :
  exists student_grades,
    run_grading (grade_assessment (scripted course_helper) bulk_grader two_marks "quiz") tt
      = (Ok (success "data" (VDict [("upserted_count", VInt 2)])), tt,
         [shared (Course (VStr "MATH101"));
          shared (get_question_library_collection (VStr "MATH101"));
          grading (generate_assessment_grading_query (VList student_grades));
          grading (bulk_write (VStr "math101_quiz_db")
                     (VList [VStr "UpdateOne"; VList student_grades]))])
    /\ Forall2 (fun grade document =>
                  (forall k v, dget k grade = Some v -> subscript document k = Ok v)
                  /\ (dget "assessment_id" grade = None ->
                      subscript document "assessment_id"
                      = Ok (VStr "65f0a1b2c3d4e5f60718293a"))
                  /\ (dget "course_id" grade = None ->
                      subscript document "course_id" = Ok (VStr "MATH101")))
               (m_marks two_marks) student_grades.
Proof.
  eexists.
  apply (grade_assessment_writes_the_submitted_grades unit (scripted course_helper)
           bulk_grader two_marks "quiz" tt tt tt tt tt VNone (VStr "math101")
           (VList [VStr "UpdateOne";
                   VList (map (grade_document (VStr "65f0a1b2c3d4e5f60718293a")
                                 (VStr "MATH101")) (m_marks two_marks))])
           (VDict [("upserted_count", VInt 2)]));
    try reflexivity.
  repeat constructor; simpl; intuition discriminate.
Defined.
